(** * ChatFlow-server: message pipeline, moderation state and presence

    A shallow embedding of the chat server's services
    ([services/chatroomService.js], [services/messageService.js],
    [services/userService.js], [utils.js], [database.js]) and of the
    Socket.IO handlers of [app.js].

    Conventions of the embedding.
    - A SQLite table is the list of its rows in rowid order; [database.get]
      is [List.find], [database.all] is [List.filter], an [UPDATE] is a
      [map], a [DELETE] is a [filter].
    - Timestamps are integers of milliseconds ([Date.now()]); the current
      time is an explicit argument [now].
    - A JavaScript string is a [string]; each [ascii] stands for one code
      unit, so [String.length] is the JavaScript [.length].
    - [None] stands for [null]/[undefined] (for the message content also for
      a value that is not a string).
    - A handler or service call is one step: it runs to its end before the
      next begins, and reads the clock once. Two modules follow the code
      further: [Stepwise] has the parts of [handleUserLeaveRoom] between
      its [await]s, [Clocked] has [sendMessage] with one reading of the
      clock for each [new Date()]. *)

From Stdlib Require Import ZArith List String Ascii Bool Lia.
From stdpp Require Import base option gmap strings.
Import ListNotations.

Local Open Scope string_scope.
Local Open Scope Z_scope.

(** ** Results of fallible code *)

(** The errors the services throw, by their place in the source. *)
Inductive validation_error : Type :=
| ImageUrlRequired        (* 图片消息必须包含图片URL *)
| CaptionTooLong          (* 图片说明过长，最多200个字符 *)
| BvRequired              (* B站视频消息必须包含BV号 *)
| BvFormat                (* BV号格式不正确 *)
| MarkdownEmpty           (* Markdown消息内容不能为空 *)
| MarkdownTooLong         (* Markdown内容过长，最多5000个字符 *)
| MarkdownTitleTooLong    (* Markdown标题过长，最多100个字符 *)
| FileIdRequired          (* 文件消息必须包含文件ID *)
| FileNameRequired        (* 文件消息必须包含文件名 *)
| FileSizeInvalid         (* 文件消息必须包含有效的文件大小 *)
| FileExpiryRequired      (* 文件消息必须包含过期时间 *)
| ContentEmpty            (* 消息内容不能为空 *)
| ContentTooLong.         (* 消息内容过长，最多1000个字符 *)

Inductive error : Type :=
| Validation (v : validation_error)
| Muted (remainingMinutes : Z)   (* 您已被禁言，还有 N 分钟解除 *)
| ReplyTargetNotFound            (* 回复的消息不存在 *)
| TypeError                      (* a property read on [undefined] *)
| MessageNotFound                (* 消息不存在 *)
| NoDeletePermission             (* 没有权限删除此消息 *)
| DeleteFailed                   (* 删除消息失败: ... *)
| NoBulkDeletePermission         (* 没有权限批量删除消息 *)
| CreatorMessages                (* 不能删除聊天室创建者的消息 *)
| BulkDeleteFailed               (* 批量删除消息失败: ... *)
| SqlError                       (* a rejected statement *)
| RoomNotFoundOrClosed           (* 聊天室不存在或已被关闭 *)
| PasswordRequired               (* 该聊天室需要密码 *)
| InvalidPassword                (* 密码错误 *)
| RoomNotFound                   (* 聊天室不存在 *)
| OnlyOwnerKicks                 (* 只有房主可以踢出用户 *)
| CannotKickSelf                 (* 不能踢出自己 *)
| UserNotInRoom                  (* 用户不在聊天室中 *)
| NoMutePermission               (* 没有权限禁言用户 *)
| CannotMuteCreator              (* 不能禁言聊天室创建者 *)
| SystemBusy.                    (* 系统繁忙，请稍后重试 *)

Inductive result (A : Type) : Type :=
| Ok (a : A)
| Err (e : error).
Arguments Ok {A} a.
Arguments Err {A} e.

Definition is_ok {A} (r : result A) : bool :=
  match r with Ok _ => true | Err _ => false end.

(** ** utils.js *)

Module Utils.

(** White space removed by [String.prototype.trim], among one-unit codes. *)
Definition is_ws (c : ascii) : bool :=
  let n := nat_of_ascii c in
  (Nat.eqb n 9 || Nat.eqb n 10 || Nat.eqb n 11 || Nat.eqb n 12
   || Nat.eqb n 13 || Nat.eqb n 32 || Nat.eqb n 160)%bool.

Fixpoint trim_start (s : string) : string :=
  match s with
  | EmptyString => EmptyString
  | String c t => if is_ws c then trim_start t else s
  end.

Fixpoint trim_end (s : string) : string :=
  match s with
  | EmptyString => EmptyString
  | String c t =>
      match trim_end t with
      | EmptyString => if is_ws c then EmptyString else String c EmptyString
      | t' => String c t'
      end
  end.

Definition trim (s : string) : string := trim_end (trim_start s).

(** [s.replace(/c/g, r)] for a one-character pattern. *)
Fixpoint replace_all (c : ascii) (r : string) (s : string) : string :=
  match s with
  | EmptyString => EmptyString
  | String x t =>
      if Ascii.eqb x c then r ++ replace_all c r t
      else String x (replace_all c r t)
  end.

Definition lt_char : ascii := "<"%char.
Definition gt_char : ascii := ">"%char.
Definition dquote_char : ascii := ascii_of_nat 34.
Definition squote_char : ascii := "'"%char.
Definition slash_char : ascii := "/"%char.

(** [sanitizeText(text)], on a string argument. *)
Definition sanitizeText (text : string) : string :=
  match text with
  | EmptyString => EmptyString
  | _ =>
      replace_all slash_char "&#x2F;"
        (replace_all squote_char "&#x27;"
           (replace_all dquote_char "&quot;"
              (replace_all gt_char "&gt;"
                 (replace_all lt_char "&lt;" (trim text)))))
  end.

(** The time values a [Date] can hold; outside it [new Date(v)] is an
    invalid date, which compares false with everything. *)
Definition maxTime : Z := 8640000000000000.

Definition validTime (v : Z) : bool := Z.abs v <=? maxTime.

(** [isUserMuted(muteUntil)]: [new Date(muteUntil) > new Date()]. *)
Definition isUserMuted (muteUntil : option Z) (now : Z) : bool :=
  match muteUntil with
  | None => false
  | Some v =>
      if v =? 0 then false
      else if validTime v then now <? v else false
  end.

(** [getMuteTimeRemaining(muteUntil)]; [None] is [NaN]. *)
Definition getMuteTimeRemaining (muteUntil : option Z) (now : Z) : option Z :=
  match muteUntil with
  | None => Some 0
  | Some v =>
      if v =? 0 then Some 0
      else if validTime v then Some (Z.max 0 (v - now)) else None
  end.

End Utils.

(** ** config.js *)

Module Config.

(** [parseInt(process.env.ANONYMOUS_MUTE_DURATION) || 10 * 60 * 1000];
    the argument is the parsed variable, [None] for [NaN]. *)
Definition muteDuration (env : option Z) : Z :=
  match env with
  | Some d => if d =? 0 then 10 * 60 * 1000 else d
  | None => 10 * 60 * 1000
  end.

End Config.

(** ** database.js: the tables *)

Inductive principal_kind : Type := KUser | KAnonymous.

Inductive sender_type : Type := SUser | SAnonymous | SSystem.

Inductive message_type : Type :=
| TText | TImage | TFile | TSystem | TBilibili | TMarkdown.

Inductive member_status : Type := Online | Offline | Left.

Definition sender_of_kind (k : principal_kind) : sender_type :=
  match k with KUser => SUser | KAnonymous => SAnonymous end.

Module Users.
Record row : Type := mk {
  uid : string;
  nickname : string;
  avatar_url : option string;
  created_at : Z }.
End Users.

Module AnonymousUsers.
Record row : Type := mk {
  uid : string;
  chatroom_id : string;
  nickname : string;
  avatar_url : option string;
  mute_until : option Z;
  is_active : bool;
  join_time : Z;
  last_active : Z }.
End AnonymousUsers.

Module Chatrooms.
Record row : Type := mk {
  room_id : string;
  name : string;
  password_hash : option string;
  creator_uid : string;
  is_active : bool;
  created_at : Z }.
End Chatrooms.

Module ChatroomAdmins.
Record row : Type := mk {
  chatroom_id : string;
  user_uid : string;
  granted_by : string }.
End ChatroomAdmins.

Module Messages.
Record row : Type := mk {
  id : Z;
  message_id : string;
  chatroom_id : string;
  sender_uid : string;
  sender : sender_type;
  content : string;
  mtype : message_type;
  image_url : option string;
  reply_to_message_id : option Z;
  bilibili_bv : option string;
  markdown_content : option string;
  file_id : option string;
  file_name : option string;
  file_size : option Z;
  file_expiry : option Z;
  is_deleted : bool;
  deleted_by : option string;
  deleted_at : option Z;
  created_at : Z }.

Definition clear_reply (m : row) : row :=
  mk (id m) (message_id m) (chatroom_id m) (sender_uid m) (sender m)
     (content m) (mtype m) (image_url m) None (bilibili_bv m)
     (markdown_content m) (file_id m) (file_name m) (file_size m)
     (file_expiry m) (is_deleted m) (deleted_by m) (deleted_at m)
     (created_at m).

Definition mark_deleted (by_uid : string) (at_time : Z) (m : row) : row :=
  mk (id m) (message_id m) (chatroom_id m) (sender_uid m) (sender m)
     (content m) (mtype m) (image_url m) (reply_to_message_id m)
     (bilibili_bv m) (markdown_content m) (file_id m) (file_name m)
     (file_size m) (file_expiry m) true (Some by_uid) (Some at_time)
     (created_at m).
End Messages.

Module UserMutes.
Record row : Type := mk {
  chatroom_id : string;
  user_uid : string;
  muted_by : string;
  reason : string;
  mute_until : Z;
  is_active : bool;
  created_at : Z }.
End UserMutes.

Module ChatroomMembers.
Record row : Type := mk {
  chatroom_id : string;
  user_uid : string;
  user_type : principal_kind;
  nickname : string;
  avatar_url : option string;
  join_time : Z;
  last_active : Z;
  status : member_status;
  is_active : bool }.
End ChatroomMembers.

Module Files.
Record row : Type := mk {
  file_id : string;
  stored_name : string;
  message_id : option string;
  expiry_time : Z;
  is_expired : bool }.

Definition release (f : row) : row :=
  mk (file_id f) (stored_name f) None (expiry_time f) true.
End Files.

(** The content of the database file. [next_message_id] is the
    AUTOINCREMENT counter of [messages]. *)
Record Tables : Type := mkTables {
  users : list Users.row;
  anonymous_users : list AnonymousUsers.row;
  chatrooms : list Chatrooms.row;
  chatroom_admins : list ChatroomAdmins.row;
  messages : list Messages.row;
  next_message_id : Z;
  user_mutes : list UserMutes.row;
  chatroom_members : list ChatroomMembers.row;
  files : list Files.row }.

Definition set_messages (t : Tables) (ms : list Messages.row) (next : Z) : Tables :=
  mkTables (users t) (anonymous_users t) (chatrooms t) (chatroom_admins t)
           ms next (user_mutes t) (chatroom_members t) (files t).

Definition set_files (t : Tables) (fs : list Files.row) : Tables :=
  mkTables (users t) (anonymous_users t) (chatrooms t) (chatroom_admins t)
           (messages t) (next_message_id t) (user_mutes t)
           (chatroom_members t) fs.

Definition set_anonymous_users (t : Tables) (l : list AnonymousUsers.row) : Tables :=
  mkTables (users t) l (chatrooms t) (chatroom_admins t)
           (messages t) (next_message_id t) (user_mutes t)
           (chatroom_members t) (files t).

Definition set_chatroom_admins (t : Tables) (l : list ChatroomAdmins.row) : Tables :=
  mkTables (users t) (anonymous_users t) (chatrooms t) l
           (messages t) (next_message_id t) (user_mutes t)
           (chatroom_members t) (files t).

Definition set_user_mutes (t : Tables) (l : list UserMutes.row) : Tables :=
  mkTables (users t) (anonymous_users t) (chatrooms t) (chatroom_admins t)
           (messages t) (next_message_id t) l
           (chatroom_members t) (files t).

Definition set_chatroom_members (t : Tables) (l : list ChatroomMembers.row) : Tables :=
  mkTables (users t) (anonymous_users t) (chatrooms t) (chatroom_admins t)
           (messages t) (next_message_id t) (user_mutes t) l (files t).

(** [DEFAULT (strftime('%s', 'now') * 1000)]: the time cut to the second. *)
Definition default_timestamp (now : Z) : Z := now / 1000 * 1000.

Notation "a ==s b" := (String.eqb a b) (at level 70, no associativity).

(** [!v] on a string that may be absent. *)
Definition falsy_string (v : option string) : bool :=
  match v with
  | None => true
  | Some s => s ==s ""
  end.

(** ** services/chatroomService.js *)

Module ChatroomService.

Record join_info : Type := mkJoinInfo {
  ji_roomId : string;
  ji_name : string;
  ji_creatorUid : string;
  ji_createdAt : Z;
  ji_isOwner : bool }.

Record chatroom_info : Type := mkInfo {
  ci_roomId : string;
  ci_name : string;
  ci_creatorUid : string;
  ci_createdAt : Z;
  ci_userCount : Z }.

Record mute_status : Type := mkMuteStatus {
  isMuted : bool;
  muteUntil : option Z;
  remaining : option Z }.

Record kick_info : Type := mkKick {
  k_roomId : string;
  k_targetUid : string;
  k_kickedBy : string }.

(** [SELECT ... FROM chatrooms WHERE room_id = ?] *)
Definition find_room (t : Tables) (roomId : string) : option Chatrooms.row :=
  List.find (fun c => Chatrooms.room_id c ==s roomId) (chatrooms t).

(** [SELECT ... FROM chatrooms WHERE room_id = ? AND is_active = 1] *)
Definition find_active_room (t : Tables) (roomId : string) : option Chatrooms.row :=
  List.find (fun c => (Chatrooms.room_id c ==s roomId) && Chatrooms.is_active c)
            (chatrooms t).

Section Join.

(** [utils.verifyPassword(password, hash)] (bcrypt). *)
Variable verifyPassword : string -> string -> bool.

Definition joinChatroom (t : Tables) (roomId : string)
           (password : option string) (userUid : option string)
  : result join_info :=
  match find_active_room t roomId with
  | None => Err RoomNotFoundOrClosed
  | Some chatroom =>
      let isCreator :=
        match userUid with
        | Some u => negb (u ==s "") && (Chatrooms.creator_uid chatroom ==s u)
        | None => false
        end in
      let isOwner :=
        match userUid with
        | Some u => u ==s Chatrooms.creator_uid chatroom
        | None => false
        end in
      let info :=
        mkJoinInfo (Chatrooms.room_id chatroom) (Chatrooms.name chatroom)
                   (Chatrooms.creator_uid chatroom)
                   (Chatrooms.created_at chatroom) isOwner in
      match Chatrooms.password_hash chatroom with
      | Some hash =>
          if hash ==s "" then Ok info
          else if isCreator then Ok info
          else
            match password with
            | None => Err PasswordRequired
            | Some p =>
                if p ==s "" then Err PasswordRequired
                else if verifyPassword p hash then Ok info
                else Err InvalidPassword
            end
      | None => Ok info
      end
  end.

End Join.

(** [getActiveUserCount]: the source returns the constant 0. *)
Definition getActiveUserCount (roomId : string) : Z := 0.

Definition getChatroomInfo (t : Tables) (roomId : string) : result chatroom_info :=
  match find_active_room t roomId with
  | None => Err RoomNotFound
  | Some chatroom =>
      Ok (mkInfo (Chatrooms.room_id chatroom) (Chatrooms.name chatroom)
                 (Chatrooms.creator_uid chatroom)
                 (Chatrooms.created_at chatroom)
                 (getActiveUserCount roomId))
  end.

Definition is_admin_row (roomId uid : string) (a : ChatroomAdmins.row) : bool :=
  (ChatroomAdmins.chatroom_id a ==s roomId) && (ChatroomAdmins.user_uid a ==s uid).

Definition checkAdminPermission (t : Tables) (uid roomId : string) : bool :=
  match find_room t roomId with
  | Some chatroom =>
      if Chatrooms.creator_uid chatroom ==s uid then true
      else existsb (is_admin_row roomId uid) (chatroom_admins t)
  | None => existsb (is_admin_row roomId uid) (chatroom_admins t)
  end.

(** [ORDER BY created_at DESC LIMIT 1]: a row of greatest [created_at];
    among equal ones the first of the table. *)
Fixpoint newest (l : list UserMutes.row) : option UserMutes.row :=
  match l with
  | [] => None
  | r :: rest =>
      match newest rest with
      | Some r' =>
          if UserMutes.created_at r <? UserMutes.created_at r'
          then Some r' else Some r
      | None => Some r
      end
  end.

Definition is_active_mute (roomId uid : string) (r : UserMutes.row) : bool :=
  (UserMutes.chatroom_id r ==s roomId) && (UserMutes.user_uid r ==s uid)
  && UserMutes.is_active r.

(** The record read as the current mute of [uid] in [roomId]. *)
Definition currentMute (t : Tables) (uid roomId : string) : option UserMutes.row :=
  newest (List.filter (is_active_mute roomId uid) (user_mutes t)).

Definition is_active_anonymous (roomId uid : string) (a : AnonymousUsers.row) : bool :=
  (AnonymousUsers.uid a ==s uid) && (AnonymousUsers.chatroom_id a ==s roomId)
  && AnonymousUsers.is_active a.

Definition activeAnonymous (t : Tables) (uid roomId : string)
  : option AnonymousUsers.row :=
  List.find (is_active_anonymous roomId uid) (anonymous_users t).

Definition muted_until (v : option Z) (now : Z) : mute_status :=
  mkMuteStatus true v (Utils.getMuteTimeRemaining v now).

Definition not_muted : mute_status := mkMuteStatus false None (Some 0).

Definition checkAnonymousMuted (t : Tables) (now : Z) (uid roomId : string)
  : mute_status :=
  match activeAnonymous t uid roomId with
  | Some a =>
      if Utils.isUserMuted (AnonymousUsers.mute_until a) now
      then muted_until (AnonymousUsers.mute_until a) now
      else not_muted
  | None => not_muted
  end.

(** The check at one instant: [utils.isUserMuted] and
    [utils.getMuteTimeRemaining] each read the clock, here both read
    [now]. [Clocked.checkUserMuted] has the two readings apart. *)
Definition checkUserMuted (t : Tables) (now : Z) (uid roomId : string)
  : mute_status :=
  match currentMute t uid roomId with
  | Some r =>
      if Utils.isUserMuted (Some (UserMutes.mute_until r)) now
      then muted_until (Some (UserMutes.mute_until r)) now
      else checkAnonymousMuted t now uid roomId
  | None => checkAnonymousMuted t now uid roomId
  end.

Definition is_member (roomId uid : string) (m : ChatroomMembers.row) : bool :=
  (ChatroomMembers.chatroom_id m ==s roomId)
  && (ChatroomMembers.user_uid m ==s uid).

(** [INSERT OR REPLACE INTO chatroom_members]: the row of the same
    [(chatroom_id, user_uid)] is replaced. Without the room the foreign key
    rejects the statement; the error is logged and nothing is written. *)
Definition addMemberToChatroom (t : Tables) (now : Z) (roomId userUid : string)
           (userType : principal_kind) (nickname : string)
           (avatarUrl : option string) : Tables :=
  if existsb (fun c => Chatrooms.room_id c ==s roomId) (chatrooms t)
  then
    set_chatroom_members t
      (List.filter (fun m => negb (is_member roomId userUid m))
                   (chatroom_members t)
       ++ [ChatroomMembers.mk roomId userUid userType nickname avatarUrl
                              now now Online true])
  else t.

Definition update_member (roomId uid : string)
           (f : ChatroomMembers.row -> ChatroomMembers.row)
           (t : Tables) : Tables :=
  set_chatroom_members t
    (List.map (fun m => if is_member roomId uid m then f m else m)
              (chatroom_members t)).

Definition updateMemberActivity (t : Tables) (now : Z) (roomId userUid : string)
  : Tables :=
  update_member roomId userUid
    (fun m => ChatroomMembers.mk (ChatroomMembers.chatroom_id m)
                (ChatroomMembers.user_uid m) (ChatroomMembers.user_type m)
                (ChatroomMembers.nickname m) (ChatroomMembers.avatar_url m)
                (ChatroomMembers.join_time m) now Online
                (ChatroomMembers.is_active m)) t.

Definition setMemberOffline (t : Tables) (now : Z) (roomId userUid : string)
  : Tables :=
  update_member roomId userUid
    (fun m => ChatroomMembers.mk (ChatroomMembers.chatroom_id m)
                (ChatroomMembers.user_uid m) (ChatroomMembers.user_type m)
                (ChatroomMembers.nickname m) (ChatroomMembers.avatar_url m)
                (ChatroomMembers.join_time m) now Offline
                (ChatroomMembers.is_active m)) t.

(** The row written by a kick and by [setMemberLeft]. *)
Definition member_left (now : Z) (m : ChatroomMembers.row) : ChatroomMembers.row :=
  ChatroomMembers.mk (ChatroomMembers.chatroom_id m)
    (ChatroomMembers.user_uid m) (ChatroomMembers.user_type m)
    (ChatroomMembers.nickname m) (ChatroomMembers.avatar_url m)
    (ChatroomMembers.join_time m) now Left false.

Definition setMemberLeft (t : Tables) (now : Z) (roomId userUid : string)
  : Tables :=
  update_member roomId userUid (member_left now) t.

Definition set_anonymous_mute (v : option Z) (a : AnonymousUsers.row)
  : AnonymousUsers.row :=
  AnonymousUsers.mk (AnonymousUsers.uid a) (AnonymousUsers.chatroom_id a)
    (AnonymousUsers.nickname a) (AnonymousUsers.avatar_url a) v
    (AnonymousUsers.is_active a) (AnonymousUsers.join_time a)
    (AnonymousUsers.last_active a).

Definition is_anonymous_of (roomId uid : string) (a : AnonymousUsers.row) : bool :=
  (AnonymousUsers.uid a ==s uid) && (AnonymousUsers.chatroom_id a ==s roomId).

(** [muteUser(roomId, targetUid, muterUid, duration, reason)]; [duration]
    in seconds. The INSERT is rejected when a foreign key has no parent
    (the room, the muting user). *)
Definition muteUser (t : Tables) (now : Z) (roomId targetUid muterUid : string)
           (duration : Z) (reason : string) : result Z * Tables :=
  if negb (checkAdminPermission t muterUid roomId) then (Err NoMutePermission, t)
  else
    let targetIsCreator :=
      match find_room t roomId with
      | Some chatroom => Chatrooms.creator_uid chatroom ==s targetUid
      | None => false
      end in
    if targetIsCreator then (Err CannotMuteCreator, t)
    else
      let until := now + duration * 1000 in
      if negb (existsb (fun c => Chatrooms.room_id c ==s roomId) (chatrooms t)
               && existsb (fun u => Users.uid u ==s muterUid) (users t))
      then (Err SqlError, t)
      else
        let t1 :=
          set_user_mutes t
            (user_mutes t
             ++ [UserMutes.mk roomId targetUid muterUid reason until true
                              (default_timestamp now)]) in
        let t2 :=
          if existsb (is_anonymous_of roomId targetUid) (anonymous_users t1)
          then set_anonymous_users t1
                 (List.map (fun a => if is_anonymous_of roomId targetUid a
                                     then set_anonymous_mute (Some until) a
                                     else a)
                           (anonymous_users t1))
          else t1 in
        (Ok until, t2).

(** [kickUser(roomId, targetUid, kickerUid)]. [CURRENT_TIMESTAMP] is kept
    as the time to the second. *)
Definition kickUser (t : Tables) (now : Z) (roomId targetUid kickerUid : string)
  : result kick_info * Tables :=
  match find_active_room t roomId with
  | None => (Err RoomNotFound, t)
  | Some chatroom =>
      if negb (Chatrooms.creator_uid chatroom ==s kickerUid)
      then (Err OnlyOwnerKicks, t)
      else if targetUid ==s kickerUid then (Err CannotKickSelf, t)
      else
        match List.find (fun m => is_member roomId targetUid m
                                  && ChatroomMembers.is_active m)
                        (chatroom_members t) with
        | None => (Err UserNotInRoom, t)
        | Some _ =>
            let t1 := update_member roomId targetUid
                        (member_left (default_timestamp now)) t in
            let t2 := set_chatroom_admins t1
                        (List.filter (fun a => negb (is_admin_row roomId targetUid a))
                                     (chatroom_admins t1)) in
            let t3 := set_user_mutes t2
                        (List.filter
                           (fun r => negb ((UserMutes.user_uid r ==s targetUid)
                                           && (UserMutes.chatroom_id r ==s roomId)))
                           (user_mutes t2)) in
            (Ok (mkKick roomId targetUid kickerUid), t3)
        end
  end.

End ChatroomService.

(** ** database.js: transactions, and the statements that can fail *)

(** The connection: the tables as the statements see them, and the tables
    as they were at [BEGIN TRANSACTION] while a transaction is open. *)
Record Store : Type := mkStore {
  live : Tables;
  undo : option Tables }.

(** The operations of the two deletions that can throw. *)
Inductive step : Type :=
| StBegin          (* BEGIN TRANSACTION *)
| StClearReplies   (* UPDATE messages SET reply_to_message_id = NULL ... *)
| StFileInfo       (* SELECT stored_name FROM files ... *)
| StReleaseFile    (* UPDATE files SET is_expired = 1, message_id = NULL ... *)
| StUnlink         (* fs.existsSync / fs.unlinkSync *)
| StDeleteRow      (* DELETE FROM messages WHERE id = ? *)
| StSelectFiles    (* SELECT ... FROM messages m LEFT JOIN files f ... *)
| StMarkDeleted    (* UPDATE messages SET is_deleted = 1 ... *)
| StCommit         (* COMMIT *)
| StRollback.      (* ROLLBACK *)

(** Which operations are rejected in a run. *)
Definition faults : Type := step -> bool.

Definition no_fault : faults := fun _ => false.

Definition beginTransaction (flt : faults) (st : Store) : result unit * Store :=
  if flt StBegin then (Err SqlError, st)
  else
    match undo st with
    | Some _ => (Err SqlError, st)
    | None => (Ok tt, mkStore (live st) (Some (live st)))
    end.

Definition commit (flt : faults) (st : Store) : result unit * Store :=
  if flt StCommit then (Err SqlError, st)
  else
    match undo st with
    | Some _ => (Ok tt, mkStore (live st) None)
    | None => (Err SqlError, st)
    end.

Definition rollback (flt : faults) (st : Store) : result unit * Store :=
  if flt StRollback then (Err SqlError, st)
  else
    match undo st with
    | Some before => (Ok tt, mkStore before None)
    | None => (Err SqlError, st)
    end.

(** [database.run] of one statement. *)
Definition run (flt : faults) (s : step) (f : Tables -> Tables) (st : Store)
  : result unit * Store :=
  if flt s then (Err SqlError, st)
  else (Ok tt, mkStore (f (live st)) (undo st)).

(** The upload directory: the stored names present on disk. *)
Definition Disk : Type := gset string.

(** [if (fs.existsSync(p)) fs.unlinkSync(p)] inside [try]/[catch]: a
    failure is logged and the file stays. *)
Definition unlink_quietly (flt : faults) (stored : string) (disk : Disk) : Disk :=
  if decide (stored ∈ disk)
  then if flt StUnlink then disk else disk ∖ {[stored]}
  else disk.

(** ** services/messageService.js: sendMessage *)

Module MessageService.

Record messageData : Type := mkData {
  chatroomId : string;
  userUid : string;
  userType : principal_kind;
  content : option string;
  messageType : message_type;
  imageUrl : option string;
  replyToMessageId : option Z;
  bilibiliId : option string;
  markdownContent : option string;
  fileId : option string;
  fileName : option string;
  fileSize : option Z;
  fileExpiry : option Z }.

(** [!v || typeof v !== 'string' || v.trim().length === 0] *)
Definition blank (v : option string) : bool :=
  match v with
  | None => true
  | Some s => (s ==s "") || (Utils.trim s ==s "")
  end.

(** [v && v.length > n] *)
Definition longer_than (n : nat) (v : option string) : bool :=
  match v with
  | None => false
  | Some s => negb (s ==s "") && (n <? String.length s)%nat
  end.

(** [!n || typeof n !== 'number' || n <= 0] *)
Definition not_positive (n : option Z) : bool :=
  match n with
  | None => true
  | Some z => (z =? 0) || (z <=? 0)
  end.

Definition is_alnum (c : ascii) : bool :=
  let n := nat_of_ascii c in
  ((48 <=? n) && (n <=? 57) || (65 <=? n) && (n <=? 90)
   || (97 <=? n) && (n <=? 122))%nat.

Fixpoint all_alnum (s : string) : bool :=
  match s with
  | EmptyString => true
  | String c t => is_alnum c && all_alnum t
  end.

(** [/^BV[a-zA-Z0-9]{10}$/.test(s)] *)
Definition is_bv (s : string) : bool :=
  match s with
  | String b (String v rest) =>
      Ascii.eqb b "B"%char && Ascii.eqb v "V"%char
      && (String.length rest =? 10)%nat && all_alnum rest
  | _ => false
  end.

(** The checks at the head of [sendMessage]; [None] when all pass. *)
Definition validate (d : messageData) : option validation_error :=
  match messageType d with
  | TImage =>
      if falsy_string (imageUrl d) then Some ImageUrlRequired
      else if longer_than 200 (content d) then Some CaptionTooLong
      else None
  | TBilibili =>
      match bilibiliId d with
      | None => Some BvRequired
      | Some bv =>
          if blank (Some bv) then Some BvRequired
          else if negb (is_bv (Utils.trim bv)) then Some BvFormat
          else None
      end
  | TMarkdown =>
      if blank (markdownContent d) then Some MarkdownEmpty
      else if longer_than 5000 (markdownContent d) then Some MarkdownTooLong
      else if longer_than 100 (content d) then Some MarkdownTitleTooLong
      else None
  | TFile =>
      if blank (fileId d) then Some FileIdRequired
      else if blank (fileName d) then Some FileNameRequired
      else if not_positive (fileSize d) then Some FileSizeInvalid
      else if not_positive (fileExpiry d) then Some FileExpiryRequired
      else if blank (content d) then Some FileNameRequired
      else None
  | TText | TSystem =>
      if blank (content d) then Some ContentEmpty
      else if longer_than 1000 (content d) then Some ContentTooLong
      else None
  end.

(** [content ? utils.sanitizeText(content) : ''] *)
Definition sanitizedContent (d : messageData) : string :=
  match content d with
  | Some s => if s ==s "" then "" else Utils.sanitizeText s
  | None => ""
  end.

(** [Math.ceil(remaining / 60000)] *)
Definition remainingMinutes (remaining : option Z) : Z :=
  match remaining with
  | Some r => (r + 59999) / 60000
  | None => 0
  end.

Definition find_message (t : Tables) (mid : Z) (roomId : string)
  : option Messages.row :=
  List.find (fun m => (Messages.id m =? mid) && (Messages.chatroom_id m ==s roomId))
            (messages t).

(** The row of the INSERT of [sendMessage]. *)
Definition new_row (t : Tables) (now : Z) (messageId : string) (d : messageData)
  : Messages.row :=
  Messages.mk (next_message_id t) messageId (chatroomId d) (userUid d)
    (sender_of_kind (userType d)) (sanitizedContent d) (messageType d)
    (imageUrl d) (replyToMessageId d) (bilibiliId d) (markdownContent d)
    (fileId d) (fileName d) (fileSize d) (fileExpiry d)
    false None None (default_timestamp now).

(** The constraints of [messages] an INSERT can break: [message_id] is
    UNIQUE, [chatroom_id] and [reply_to_message_id] are foreign keys. *)
Definition insert_allowed (t : Tables) (r : Messages.row) : bool :=
  negb (existsb (fun m => Messages.message_id m ==s Messages.message_id r)
                (messages t))
  && existsb (fun c => Chatrooms.room_id c ==s Messages.chatroom_id r)
             (chatrooms t)
  && match Messages.reply_to_message_id r with
     | Some p => existsb (fun m => Messages.id m =? p) (messages t)
     | None => true
     end.

Definition insert_message (t : Tables) (r : Messages.row) : Tables :=
  set_messages t (messages t ++ [r]) (next_message_id t + 1).

Record user_view : Type := mkUserView {
  uv_uid : string;
  uv_nickname : string;
  uv_avatarUrl : option string }.

Record reply_view : Type := mkReplyView {
  rv_id : Z;
  rv_content : string;
  rv_messageType : message_type;
  rv_createdAt : Z;
  rv_user : user_view }.

Record message_result : Type := mkResult {
  mr_row : Messages.row;
  mr_createdAt : Z;
  mr_user : user_view;
  mr_isAdmin : bool;
  mr_replyToMessage : option reply_view }.

(** The sender as read back after the INSERT. *)
Definition sender_view (t : Tables) (kind : sender_type) (uid roomId : string)
  : option user_view :=
  match kind with
  | SAnonymous =>
      match List.find (ChatroomService.is_anonymous_of roomId uid)
                      (anonymous_users t) with
      | Some a => Some (mkUserView (AnonymousUsers.uid a) (AnonymousUsers.nickname a)
                                   (AnonymousUsers.avatar_url a))
      | None => None
      end
  | SSystem => Some (mkUserView "system" "系统" None)
  | SUser =>
      match List.find (fun u => Users.uid u ==s uid) (users t) with
      | Some u => Some (mkUserView (Users.uid u) (Users.nickname u)
                                   (Users.avatar_url u))
      | None => None
      end
  end.

(** [if (replyToMessageId)]: 0 counts as no reply target. *)
Definition reply_requested (d : messageData) : option Z :=
  match replyToMessageId d with
  | Some p => if p =? 0 then None else Some p
  | None => None
  end.

Definition sendMessage (t : Tables) (now : Z) (messageId : string)
           (d : messageData) : result message_result * Tables :=
  match validate d with
  | Some v => (Err (Validation v), t)
  | None =>
      let muteStatus :=
        ChatroomService.checkUserMuted t now (userUid d) (chatroomId d) in
      if ChatroomService.isMuted muteStatus
      then (Err (Muted (remainingMinutes (ChatroomService.remaining muteStatus))), t)
      else
        let lookup :=
          match reply_requested d with
          | Some p =>
              match find_message t p (chatroomId d) with
              | Some m => Ok (Some m)
              | None => Err ReplyTargetNotFound
              end
          | None => Ok None
          end in
        match lookup with
        | Err e => (Err e, t)
        | Ok replyToMessage =>
            let row := new_row t now messageId d in
            if negb (insert_allowed t row) then (Err SqlError, t)
            else
              let t' := insert_message t row in
              match sender_view t' (sender_of_kind (userType d))
                                (userUid d) (chatroomId d) with
              | None => (Err TypeError, t')
              | Some user =>
                  let isAdmin :=
                    ChatroomService.checkAdminPermission t' (userUid d)
                                                         (chatroomId d) in
                  match replyToMessage with
                  | None => (Ok (mkResult row now user isAdmin None), t')
                  | Some m =>
                      match sender_view t' (Messages.sender m)
                                        (Messages.sender_uid m) (chatroomId d) with
                      | None => (Err TypeError, t')
                      | Some replied =>
                          (Ok (mkResult row now user isAdmin
                                 (Some (mkReplyView (Messages.id m)
                                          (Messages.content m) (Messages.mtype m)
                                          (Messages.created_at m) replied))),
                           t')
                      end
                  end
              end
        end
  end.

(** ** services/messageService.js: deleteMessage, deleteUserMessages *)

Definition truthy_string (v : option string) : bool := negb (falsy_string v).

Definition clear_replies_to (mid : Z) (t : Tables) : Tables :=
  set_messages t
    (List.map (fun m => match Messages.reply_to_message_id m with
                        | Some p => if p =? mid then Messages.clear_reply m else m
                        | None => m
                        end)
              (messages t))
    (next_message_id t).

Definition release_file (fid : string) (t : Tables) : Tables :=
  set_files t
    (List.map (fun f => if Files.file_id f ==s fid then Files.release f else f)
              (files t)).

Definition delete_row (mid : Z) (t : Tables) : Tables :=
  set_messages t
    (List.filter (fun m => negb (Messages.id m =? mid)) (messages t))
    (next_message_id t).

Record delete_info : Type := mkDeleteInfo {
  di_messageId : Z;
  di_deletedBy : string }.

(** The [try] block of [deleteMessage]. *)
Definition deleteMessage_try (flt : faults) (message : Messages.row)
           (messageId : Z) (st : Store) (disk : Disk)
  : result unit * Store * Disk :=
  match beginTransaction flt st with
  | (Err e, st1) => (Err e, st1, disk)
  | (Ok _, st1) =>
      match run flt StClearReplies (clear_replies_to messageId) st1 with
      | (Err e, st2) => (Err e, st2, disk)
      | (Ok _, st2) =>
          let released :=
            match Messages.mtype message, Messages.file_id message with
            | TFile, Some fid =>
                if fid ==s "" then (Ok tt, st2, disk)
                else if flt StFileInfo then (Err SqlError, st2, disk)
                else
                  let fileInfo :=
                    List.find (fun f => Files.file_id f ==s fid)
                              (files (live st2)) in
                  match run flt StReleaseFile (release_file fid) st2 with
                  | (Err e, st3) => (Err e, st3, disk)
                  | (Ok _, st3) =>
                      match fileInfo with
                      | Some f =>
                          if Files.stored_name f ==s "" then (Ok tt, st3, disk)
                          else (Ok tt, st3,
                                unlink_quietly flt (Files.stored_name f) disk)
                      | None => (Ok tt, st3, disk)
                      end
                  end
            | _, _ => (Ok tt, st2, disk)
            end in
          match released with
          | (Err e, st3, disk3) => (Err e, st3, disk3)
          | (Ok _, st3, disk3) =>
              match run flt StDeleteRow (delete_row messageId) st3 with
              | (Err e, st4) => (Err e, st4, disk3)
              | (Ok _, st4) =>
                  match commit flt st4 with
                  | (Err e, st5) => (Err e, st5, disk3)
                  | (Ok _, st5) => (Ok tt, st5, disk3)
                  end
              end
          end
      end
  end.

(** [deleteMessage(messageId, deleterUid, chatroomId)]. When the [catch]
    block's own ROLLBACK throws, that error is the one that escapes. *)
Definition deleteMessage (flt : faults) (st : Store) (disk : Disk)
           (messageId : Z) (deleterUid chatroomId : string)
  : result delete_info * Store * Disk :=
  match find_message (live st) messageId chatroomId with
  | None => (Err MessageNotFound, st, disk)
  | Some message =>
      let isAdmin :=
        ChatroomService.checkAdminPermission (live st) deleterUid chatroomId in
      let isOwner := Messages.sender_uid message ==s deleterUid in
      if negb isAdmin && negb isOwner then (Err NoDeletePermission, st, disk)
      else
        match deleteMessage_try flt message messageId st disk with
        | (Ok _, st', disk') => (Ok (mkDeleteInfo messageId deleterUid), st', disk')
        | (Err _, st', disk') =>
            match rollback flt st' with
            | (Ok _, st'') => (Err DeleteFailed, st'', disk')
            | (Err e, st'') => (Err e, st'', disk')
            end
        end
  end.

Record bulk_info : Type := mkBulkInfo {
  deletedCount : nat;
  deletedFiles : nat }.

(** A row of the file-message query: [m.file_id], [f.stored_name]. *)
Definition file_message : Type := (option string * option string).

Definition targeted (chatroomId targetUid : string) (m : Messages.row) : bool :=
  (Messages.chatroom_id m ==s chatroomId) && (Messages.sender_uid m ==s targetUid)
  && negb (Messages.is_deleted m).

Definition select_file_messages (t : Tables) (chatroomId targetUid : string)
  : list file_message :=
  List.map
    (fun m =>
       (Messages.file_id m,
        match Messages.file_id m with
        | Some fid =>
            match List.find (fun f => Files.file_id f ==s fid) (files t) with
            | Some f => Some (Files.stored_name f)
            | None => None
            end
        | None => None
        end))
    (List.filter (fun m => targeted chatroomId targetUid m
                           && match Messages.mtype m with TFile => true | _ => false end)
                 (messages t)).

Definition mark_messages (chatroomId targetUid deleterUid : string) (now : Z)
           (t : Tables) : Tables :=
  set_messages t
    (List.map (fun m => if targeted chatroomId targetUid m
                        then Messages.mark_deleted deleterUid now m else m)
              (messages t))
    (next_message_id t).

(** The loop over the file messages of [deleteUserMessages]. *)
Fixpoint release_all (flt : faults) (l : list file_message) (st : Store)
         (disk : Disk) : result unit * Store * Disk :=
  match l with
  | [] => (Ok tt, st, disk)
  | (fid, stored) :: rest =>
      if truthy_string fid then
        match fid with
        | Some f =>
            match run flt StReleaseFile (release_file f) st with
            | (Err e, st1) => (Err e, st1, disk)
            | (Ok _, st1) =>
                let disk1 :=
                  match stored with
                  | Some n => if n ==s "" then disk else unlink_quietly flt n disk
                  | None => disk
                  end in
                release_all flt rest st1 disk1
            end
        | None => release_all flt rest st disk
        end
      else release_all flt rest st disk
  end.

Definition deleteUserMessages_try (flt : faults) (now : Z)
           (targetUid chatroomId deleterUid : string) (st : Store) (disk : Disk)
  : result bulk_info * Store * Disk :=
  match beginTransaction flt st with
  | (Err e, st1) => (Err e, st1, disk)
  | (Ok _, st1) =>
      if flt StSelectFiles then (Err SqlError, st1, disk)
      else
        let fileMessages := select_file_messages (live st1) chatroomId targetUid in
        let changes :=
          List.length (List.filter (targeted chatroomId targetUid)
                                   (messages (live st1))) in
        match run flt StMarkDeleted
                  (mark_messages chatroomId targetUid deleterUid now) st1 with
        | (Err e, st2) => (Err e, st2, disk)
        | (Ok _, st2) =>
            match release_all flt fileMessages st2 disk with
            | (Err e, st3, disk3) => (Err e, st3, disk3)
            | (Ok _, st3, disk3) =>
                match commit flt st3 with
                | (Err e, st4) => (Err e, st4, disk3)
                | (Ok _, st4) =>
                    (Ok (mkBulkInfo changes (List.length fileMessages)), st4, disk3)
                end
            end
        end
  end.

(** [deleteUserMessages(targetUid, chatroomId, deleterUid)]. The UPDATE
    names the columns [deleted_by] and [deleted_at]; a database whose
    [messages] table has no such columns rejects it ([flt StMarkDeleted]). *)
Definition deleteUserMessages (flt : faults) (now : Z) (st : Store) (disk : Disk)
           (targetUid chatroomId deleterUid : string)
  : result bulk_info * Store * Disk :=
  if negb (ChatroomService.checkAdminPermission (live st) deleterUid chatroomId)
  then (Err NoBulkDeletePermission, st, disk)
  else
    let targetIsCreator :=
      match ChatroomService.find_room (live st) chatroomId with
      | Some chatroom => Chatrooms.creator_uid chatroom ==s targetUid
      | None => false
      end in
    if targetIsCreator then (Err CreatorMessages, st, disk)
    else
      match deleteUserMessages_try flt now targetUid chatroomId deleterUid st disk with
      | (Ok info, st', disk') => (Ok info, st', disk')
      | (Err _, st', disk') =>
          match rollback flt st' with
          | (Ok _, st'') => (Err BulkDeleteFailed, st'', disk')
          | (Err e, st'') => (Err e, st'', disk')
          end
      end.

End MessageService.

(** ** services/userService.js: createAnonymousUser *)

Module UserService.

Record anonymous_user : Type := mkAnonymous {
  au_uid : string;
  au_nickname : string;
  au_avatarUrl : string;
  au_muteUntil : Z }.

(** The [do ... while (attempts < 10)] loop. [generated k] is the uid
    that the [k]-th call of [utils.generateAnonymousUID] returns; the
    result is the first of the next [fuel] candidates no row uses. *)
Fixpoint pick_uid (t : Tables) (generated : nat -> string) (fuel attempts : nat)
  : option string :=
  match fuel with
  | O => None
  | S fuel' =>
      let uid := generated attempts in
      if existsb (fun a => AnonymousUsers.uid a ==s uid) (anonymous_users t)
      then pick_uid t generated fuel' (S attempts)
      else Some uid
  end.

(** [uid.slice(-4)] *)
Definition last4 (uid : string) : string :=
  String.substring (String.length uid - 4) 4 uid.

Definition createAnonymousUser (t : Tables) (now : Z) (env : option Z)
           (generated : nat -> string) (chatroomId : string)
  : result anonymous_user * Tables :=
  match pick_uid t generated 10 0 with
  | None => (Err SystemBusy, t)
  | Some uid =>
      let nickname := "匿名用户" ++ last4 uid in
      let avatarUrl := "/avatars/" ++ uid in
      let muteUntil := now + Config.muteDuration env in
      (Ok (mkAnonymous uid nickname avatarUrl muteUntil),
       set_anonymous_users t
         (anonymous_users t
          ++ [AnonymousUsers.mk uid chatroomId nickname (Some avatarUrl)
                (Some muteUntil) true (default_timestamp now)
                (default_timestamp now)]))
  end.

End UserService.

(** ** app.js: the presence registry and the Socket.IO handlers *)

Module Server.

Record Principal : Type := mkPrincipal {
  uid : string;
  nickname : string;
  avatarUrl : option string;
  kind : principal_kind }.

(** What the handlers keep on a socket: [socket.user], [socket.currentRoom]
    and the Socket.IO rooms it has joined. *)
Record Socket : Type := mkSocket {
  user : Principal;
  currentRoom : option string;
  rooms : list string }.

(** [onlineUsers] is a [Map] from room id to a [Set] of uids, kept as the
    list of its elements in insertion order; [userSockets] is a [Map] from
    uid to a socket, kept as the socket's number in [sockets]. *)
Record State : Type := mkState {
  db : Tables;
  onlineUsers : gmap string (list string);
  userSockets : gmap string nat;
  sockets : gmap nat Socket }.

Definition set_add (x : string) (s : list string) : list string :=
  if existsb (String.eqb x) s then s else s ++ [x].

Definition set_delete (x : string) (s : list string) : list string :=
  List.filter (fun y => negb (y ==s x)) s.

Record online_entry : Type := mkEntry {
  oe_uid : string;
  oe_nickname : string;
  oe_avatarUrl : option string;
  oe_type : principal_kind;
  oe_isAdmin : bool;
  oe_isCreator : bool;
  oe_isMuted : bool;
  oe_muteUntil : option Z }.

Inductive event : Type :=
| UserJoined (who : Principal) (online : list online_entry)
| RoomJoined (roomId : string) (info : ChatroomService.chatroom_info)
             (online : list online_entry)
| UserLeft (who : string) (whoNickname : string) (online : list online_entry)
| ErrorEvent (e : error).

Inductive emission : Type :=
| ToOthers (sender : nat) (roomId : string) (ev : event)  (* socket.to(room).emit *)
| ToSocket (receiver : nat) (ev : event).                 (* socket.emit *)

Definition socket_of (st : State) (u : string) : option Socket :=
  match userSockets st !! u with
  | Some sid => sockets st !! sid
  | None => None
  end.

(** The loop of [getOnlineUserList], with nothing else running between
    its [await]s: the room's set is the same from the first uid to the
    last. *)
Fixpoint online_entries (st : State) (now : Z) (roomId : string)
         (uids : list string) : result (list online_entry) :=
  match uids with
  | [] => Ok []
  | u :: rest =>
      match socket_of st u with
      | Some s =>
          let isAdmin := ChatroomService.checkAdminPermission (db st) u roomId in
          let muteStatus := ChatroomService.checkUserMuted (db st) now u roomId in
          match ChatroomService.getChatroomInfo (db st) roomId with
          | Err e => Err e
          | Ok info =>
              match online_entries st now roomId rest with
              | Err e => Err e
              | Ok l =>
                  Ok (mkEntry (uid (user s)) (nickname (user s))
                              (avatarUrl (user s)) (kind (user s)) isAdmin
                              (ChatroomService.ci_creatorUid info ==s u)
                              (ChatroomService.isMuted muteStatus)
                              (ChatroomService.muteUntil muteStatus) :: l)
              end
          end
      | None => online_entries st now roomId rest
      end
  end.

Definition getOnlineUserList (st : State) (now : Z) (roomId : string)
  : result (list online_entry) :=
  match onlineUsers st !! roomId with
  | Some uids => online_entries st now roomId uids
  | None => Ok []
  end.

(** [io.on('connection')]: [userSockets.set(socket.user.uid, socket)]. *)
Definition connect (st : State) (sid : nat) (p : Principal) : State :=
  mkState (db st) (onlineUsers st)
          (<[uid p := sid]> (userSockets st))
          (<[sid := mkSocket p None []]> (sockets st)).

(** [socket.on('join-room')], from the event to the last [emit] with no
    other handler in between. The uid stays in the set of a room the
    socket joined before. *)
Definition joinRoom (st : State) (now : Z) (sid : nat) (roomId : string)
  : State * list emission :=
  match sockets st !! sid with
  | None => (st, [])
  | Some sock =>
      match ChatroomService.getChatroomInfo (db st) roomId with
      | Err e => (st, [ToSocket sid (ErrorEvent e)])
      | Ok chatroomInfo =>
          let p := user sock in
          let sock' := mkSocket p (Some roomId) (set_add roomId (rooms sock)) in
          let db' := ChatroomService.addMemberToChatroom (db st) now roomId
                       (uid p) (kind p) (nickname p) (avatarUrl p) in
          let members :=
            match onlineUsers st !! roomId with
            | Some s => s
            | None => []
            end in
          let st' := mkState db'
                       (<[roomId := set_add (uid p) members]> (onlineUsers st))
                       (userSockets st)
                       (<[sid := sock']> (sockets st)) in
          match getOnlineUserList st' now roomId with
          | Err e => (st', [ToSocket sid (ErrorEvent e)])
          | Ok onlineUserList =>
              (st', [ToOthers sid roomId (UserJoined p onlineUserList);
                     ToSocket sid (RoomJoined roomId chatroomInfo onlineUserList)])
          end
      end
  end.

(** [handleUserLeaveRoom(socket)], from the test of [socket.currentRoom] to
    its reset with no other handler in between; [Stepwise] has the parts.
    When [getOnlineUserList] throws, the rejection escapes: nothing is
    emitted and [currentRoom] stays. *)
Definition handleUserLeaveRoom (st : State) (now : Z) (sid : nat)
  : State * list emission :=
  match sockets st !! sid with
  | None => (st, [])
  | Some sock =>
      match currentRoom sock with
      | None => (st, [])
      | Some roomId =>
          if roomId ==s "" then (st, [])
          else
            let p := user sock in
            let db' := ChatroomService.setMemberOffline (db st) now roomId (uid p) in
            let online' :=
              match onlineUsers st !! roomId with
              | Some s =>
                  let s' := set_delete (uid p) s in
                  match s' with
                  | [] => delete roomId (onlineUsers st)
                  | _ => <[roomId := s']> (onlineUsers st)
                  end
              | None => onlineUsers st
              end in
            let st1 := mkState db' online' (userSockets st) (sockets st) in
            match getOnlineUserList st1 now roomId with
            | Err _ => (st1, [])
            | Ok onlineUserList =>
                let sock' := mkSocket p None (set_delete roomId (rooms sock)) in
                (mkState db' online' (userSockets st) (<[sid := sock']> (sockets st)),
                 [ToOthers sid roomId
                    (UserLeft (uid p) (nickname p) onlineUserList)])
            end
      end
  end.

(** [socket.on('disconnect')]: the call of [handleUserLeaveRoom] is not
    awaited, so [userSockets.delete] runs before the rest of it; no other
    handler runs until the call is over. *)
Definition disconnect (st : State) (now : Z) (sid : nat) : State * list emission :=
  match sockets st !! sid with
  | None => (st, [])
  | Some sock =>
      handleUserLeaveRoom
        (mkState (db st) (onlineUsers st)
                 (delete (uid (user sock)) (userSockets st)) (sockets st))
        now sid
  end.

(** How often [u] is listed. *)
Definition occurrences (u : string) (l : list online_entry) : nat :=
  List.length (List.filter (fun e => oe_uid e ==s u) l).

(** The registry of a server that has just started. *)
Definition initial (t : Tables) : State := mkState t ∅ ∅ ∅.

End Server.

(** * The rest of the services *)

(** Outcomes of the operations below, with the errors they throw. *)
Inductive outcome (E A : Type) : Type :=
| Done (a : A)
| Failed (e : E).
Arguments Done {E A} a.
Arguments Failed {E A} e.

Inductive ops_error : Type :=
| OnlyCreatorSetsAdmin      (* 只有聊天室创建者可以设置管理员 *)
| TargetUserNotFound        (* 目标用户不存在 *)
| AlreadyAdmin              (* 该用户已经是管理员 *)
| OnlyCreatorRemovesAdmin   (* 只有聊天室创建者可以移除管理员 *)
| NotAnAdmin                (* 该用户不是管理员 *)
| NoUnmutePermission        (* 没有权限解除禁言 *)
| OnlyCreatorCloses         (* 只有聊天室创建者可以关闭聊天室 *)
| BadRoomName               (* 聊天室名称格式不正确 *)
| PasswordTooLong           (* 密码长度不能超过50个字符 *)
| Busy                      (* 系统繁忙，请稍后重试 *)
| AnonymousNotFound         (* 匿名用户不存在或已过期 *)
| AnonymousExpired          (* 匿名用户会话已过期 *)
| AnonymousUnknown          (* 匿名用户不存在 *)
| CleanupFailed             (* 清理旧消息失败: ... *)
| Rejected.                 (* a rejected statement *)

Definition set_chatrooms (t : Tables) (l : list Chatrooms.row) : Tables :=
  mkTables (users t) (anonymous_users t) l (chatroom_admins t)
           (messages t) (next_message_id t) (user_mutes t)
           (chatroom_members t) (files t).

(** ** services/messageService.js: sendSystemMessage, cleanupOldMessages *)

Module SystemMessages.

Inductive system_message_type : Type := Persistent | Temporary.

Inductive visibility_scope : Type := VisibleToAll | VisibleToSpecific.

Record options : Type := mkOptions {
  systemMessageType : system_message_type;
  visibilityScope : visibility_scope;
  visibleToUsers : option (list string) }.

(** [options = {}]: the defaults. *)
Definition default_options : options := mkOptions Persistent VisibleToAll None.

(** The returned object; [sm_id] is the generated message id for a
    temporary message and the row id for a persistent one. *)
Record system_message : Type := mkSystemMessage {
  sm_id : Z + string;
  sm_chatroomId : string;
  sm_content : string;
  sm_options : options;
  sm_createdAt : Z }.

(** The row of a persistent system message. The columns
    [system_message_type], [visibility_scope] and [visible_to_users], which
    only the history queries read, are not part of [Messages.row]. *)
Definition system_row (t : Tables) (now : Z) (messageId chatroomId content : string)
  : Messages.row :=
  Messages.mk (next_message_id t) messageId chatroomId "system" SSystem content
              TSystem None None None None None None None None
              false None None (default_timestamp now).

Definition sendSystemMessage (t : Tables) (now : Z) (messageId chatroomId : string)
           (content : string) (o : options)
  : outcome ops_error system_message * Tables :=
  match systemMessageType o with
  | Temporary =>
      (Done (mkSystemMessage (inr messageId) chatroomId content
               (mkOptions Temporary (visibilityScope o) (visibleToUsers o)) now),
       t)
  | Persistent =>
      let row := system_row t now messageId chatroomId content in
      if negb (MessageService.insert_allowed t row) then (Failed Rejected, t)
      else
        (Done (mkSystemMessage (inl (next_message_id t)) chatroomId content o now),
         MessageService.insert_message t row)
  end.

Record cleanup_info : Type := mkCleanupInfo {
  deletedMessages : nat;
  deletedFiles : nat }.

(** [created_at < ? AND is_deleted = 1] *)
Definition retired (cutoff : Z) (m : Messages.row) : bool :=
  (Messages.created_at m <? cutoff) && Messages.is_deleted m.

Definition select_old_file_messages (t : Tables) (cutoff : Z)
  : list MessageService.file_message :=
  List.map
    (fun m =>
       (Messages.file_id m,
        match Messages.file_id m with
        | Some fid =>
            match List.find (fun f => Files.file_id f ==s fid) (files t) with
            | Some f => Some (Files.stored_name f)
            | None => None
            end
        | None => None
        end))
    (List.filter
       (fun m => retired cutoff m
                 && match Messages.mtype m with TFile => true | _ => false end
                 && match Messages.file_id m with Some _ => true | None => false end)
       (messages t)).

Definition delete_retired (cutoff : Z) (t : Tables) : Tables :=
  set_messages t
    (List.filter (fun m => negb (retired cutoff m)) (messages t))
    (next_message_id t).

(** The foreign keys the DELETE can break: [reply_to_message_id] of a row
    that stays, and [message_id] of a file, when they name a row that
    goes. *)
Definition delete_allowed (cutoff : Z) (t : Tables) : bool :=
  forallb
    (fun m =>
       retired cutoff m
       || match Messages.reply_to_message_id m with
          | Some p =>
              negb (existsb (fun r => (Messages.id r =? p) && retired cutoff r)
                            (messages t))
          | None => true
          end)
    (messages t)
  && forallb
       (fun f =>
          match Files.message_id f with
          | Some mid =>
              negb (existsb (fun r => (Messages.message_id r ==s mid)
                                      && retired cutoff r)
                            (messages t))
          | None => true
          end)
       (files t).

Definition cleanupOldMessages_try (flt : faults) (cutoff : Z) (st : Store)
           (disk : Disk) : result cleanup_info * Store * Disk :=
  match beginTransaction flt st with
  | (Err e, st1) => (Err e, st1, disk)
  | (Ok _, st1) =>
      if flt StSelectFiles then (Err SqlError, st1, disk)
      else
        let oldFileMessages := select_old_file_messages (live st1) cutoff in
        let changes :=
          List.length (List.filter (retired cutoff) (messages (live st1))) in
        match (if delete_allowed cutoff (live st1)
               then run flt StDeleteRow (delete_retired cutoff) st1
               else (Err SqlError, st1)) with
        | (Err e, st2) => (Err e, st2, disk)
        | (Ok _, st2) =>
            match MessageService.release_all flt oldFileMessages st2 disk with
            | (Err e, st3, disk3) => (Err e, st3, disk3)
            | (Ok _, st3, disk3) =>
                match commit flt st3 with
                | (Err e, st4) => (Err e, st4, disk3)
                | (Ok _, st4) =>
                    (Ok (mkCleanupInfo changes (List.length oldFileMessages)),
                     st4, disk3)
                end
            end
        end
  end.

(** [cleanupOldMessages(daysToKeep)]. When the [catch] block's own ROLLBACK
    throws, that error is the one that escapes. *)
Definition cleanupOldMessages (flt : faults) (now : Z) (daysToKeep : Z)
           (st : Store) (disk : Disk)
  : outcome ops_error cleanup_info * Store * Disk :=
  let cutoff := now - daysToKeep * 24 * 60 * 60 * 1000 in
  match cleanupOldMessages_try flt cutoff st disk with
  | (Ok info, st', disk') => (Done info, st', disk')
  | (Err _, st', disk') =>
      match rollback flt st' with
      | (Ok _, st'') => (Failed CleanupFailed, st'', disk')
      | (Err _, st'') => (Failed Rejected, st'', disk')
      end
  end.

End SystemMessages.

(** ** services/chatroomService.js: administrators, unmute, close, create *)

Module Moderation.

Import ChatroomService.

Definition setAdmin (t : Tables) (roomId targetUid granterUid : string)
  : outcome ops_error unit * Tables :=
  match find_room t roomId with
  | None => (Failed OnlyCreatorSetsAdmin, t)
  | Some chatroom =>
      if negb (Chatrooms.creator_uid chatroom ==s granterUid)
      then (Failed OnlyCreatorSetsAdmin, t)
      else if negb (existsb (fun u => Users.uid u ==s targetUid) (users t))
      then (Failed TargetUserNotFound, t)
      else if existsb (is_admin_row roomId targetUid) (chatroom_admins t)
      then (Failed AlreadyAdmin, t)
      else if negb (existsb (fun u => Users.uid u ==s granterUid) (users t))
      then (Failed Rejected, t)
      else
        (Done tt,
         set_chatroom_admins t
           (chatroom_admins t ++ [ChatroomAdmins.mk roomId targetUid granterUid]))
  end.

Definition removeAdmin (t : Tables) (roomId targetUid removerUid : string)
  : outcome ops_error unit * Tables :=
  match find_room t roomId with
  | None => (Failed OnlyCreatorRemovesAdmin, t)
  | Some chatroom =>
      if negb (Chatrooms.creator_uid chatroom ==s removerUid)
      then (Failed OnlyCreatorRemovesAdmin, t)
      else
        match List.filter (is_admin_row roomId targetUid) (chatroom_admins t) with
        | [] => (Failed NotAnAdmin, t)
        | _ =>
            (Done tt,
             set_chatroom_admins t
               (List.filter (fun a => negb (is_admin_row roomId targetUid a))
                            (chatroom_admins t)))
        end
  end.

Definition deactivate_mute (r : UserMutes.row) : UserMutes.row :=
  UserMutes.mk (UserMutes.chatroom_id r) (UserMutes.user_uid r)
               (UserMutes.muted_by r) (UserMutes.reason r)
               (UserMutes.mute_until r) false (UserMutes.created_at r).

(** [unmuteUser(roomId, targetUid, unmuterUid)]. The statement on
    [anonymous_users] names a column [is_muted]; [has_is_muted] tells
    whether the table has it (the schema of database.js declares none), and
    without it the statement is rejected, after the records were
    deactivated. *)
Definition unmuteUser (has_is_muted : bool) (t : Tables)
           (roomId targetUid unmuterUid : string)
  : outcome ops_error unit * Tables :=
  if negb (checkAdminPermission t unmuterUid roomId)
  then (Failed NoUnmutePermission, t)
  else
    let t1 :=
      set_user_mutes t
        (List.map (fun r => if is_active_mute roomId targetUid r
                            then deactivate_mute r else r)
                  (user_mutes t)) in
    if existsb (is_anonymous_of roomId targetUid) (anonymous_users t1)
    then
      if has_is_muted
      then (Done tt,
            set_anonymous_users t1
              (List.map (fun a => if is_anonymous_of roomId targetUid a
                                  then set_anonymous_mute None a else a)
                        (anonymous_users t1)))
      else (Failed Rejected, t1)
    else (Done tt, t1).

Definition close_room (c : Chatrooms.row) : Chatrooms.row :=
  Chatrooms.mk (Chatrooms.room_id c) (Chatrooms.name c)
               (Chatrooms.password_hash c) (Chatrooms.creator_uid c) false
               (Chatrooms.created_at c).

Definition set_anonymous_active (b : bool) (a : AnonymousUsers.row)
  : AnonymousUsers.row :=
  AnonymousUsers.mk (AnonymousUsers.uid a) (AnonymousUsers.chatroom_id a)
    (AnonymousUsers.nickname a) (AnonymousUsers.avatar_url a)
    (AnonymousUsers.mute_until a) b (AnonymousUsers.join_time a)
    (AnonymousUsers.last_active a).

(** [closeChatroom(roomId, closerUid)]; the result lists the members that
    were active. *)
Definition closeChatroom (t : Tables) (now : Z) (roomId closerUid : string)
  : outcome ops_error (list string) * Tables :=
  match find_room t roomId with
  | None => (Failed OnlyCreatorCloses, t)
  | Some chatroom =>
      if negb (Chatrooms.creator_uid chatroom ==s closerUid)
      then (Failed OnlyCreatorCloses, t)
      else
        let members :=
          List.map ChatroomMembers.user_uid
            (List.filter (fun m => (ChatroomMembers.chatroom_id m ==s roomId)
                                   && ChatroomMembers.is_active m)
                         (chatroom_members t)) in
        let t1 :=
          set_chatrooms t
            (List.map (fun c => if Chatrooms.room_id c ==s roomId
                                then close_room c else c)
                      (chatrooms t)) in
        let t2 :=
          set_anonymous_users t1
            (List.map (fun a => if AnonymousUsers.chatroom_id a ==s roomId
                                then set_anonymous_active false a else a)
                      (anonymous_users t1)) in
        let t3 :=
          set_chatroom_members t2
            (List.map (fun m => if ChatroomMembers.chatroom_id m ==s roomId
                                then member_left now m else m)
                      (chatroom_members t2)) in
        (Done members, t3)
  end.

(** [parseInt(process.env.CHATROOM_MAX_NAME_LENGTH) || 50], and the same
    for the password. *)
Definition maxLength (env : option Z) : Z :=
  match env with
  | Some d => if d =? 0 then 50 else d
  | None => 50
  end.

(** [utils.isValidRoomName(name)] *)
Definition isValidRoomName (maxNameLength : Z) (name : string) : bool :=
  if name ==s "" then false
  else
    let n := Z.of_nat (String.length (Utils.trim name)) in
    (1 <=? n) && (n <=? maxNameLength).

(** The [do ... while (attempts < 10)] loop of [createChatroom];
    [generated k] is the id the [k]-th call of [utils.generateRoomId]
    returns. *)
Fixpoint pick_room_id (t : Tables) (generated : nat -> string)
         (fuel attempts : nat) : option string :=
  match fuel with
  | O => None
  | S fuel' =>
      let roomId := generated attempts in
      if existsb (fun c => Chatrooms.room_id c ==s roomId) (chatrooms t)
      then pick_room_id t generated fuel' (S attempts)
      else Some roomId
  end.

Record created_room : Type := mkCreated {
  cr_roomId : string;
  cr_name : string;
  cr_hasPassword : bool;
  cr_creatorUid : string }.

Definition welcome (name : string) : string :=
  "欢迎来到聊天室"
  ++ String Utils.dquote_char
       (name ++ String Utils.dquote_char "！这是一个全新的聊天室，快开始聊天吧！").

Section Create.

(** [utils.hashPassword(password)] (bcrypt with a random salt; the salt is
    part of what the function stands for in one call). *)
Variable hashPassword : string -> string.

(** [createChatroom(creatorUid, {name, password})]. The welcome message is
    written after the room, outside any transaction. *)
Definition createChatroom (t : Tables) (now : Z) (nameEnv passwordEnv : option Z)
           (generated : nat -> string) (messageId : string)
           (creatorUid name : string) (password : option string)
  : outcome ops_error created_room * Tables :=
  if negb (isValidRoomName (maxLength nameEnv) name) then (Failed BadRoomName, t)
  else if match password with
          | Some p => negb (p ==s "")
                      && (maxLength passwordEnv <? Z.of_nat (String.length p))
          | None => false
          end
  then (Failed PasswordTooLong, t)
  else
    match pick_room_id t generated 10 0 with
    | None => (Failed Busy, t)
    | Some roomId =>
        let hasPassword := negb (falsy_string password) in
        let passwordHash :=
          match password with
          | Some p => if p ==s "" then None else Some (hashPassword p)
          | None => None
          end in
        let t1 :=
          set_chatrooms t
            (chatrooms t
             ++ [Chatrooms.mk roomId name passwordHash creatorUid true
                              (default_timestamp now)]) in
        match SystemMessages.sendSystemMessage t1 now messageId roomId
                (welcome name) SystemMessages.default_options with
        | (Failed e, t2) => (Failed e, t2)
        | (Done _, t2) =>
            (Done (mkCreated roomId name hasPassword creatorUid), t2)
        end
    end.

End Create.

End Moderation.

(** ** services/userService.js: anonymous sessions, permissions *)

Module Sessions.

(** [parseInt(process.env.ANONYMOUS_SESSION_EXPIRY) || 24 * 60 * 60 * 1000] *)
Definition sessionExpiry (env : option Z) : Z :=
  match env with
  | Some d => if d =? 0 then 24 * 60 * 60 * 1000 else d
  | None => 24 * 60 * 60 * 1000
  end.

Record anonymous_info : Type := mkInfo {
  ai_uid : string;
  ai_nickname : string;
  ai_avatarUrl : option string;
  ai_chatroomId : string;
  ai_joinTime : Z;
  ai_muteUntil : option Z }.

Definition has_uid (uid : string) (a : AnonymousUsers.row) : bool :=
  AnonymousUsers.uid a ==s uid.

Definition touch (now : Z) (a : AnonymousUsers.row) : AnonymousUsers.row :=
  AnonymousUsers.mk (AnonymousUsers.uid a) (AnonymousUsers.chatroom_id a)
    (AnonymousUsers.nickname a) (AnonymousUsers.avatar_url a)
    (AnonymousUsers.mute_until a) (AnonymousUsers.is_active a)
    (AnonymousUsers.join_time a) now.

Definition update_anonymous (p : AnonymousUsers.row -> bool)
           (f : AnonymousUsers.row -> AnonymousUsers.row) (t : Tables) : Tables :=
  set_anonymous_users t
    (List.map (fun a => if p a then f a else a) (anonymous_users t)).

(** [deactivateAnonymousUser(uid)] *)
Definition deactivateAnonymousUser (t : Tables) (uid : string) : Tables :=
  update_anonymous (has_uid uid) (Moderation.set_anonymous_active false) t.

(** [getAnonymousUserInfo(uid)] *)
Definition getAnonymousUserInfo (t : Tables) (now : Z) (env : option Z)
           (uid : string) : outcome ops_error anonymous_info * Tables :=
  match List.find (fun a => has_uid uid a && AnonymousUsers.is_active a)
                  (anonymous_users t) with
  | None => (Failed AnonymousNotFound, t)
  | Some user =>
      if sessionExpiry env <? now - AnonymousUsers.join_time user
      then (Failed AnonymousExpired, deactivateAnonymousUser t uid)
      else
        (Done (mkInfo (AnonymousUsers.uid user) (AnonymousUsers.nickname user)
                 (AnonymousUsers.avatar_url user)
                 (AnonymousUsers.chatroom_id user)
                 (AnonymousUsers.join_time user)
                 (AnonymousUsers.mute_until user)),
         update_anonymous (has_uid uid) (touch now) t)
  end.

(** The row a reactivation writes. *)
Definition revive (now muteUntil : Z) (a : AnonymousUsers.row)
  : AnonymousUsers.row :=
  AnonymousUsers.mk (AnonymousUsers.uid a) (AnonymousUsers.chatroom_id a)
    (AnonymousUsers.nickname a) (AnonymousUsers.avatar_url a)
    (Some muteUntil) true now now.

Record revived : Type := mkRevived {
  rv_uid : string;
  rv_nickname : string;
  rv_avatarUrl : option string;
  rv_chatroomId : string;
  rv_muteUntil : Z }.

(** [reactivateAnonymousUser(uid, chatroomId)]; [env] is the parsed
    ANONYMOUS_MUTE_DURATION. *)
Definition reactivateAnonymousUser (t : Tables) (now : Z) (env : option Z)
           (uid chatroomId : string)
  : outcome ops_error revived * Tables :=
  match List.find (ChatroomService.is_anonymous_of chatroomId uid)
                  (anonymous_users t) with
  | None => (Failed AnonymousUnknown, t)
  | Some existingUser =>
      let muteUntil := now + Config.muteDuration env in
      (Done (mkRevived (AnonymousUsers.uid existingUser)
               (AnonymousUsers.nickname existingUser)
               (AnonymousUsers.avatar_url existingUser) chatroomId muteUntil),
       update_anonymous (ChatroomService.is_anonymous_of chatroomId uid)
                        (revive now muteUntil) t)
  end.

(** [join_time < ? AND is_active = 1] *)
Definition overdue (expiredTime : Z) (a : AnonymousUsers.row) : bool :=
  (AnonymousUsers.join_time a <? expiredTime) && AnonymousUsers.is_active a.

(** [cleanupExpiredAnonymousUsers()]: the number of rows changed, and the
    tables. *)
Definition cleanupExpiredAnonymousUsers (t : Tables) (now : Z) (env : option Z)
  : nat * Tables :=
  let expiredTime := now - sessionExpiry env in
  (List.length (List.filter (overdue expiredTime) (anonymous_users t)),
   update_anonymous (overdue expiredTime)
                    (Moderation.set_anonymous_active false) t).

Record permissions : Type := mkPermissions {
  isCreator : bool;
  isAdmin : bool }.

(** [checkUserPermissions(uid, chatroomId)] *)
Definition checkUserPermissions (t : Tables) (uid chatroomId : string)
  : permissions :=
  let creator :=
    match ChatroomService.find_room t chatroomId with
    | Some chatroom => Chatrooms.creator_uid chatroom ==s uid
    | None => false
    end in
  if creator then mkPermissions true true
  else mkPermissions false
         (existsb (ChatroomService.is_admin_row chatroomId uid)
                  (chatroom_admins t)).

End Sessions.

(** ** app.js: the send-message handler *)

Module SendHandler.

Import Server.

Inductive send_emission : Type :=
| Silent
| NotJoined                                            (* 请先加入聊天室 *)
| SendError (e : error)                                (* socket.emit('error') *)
| NewMessage (roomId : string) (m : MessageService.message_result).
                                                       (* io.to(room).emit *)

(** [!socket.currentRoom || socket.currentRoom !== roomId] *)
Definition not_in_room (sock : Socket) (roomId : string) : bool :=
  match currentRoom sock with
  | Some r => (r ==s "") || negb (r ==s roomId)
  | None => true
  end.

(** What the handler passes to [sendMessage]: a text message. *)
Definition text_data (sock : Socket) (roomId : string) (content : option string)
           (replyToMessageId : option Z) : MessageService.messageData :=
  MessageService.mkData roomId (uid (user sock)) (kind (user sock)) content
                        TText None replyToMessageId None None None None None None.

(** [socket.on('send-message')]. *)
Definition sendMessageHandler (st : State) (now : Z) (messageId : string)
           (sid : nat) (content : option string) (roomId : string)
           (replyToMessageId : option Z) : State * send_emission :=
  match sockets st !! sid with
  | None => (st, Silent)
  | Some sock =>
      if not_in_room sock roomId then (st, NotJoined)
      else
        let db1 := ChatroomService.updateMemberActivity (db st) now roomId
                     (uid (user sock)) in
        match MessageService.sendMessage db1 now messageId
                (text_data sock roomId content replyToMessageId) with
        | (Ok message, db2) =>
            (mkState db2 (onlineUsers st) (userSockets st) (sockets st),
             NewMessage roomId message)
        | (Err e, db2) =>
            (mkState db2 (onlineUsers st) (userSockets st) (sockets st),
             SendError e)
        end
  end.

End SendHandler.

(** ** sendMessage with the clock read where the code reads it *)

Module Clocked.

Import ChatroomService MessageService.

(** The clock readings of one call of [sendMessage], in the order of the
    program: [new Date()] in [isUserMuted] and then in
    [getMuteTimeRemaining] for the mute record, the same two for the
    anonymous row, [strftime('%s', 'now')] of the INSERT and [Date.now()]
    of the result. A reading the call does not make has no effect. *)
Record readings : Type := mkReadings {
  at_record_check : Z;
  at_record_remaining : Z;
  at_anonymous_check : Z;
  at_anonymous_remaining : Z;
  at_insert : Z;
  at_result : Z }.

(** The clock does not run backwards. *)
Definition in_order (c : readings) : Prop :=
  at_record_check c <= at_record_remaining c
  /\ at_record_remaining c <= at_anonymous_check c
  /\ at_anonymous_check c <= at_anonymous_remaining c
  /\ at_anonymous_remaining c <= at_insert c
  /\ at_insert c <= at_result c.

(** All readings at one instant. *)
Definition same_instant (now : Z) : readings :=
  mkReadings now now now now now now.

Definition checkAnonymousMuted (t : Tables) (c : readings) (uid roomId : string)
  : mute_status :=
  match activeAnonymous t uid roomId with
  | Some a =>
      if Utils.isUserMuted (AnonymousUsers.mute_until a) (at_anonymous_check c)
      then mkMuteStatus true (AnonymousUsers.mute_until a)
             (Utils.getMuteTimeRemaining (AnonymousUsers.mute_until a)
                                         (at_anonymous_remaining c))
      else not_muted
  | None => not_muted
  end.

Definition checkUserMuted (t : Tables) (c : readings) (uid roomId : string)
  : mute_status :=
  match currentMute t uid roomId with
  | Some r =>
      if Utils.isUserMuted (Some (UserMutes.mute_until r)) (at_record_check c)
      then mkMuteStatus true (Some (UserMutes.mute_until r))
             (Utils.getMuteTimeRemaining (Some (UserMutes.mute_until r))
                                         (at_record_remaining c))
      else checkAnonymousMuted t c uid roomId
  | None => checkAnonymousMuted t c uid roomId
  end.

Definition sendMessage (t : Tables) (c : readings) (messageId : string)
           (d : messageData) : result message_result * Tables :=
  match validate d with
  | Some v => (Err (Validation v), t)
  | None =>
      let muteStatus := checkUserMuted t c (userUid d) (chatroomId d) in
      if isMuted muteStatus
      then (Err (Muted (remainingMinutes (remaining muteStatus))), t)
      else
        let lookup :=
          match reply_requested d with
          | Some p =>
              match find_message t p (chatroomId d) with
              | Some m => Ok (Some m)
              | None => Err ReplyTargetNotFound
              end
          | None => Ok None
          end in
        match lookup with
        | Err e => (Err e, t)
        | Ok replyToMessage =>
            let row := new_row t (at_insert c) messageId d in
            if negb (insert_allowed t row) then (Err SqlError, t)
            else
              let t' := insert_message t row in
              match sender_view t' (sender_of_kind (userType d))
                                (userUid d) (chatroomId d) with
              | None => (Err TypeError, t')
              | Some user =>
                  let isAdmin :=
                    checkAdminPermission t' (userUid d) (chatroomId d) in
                  match replyToMessage with
                  | None =>
                      (Ok (mkResult row (at_result c) user isAdmin None), t')
                  | Some m =>
                      match sender_view t' (Messages.sender m)
                                        (Messages.sender_uid m) (chatroomId d) with
                      | None => (Err TypeError, t')
                      | Some replied =>
                          (Ok (mkResult row (at_result c) user isAdmin
                                 (Some (mkReplyView (Messages.id m)
                                          (Messages.content m) (Messages.mtype m)
                                          (Messages.created_at m) replied))),
                           t')
                      end
                  end
              end
        end
  end.

End Clocked.

(** ** app.js: handleUserLeaveRoom between its awaits *)

Module Stepwise.

Import Server.

(** [handleUserLeaveRoom] up to its first [await]: the test of
    [socket.currentRoom], the room read from it, and the UPDATE of
    [setMemberOffline] handed to the database. The result names the room
    the call goes on with; without one the call is over. *)
Definition leave_begin (st : State) (now : Z) (sid : nat)
  : State * option string :=
  match sockets st !! sid with
  | None => (st, None)
  | Some sock =>
      match currentRoom sock with
      | None => (st, None)
      | Some roomId =>
          if roomId ==s "" then (st, None)
          else
            (mkState (ChatroomService.setMemberOffline (db st) now roomId
                        (uid (user sock)))
                     (onlineUsers st) (userSockets st) (sockets st),
             Some roomId)
      end
  end.

(** From the first [await] to the second: the uid leaves the set of the
    room the call read at its start, and the building of the list
    begins. *)
Definition leave_unlist (st : State) (sid : nat) (roomId : string) : State :=
  match sockets st !! sid with
  | None => st
  | Some sock =>
      mkState (db st)
              match onlineUsers st !! roomId with
              | Some s =>
                  match set_delete (uid (user sock)) s with
                  | [] => delete roomId (onlineUsers st)
                  | _ => <[roomId := set_delete (uid (user sock)) s]>
                           (onlineUsers st)
                  end
              | None => onlineUsers st
              end
              (userSockets st) (sockets st)
  end.

(** After the second [await], with the list [getOnlineUserList] gave the
    call: [user-left] goes to the room, the socket leaves it, and only now
    [socket.currentRoom] is reset. Nothing is tested again. *)
Definition leave_notify (st : State) (sid : nat) (roomId : string)
           (onlineUserList : list online_entry) : State * list emission :=
  match sockets st !! sid with
  | None => (st, [])
  | Some sock =>
      (mkState (db st) (onlineUsers st) (userSockets st)
               (<[sid := mkSocket (user sock) None
                                  (set_delete roomId (rooms sock))]>
                  (sockets st)),
       [ToOthers sid roomId
          (UserLeft (uid (user sock)) (nickname (user sock)) onlineUserList)])
  end.

(** The handler of [disconnect], which does not wait for the call: the
    call gets as far as its first [await], then [userSockets.delete]
    runs. *)
Definition disconnect_begin (st : State) (now : Z) (sid : nat)
  : State * option string :=
  match sockets st !! sid with
  | None => (st, None)
  | Some sock =>
      let '(st1, room) := leave_begin st now sid in
      (mkState (db st1) (onlineUsers st1)
               (delete (uid (user sock)) (userSockets st1)) (sockets st1),
       room)
  end.

(** The parts of one call with nothing in between. *)
Definition leave_rest (st : State) (now : Z) (sid : nat) (roomId : string)
  : State * list emission :=
  let st1 := leave_unlist st sid roomId in
  match getOnlineUserList st1 now roomId with
  | Err _ => (st1, [])
  | Ok onlineUserList => leave_notify st1 sid roomId onlineUserList
  end.

End Stepwise.

(** ** database.js: the columns of the messages table *)

Module Schema.

(** The columns [createTables] gives [messages]: those of its CREATE
    TABLE, then those its migrations add. *)
Definition messages_columns : list string :=
  ["id"; "message_id"; "chatroom_id"; "sender_uid"; "sender_type"; "content";
   "message_type"; "system_message_type"; "visibility_scope";
   "visible_to_users"; "reply_to_message_id"; "is_deleted"; "created_at";
   "image_url"; "bilibili_bv"; "markdown_content"; "file_id"; "file_name";
   "file_size"; "file_expiry"].

(** The columns the UPDATE of [deleteUserMessages] names. *)
Definition bulk_update_columns : list string :=
  ["is_deleted"; "deleted_by"; "deleted_at"; "chatroom_id"; "sender_uid"].

Definition has_columns (table cols : list string) : bool :=
  forallb (fun c => existsb (String.eqb c) table) cols.

(** SQLite rejects a statement that names a column its table does not
    have. *)
Definition enforced (flt : faults) : Prop :=
  has_columns messages_columns bulk_update_columns = false ->
  flt StMarkDeleted = true.

(** Nothing else goes wrong. *)
Definition declared : faults :=
  fun s =>
    match s with
    | StMarkDeleted => negb (has_columns messages_columns bulk_update_columns)
    | _ => false
    end.

End Schema.

(** * Vocabulary of the properties *)

Section SanitizeVocabulary.

Import Utils.

Fixpoint free_of (c : ascii) (s : string) : bool :=
  match s with
  | EmptyString => true
  | String x t => negb (Ascii.eqb x c) && free_of c t
  end.

(** No [<], [>], double quote, single quote or [/] occurs in [s]. *)
Definition markup_free (s : string) : bool :=
  free_of lt_char s && free_of gt_char s && free_of dquote_char s
  && free_of squote_char s && free_of slash_char s.

End SanitizeVocabulary.

Section MuteVocabulary.

Import ChatroomService.

(** A deadline that lies ahead of [now], within the range of [Date]. *)
Definition ahead (now deadline : Z) : Prop :=
  now < deadline /\ deadline <= Utils.maxTime.

(** [uid] has a currently active mute in [roomId]: the record read as its
    current mute, or its active anonymous row, has [muteUntil > now]. *)
Definition ActiveMute (t : Tables) (now : Z) (uid roomId : string) : Prop :=
  (exists r, currentMute t uid roomId = Some r
             /\ ahead now (UserMutes.mute_until r))
  \/ (exists a m, activeAnonymous t uid roomId = Some a
                  /\ AnonymousUsers.mute_until a = Some m /\ ahead now m).

End MuteVocabulary.

Section DeleteVocabulary.

Import MessageService.

Definition is_file_message (m : option Messages.row) : bool :=
  match m with
  | Some r =>
      match Messages.mtype r with
      | TFile => truthy_string (Messages.file_id r)
      | _ => false
      end
  | None => false
  end.

(** A statement of the deletion is rejected in this run. *)
Definition store_step_fails (flt : faults) (m : option Messages.row) : bool :=
  flt StBegin || flt StClearReplies || flt StDeleteRow || flt StCommit
  || (is_file_message m && (flt StFileInfo || flt StReleaseFile)).

End DeleteVocabulary.

Section PresenceVocabulary.

Import Server.

(** Sockets are registered under the uid of their own user. *)
Definition registered_by_uid (st : State) : Prop :=
  forall u sid, userSockets st !! u = Some sid ->
                exists s, sockets st !! sid = Some s /\ uid (user s) = u.

(** The registry invariant: a registered socket belongs to the uid it is
    registered for, and a room's set, being a [Set], has no element twice. *)
Definition wf (st : State) : Prop :=
  registered_by_uid st
  /\ (forall r s, onlineUsers st !! r = Some s -> List.NoDup s).

(** The state a successful join leaves behind. *)
Definition joined (st : State) (now : Z) (sid : nat) (sock : Socket)
           (roomId : string) : State :=
  mkState
    (ChatroomService.addMemberToChatroom (db st) now roomId (uid (user sock))
       (kind (user sock)) (nickname (user sock)) (avatarUrl (user sock)))
    (<[roomId := set_add (uid (user sock))
                   match onlineUsers st !! roomId with
                   | Some s => s
                   | None => []
                   end]> (onlineUsers st))
    (userSockets st)
    (<[sid := mkSocket (user sock) (Some roomId) (set_add roomId (rooms sock))]>
       (sockets st)).

(** The registry while a leave is under way: the membership is offline and
    the uid is out of the room's set; the socket is not yet reset. *)
Definition leaving (st : State) (now : Z) (sock : Socket) (roomId : string)
  : State :=
  mkState
    (ChatroomService.setMemberOffline (db st) now roomId (uid (user sock)))
    match onlineUsers st !! roomId with
    | Some s =>
        match set_delete (uid (user sock)) s with
        | [] => delete roomId (onlineUsers st)
        | _ => <[roomId := set_delete (uid (user sock)) s]> (onlineUsers st)
        end
    | None => onlineUsers st
    end
    (userSockets st) (sockets st).

(** The state a completed leave leaves behind. *)
Definition left_room (st : State) (now : Z) (sid : nat) (sock : Socket)
           (roomId : string) : State :=
  mkState (db (leaving st now sock roomId))
          (onlineUsers (leaving st now sock roomId))
          (userSockets st)
          (<[sid := mkSocket (user sock) None (set_delete roomId (rooms sock))]>
             (sockets st)).

End PresenceVocabulary.

Section EscapeVocabulary.

Import Utils.

(** What [sanitizeText] puts for one character. *)
Definition escape_char (c : ascii) : string :=
  if Ascii.eqb c lt_char then "&lt;"
  else if Ascii.eqb c gt_char then "&gt;"
  else if Ascii.eqb c dquote_char then "&quot;"
  else if Ascii.eqb c squote_char then "&#x27;"
  else if Ascii.eqb c slash_char then "&#x2F;"
  else String c EmptyString.

(** One pass over the text that escapes every character on its own. *)
Fixpoint escape (s : string) : string :=
  match s with
  | EmptyString => EmptyString
  | String c t => escape_char c ++ escape t
  end.

(** The five replacements of [sanitizeText], in its order. *)
Definition chain (s : string) : string :=
  replace_all slash_char "&#x2F;"
    (replace_all squote_char "&#x27;"
       (replace_all dquote_char "&quot;"
          (replace_all gt_char "&gt;"
             (replace_all lt_char "&lt;" s)))).

(** The text does not begin with white space. *)
Definition starts_ok (u : string) : bool :=
  match u with
  | EmptyString => true
  | String c _ => negb (is_ws c)
  end.

End EscapeVocabulary.

Section StoreVocabulary.

(** Every message id lies below the AUTOINCREMENT counter. *)
Definition ids_below (t : Tables) : Prop :=
  forall m, In m (messages t) -> Messages.id m < next_message_id t.

(** The tables a successful [closeChatroom] leaves. *)
Definition closed (t : Tables) (now : Z) (roomId : string) : Tables :=
  set_chatroom_members
    (set_anonymous_users
       (set_chatrooms t
          (List.map (fun c => if Chatrooms.room_id c ==s roomId
                              then Moderation.close_room c else c)
                    (chatrooms t)))
       (List.map (fun a => if AnonymousUsers.chatroom_id a ==s roomId
                           then Moderation.set_anonymous_active false a else a)
                 (anonymous_users t)))
    (List.map (fun m => if ChatroomMembers.chatroom_id m ==s roomId
                        then ChatroomService.member_left now m else m)
              (chatroom_members t)).

(** The row [createChatroom] writes for the room. *)
Definition room_row (hashPassword : string -> string) (now : Z)
           (roomId name creatorUid : string) (password : option string)
  : Chatrooms.row :=
  Chatrooms.mk roomId name
    match password with
    | Some p => if p ==s "" then None else Some (hashPassword p)
    | None => None
    end
    creatorUid true (default_timestamp now).

End StoreVocabulary.

Section HandlerVocabulary.

Import Server SendHandler.

(** The registry over other membership rows. *)
Definition with_members (st : State) (ms : list ChatroomMembers.row) : State :=
  mkState (set_chatroom_members (db st) ms) (onlineUsers st) (userSockets st)
          (sockets st).

(** What happens to the server: the Socket.IO events, and calls of the
    services from the HTTP routes, which leave other tables behind. *)
Inductive action : Type :=
| Connect (sid : nat) (p : Principal)
| JoinRoomEvent (now : Z) (sid : nat) (roomId : string)
| SendMessageEvent (now : Z) (messageId : string) (sid : nat)
                   (content : option string) (roomId : string)
                   (replyToMessageId : option Z)
| LeaveRoomEvent (now : Z) (sid : nat)
| DisconnectEvent (now : Z) (sid : nat)
| ServiceCall (t : Tables).

Definition perform (st : State) (a : action) : State :=
  match a with
  | Connect sid p => connect st sid p
  | JoinRoomEvent now sid roomId => fst (joinRoom st now sid roomId)
  | SendMessageEvent now messageId sid content roomId reply =>
      fst (sendMessageHandler st now messageId sid content roomId reply)
  | LeaveRoomEvent now sid => fst (handleUserLeaveRoom st now sid)
  | DisconnectEvent now sid => fst (disconnect st now sid)
  | ServiceCall t => mkState t (onlineUsers st) (userSockets st) (sockets st)
  end.

(** Socket.IO gives every connection an id of its own. *)
Definition admissible (st : State) (a : action) : Prop :=
  match a with
  | Connect sid _ => sockets st !! sid = None
  | _ => True
  end.

(** The registries the server can get into from a start with tables
    [t0], its events handled one at a time. *)
Inductive reachable (t0 : Tables) : State -> Prop :=
| reach_initial : reachable t0 (initial t0)
| reach_step st a :
    reachable t0 st -> admissible st a -> reachable t0 (perform st a).

End HandlerVocabulary.

Section BystanderVocabulary.

Import Server SendHandler.








End BystanderVocabulary.

Section ClockVocabulary.

Import ChatroomService.

(** The mute a check with readings [c] goes by: the record read as the
    current mute, with the two readings made for it, or the active
    anonymous row with its two. *)
Definition mute_found (t : Tables) (c : Clocked.readings) (uid roomId : string)
           (deadline checked read : Z) : Prop :=
  (exists r, currentMute t uid roomId = Some r
             /\ UserMutes.mute_until r = deadline
             /\ checked = Clocked.at_record_check c
             /\ read = Clocked.at_record_remaining c)
  \/ (exists a, activeAnonymous t uid roomId = Some a
                /\ AnonymousUsers.mute_until a = Some deadline
                /\ checked = Clocked.at_anonymous_check c
                /\ read = Clocked.at_anonymous_remaining c).

End ClockVocabulary.

(** * Example data *)

Module Fixture.

Definition alice : string := "10000001".
Definition bob : string := "10000002".
Definition carol : string := "10000003".
Definition guest : string := "ANON00000000G7K2".
Definition lobby : string := "ABCD1234".

(** Alice created the room, Carol is an administrator of it, Bob and the
    anonymous guest are ordinary members; the guest came at time 0, so its
    first mute ended at time 600000. *)
Definition base : Tables :=
  mkTables
    [Users.mk alice "alice" None 0; Users.mk bob "bob" None 0;
     Users.mk carol "carol" None 0]
    [AnonymousUsers.mk guest lobby "guest" None (Some 600000) true 0 0]
    [Chatrooms.mk lobby "lobby" None alice true 0]
    [ChatroomAdmins.mk lobby carol alice]
    [] 1 []
    [ChatroomMembers.mk lobby alice KUser "alice" None 0 0 Online true;
     ChatroomMembers.mk lobby bob KUser "bob" None 0 0 Online true;
     ChatroomMembers.mk lobby carol KUser "carol" None 0 0 Online true;
     ChatroomMembers.mk lobby guest KAnonymous "guest" None 0 0 Online true]
    [].

(** Bob is muted until time 100000. *)
Definition bob_muted : Tables :=
  set_user_mutes base [UserMutes.mk lobby bob alice "spam" 100000 true 0].

Definition text_from (who : string) (body : string) : MessageService.messageData :=
  MessageService.mkData lobby who KUser (Some body) TText None None None None
                        None None None None.

Definition markdown_from (who : string) (title body : string)
  : MessageService.messageData :=
  MessageService.mkData lobby who KUser (Some title) TMarkdown None None None
                        (Some body) None None None None.

Fixpoint chars (n : nat) (c : ascii) : string :=
  match n with
  | O => EmptyString
  | S n' => String c (chars n' c)
  end.

End Fixture.

Module DeleteFixture.

Import Fixture.

(** Bob's file message, and Carol's reply to it. *)
Definition file_msg : Messages.row :=
  Messages.mk 1 "uuid-f" lobby bob SUser "report.pdf" TFile None None None None
              (Some "F1") (Some "report.pdf") (Some 2048) (Some 1800000)
              false None None 0.

Definition reply_msg : Messages.row :=
  Messages.mk 2 "uuid-r" lobby carol SUser "thanks" TText None (Some 1) None
              None None None None None false None None 1000.

Definition tables : Tables :=
  set_files (set_messages base [file_msg; reply_msg] 3)
            [Files.mk "F1" "3f9a.file" (Some "uuid-f") 1800000 false].

Definition store : Store := mkStore tables None.

Definition disk : Disk := {[ "3f9a.file" ]}.

Definition only (s0 : step) : faults :=
  fun s =>
    match s0, s with
    | StUnlink, StUnlink => true
    | StDeleteRow, StDeleteRow => true
    | StCommit, StCommit => true
    | _, _ => false
    end.

End DeleteFixture.

Module PresenceFixture.

Import Fixture.

Definition bob_principal : Server.Principal :=
  Server.mkPrincipal bob "bob" None KUser.

(** Bob has connected with socket 1 and has joined no room. *)
Definition connected : Server.State :=
  Server.connect (Server.initial base) 1%nat bob_principal.

Definition bob_socket : Server.Socket := Server.mkSocket bob_principal None [].

Definition lobby_info : ChatroomService.chatroom_info :=
  ChatroomService.mkInfo lobby "lobby" alice 0 0.

(** The lobby with a password. *)
Definition locked : Tables :=
  mkTables (users base) (anonymous_users base)
           [Chatrooms.mk lobby "lobby" (Some "$2a$12$u1Zq") alice true 0]
           (chatroom_admins base) [] 1 [] [] [].

Definition connected_locked : Server.State :=
  Server.connect (Server.initial locked) 1%nat bob_principal.

End PresenceFixture.

Module CleanupFixture.

Import Fixture.

(** A message of Bob that was deleted in bulk long ago, a later message of
    Carol, and an answer of Carol to Bob's message. *)
Definition gone : Messages.row :=
  Messages.mk 1 "uuid-g" lobby bob SUser "old news" TText None None None None
              None None None None true (Some alice) (Some 1000) 0.

Definition kept : Messages.row :=
  Messages.mk 2 "uuid-k" lobby carol SUser "hello" TText None None None None
              None None None None false None None 1000.

Definition answer : Messages.row :=
  Messages.mk 3 "uuid-a" lobby carol SUser "really?" TText None (Some 1) None
              None None None None None false None None 2000.

Definition clean : Store := mkStore (set_messages base [gone; kept] 3) None.

Definition blocked : Store := mkStore (set_messages base [gone; answer] 4) None.

(** Forty days after the start of time, in milliseconds. *)
Definition day40 : Z := 40 * 24 * 60 * 60 * 1000.

End CleanupFixture.

Module CreateFixture.

Import Fixture.

(** A stand-in for bcrypt: the hash shows the password, the check compares
    with it. *)
Definition hashPassword (p : string) : string := "$2a$12$" ++ p.

Definition verifyPassword (p hash : string) : bool := hash ==s hashPassword p.

Definition generated (k : nat) : string := "ROOM0001".

End CreateFixture.

Module HandlerFixture.

Import Fixture PresenceFixture.

(** Bob has joined the lobby with socket 1. *)
Definition in_lobby : Server.State :=
  joined connected 1000 1%nat bob_socket lobby.

Definition bob_in_lobby : Server.Socket :=
  Server.mkSocket bob_principal (Some lobby) [lobby].

End HandlerFixture.

Module BystanderFixture.

Import Fixture PresenceFixture Server.





End BystanderFixture.

Module ClockFixture.

(** The clock passes Bob's deadline, 100000, between the two readings of
    the mute check. *)
Definition across : Clocked.readings :=
  Clocked.mkReadings 99999 100000 100000 100000 100000 100000.

End ClockFixture.

(** * Properties *)

Ltac break_match :=
  match goal with
  | |- context [match ?x with _ => _ end] => destruct x eqn:?
  | H : context [match ?x with _ => _ end] |- _ => destruct x eqn:?
  end.

(** ** sanitizeText leaves no markup character *)

Section Sanitize.

Import Utils.

Lemma free_of_app c s1 s2 :
  free_of c (s1 ++ s2) = free_of c s1 && free_of c s2.
Proof.
  induction s1 as [|x s1 IH]; simpl; [reflexivity|].
  rewrite IH. now rewrite andb_assoc.
Qed.

Lemma free_of_replace_same c r s :
  free_of c r = true -> free_of c (replace_all c r s) = true.
Proof.
  intros Hr. induction s as [|x s IH]; simpl; [reflexivity|].
  destruct (Ascii.eqb x c) eqn:E.
  - rewrite free_of_app, Hr, IH. reflexivity.
  - simpl. rewrite E, IH. reflexivity.
Qed.

Lemma free_of_replace_other d c r s :
  free_of d r = true -> free_of d s = true ->
  free_of d (replace_all c r s) = true.
Proof.
  intros Hr. induction s as [|x s IH]; simpl; [reflexivity|].
  intros Hs. apply andb_prop in Hs as [Hx Hs].
  destruct (Ascii.eqb x c).
  - rewrite free_of_app, Hr, IH by assumption. reflexivity.
  - simpl. rewrite Hx, IH by assumption. reflexivity.
Qed.

Lemma sanitizeText_markup_free s : markup_free (sanitizeText s) = true.
Proof.
  unfold sanitizeText. destruct s as [|a s]; [reflexivity|].
  generalize (trim (String a s)). intros u.
  unfold markup_free.
  repeat (apply andb_true_intro; split);
    repeat first
      [ apply free_of_replace_same; reflexivity
      | apply free_of_replace_other; [reflexivity|] ].
Qed.

End Sanitize.

(** ** The mute check *)

Section MuteCheck.

Import ChatroomService.

Lemma isUserMuted_ahead now m :
  0 <= now -> ahead now m -> Utils.isUserMuted (Some m) now = true.
Proof.
  intros Hnow [Hlt Hmax]. unfold Utils.isUserMuted, Utils.validTime.
  destruct (Z.eqb_spec m 0) as [->|_]; [lia|].
  replace (Z.abs m <=? Utils.maxTime) with true by (symmetry; apply Z.leb_le; lia).
  apply Z.ltb_lt. exact Hlt.
Qed.

Lemma isUserMuted_inv v now :
  Utils.isUserMuted v now = true ->
  exists m, v = Some m /\ now < m /\ Z.abs m <= Utils.maxTime.
Proof.
  unfold Utils.isUserMuted, Utils.validTime. destruct v as [m|]; [|discriminate].
  destruct (m =? 0); [discriminate|].
  destruct (Z.leb_spec (Z.abs m) Utils.maxTime) as [Hmax|_]; [|discriminate].
  intros Hlt. apply Z.ltb_lt in Hlt. eauto.
Qed.

Lemma checkUserMuted_active t now uid roomId :
  0 <= now -> ActiveMute t now uid roomId ->
  isMuted (checkUserMuted t now uid roomId) = true.
Proof.
  intros Hnow [(r & Hr & Ha)|(a & m & Hfind & Hm & Ha)]; unfold checkUserMuted.
  - rewrite Hr, (isUserMuted_ahead _ _ Hnow Ha). reflexivity.
  - assert (isMuted (checkAnonymousMuted t now uid roomId) = true) as Hanon.
    { unfold checkAnonymousMuted. rewrite Hfind, Hm.
      rewrite (isUserMuted_ahead _ _ Hnow Ha). reflexivity. }
    destruct (currentMute t uid roomId) as [r|]; [|exact Hanon].
    destruct (Utils.isUserMuted _ now); [reflexivity|exact Hanon].
Qed.

(** Without a current record and without an active anonymous row whose
    deadline lies ahead, nobody is reported muted. *)
Lemma checkUserMuted_inv t now uid roomId :
  isMuted (checkUserMuted t now uid roomId) = true ->
  (exists r, currentMute t uid roomId = Some r
             /\ now < UserMutes.mute_until r)
  \/ (exists a m, activeAnonymous t uid roomId = Some a
                  /\ AnonymousUsers.mute_until a = Some m /\ now < m).
Proof.
  unfold checkUserMuted, checkAnonymousMuted.
  destruct (currentMute t uid roomId) as [r|] eqn:Hr.
  - destruct (Utils.isUserMuted (Some (UserMutes.mute_until r)) now) eqn:Hm.
    + intros _. left. exists r. split; [reflexivity|].
      apply isUserMuted_inv in Hm as (m & [= <-] & Hlt & _). exact Hlt.
    + destruct (activeAnonymous t uid roomId) as [a|]; [|discriminate].
      destruct (Utils.isUserMuted (AnonymousUsers.mute_until a) now) eqn:Ha;
        [|discriminate].
      intros _. right. apply isUserMuted_inv in Ha as (m & Hm' & Hlt & _).
      exists a, m. auto.
  - destruct (activeAnonymous t uid roomId) as [a|]; [|discriminate].
    destruct (Utils.isUserMuted (AnonymousUsers.mute_until a) now) eqn:Ha;
      [|discriminate].
    intros _. right. apply isUserMuted_inv in Ha as (m & Hm' & Hlt & _).
    exists a, m. auto.
Qed.

End MuteCheck.

(** ** sendMessage: validation, mute check, persisted row *)

Section Send.

Import MessageService.

(** A payload that fails validation is rejected with that error, whatever
    the mute state, and nothing is written. *)
Lemma sendMessage_invalid t now messageId d v :
  validate d = Some v ->
  sendMessage t now messageId d = (Err (Validation v), t).
Proof. intros H. unfold sendMessage. rewrite H. reflexivity. Qed.

(** A valid payload of a muted sender is rejected with the mute error and
    nothing is written. *)
Lemma sendMessage_muted t now messageId d :
  validate d = None ->
  ChatroomService.isMuted
    (ChatroomService.checkUserMuted t now (userUid d) (chatroomId d)) = true ->
  exists mins, sendMessage t now messageId d = (Err (Muted mins), t).
Proof.
  intros Hv Hm. unfold sendMessage. rewrite Hv, Hm. eauto.
Qed.

(** A send that does not fail has passed validation and the mute check and
    has appended exactly the row it returns. *)
Lemma sendMessage_ok_inv t now messageId d r t' :
  sendMessage t now messageId d = (Ok r, t') ->
  validate d = None
  /\ ChatroomService.isMuted
       (ChatroomService.checkUserMuted t now (userUid d) (chatroomId d)) = false
  /\ mr_row r = new_row t now messageId d
  /\ t' = insert_message t (new_row t now messageId d).
Proof.
  unfold sendMessage.
  destruct (validate d); [discriminate|].
  destruct (ChatroomService.isMuted _); [discriminate|].
  destruct (match reply_requested d with
            | Some p => _ | None => _ end) as [reply|e]; [|discriminate].
  destruct (negb (insert_allowed _ _)); [discriminate|].
  destruct (sender_view _ _ _ _) as [u|]; [|discriminate].
  destruct reply as [m|].
  - destruct (sender_view _ _ _ _) as [u'|]; [|discriminate].
    intros [= <- <-]. auto.
  - intros [= <- <-]. auto.
Qed.

End Send.

(** ** Claims on sendMessage *)

Section SendClaims.

Import MessageService.

(** C1 (as the code has it). A principal with a currently active mute
    cannot send: [sendMessage] fails and leaves every table, so also
    [messages], as it was. The failure is the mute error when the payload
    passes validation; a payload that fails validation is rejected with its
    validation error, since validation comes first. *)
Theorem send_while_muted_rejected t now messageId d :
  0 <= now ->
  ActiveMute t now (userUid d) (chatroomId d) ->
  exists e,
    sendMessage t now messageId d = (Err e, t)
    /\ (validate d = None -> exists mins, e = Muted mins)
    /\ (forall v, validate d = Some v -> e = Validation v).
Proof.
  intros Hnow Hmute.
  pose proof (checkUserMuted_active _ _ _ _ Hnow Hmute) as Hm.
  destruct (validate d) as [v|] eqn:Hv.
  - exists (Validation v). rewrite (sendMessage_invalid _ _ _ _ _ Hv).
    split; [reflexivity|]. split; [discriminate|]. now intros ? [= <-].
  - destruct (sendMessage_muted t now messageId d Hv Hm) as [mins Hs].
    exists (Muted mins). rewrite Hs.
    split; [reflexivity|]. split; [eauto|discriminate].
Qed.

Lemma send_while_muted_rejected_witness :
  (0 <= 40000
   /\ ActiveMute Fixture.bob_muted 40000 Fixture.bob Fixture.lobby)
  /\ exists e,
      sendMessage Fixture.bob_muted 40000 "uuid-1"
                  (Fixture.text_from Fixture.bob "hi")
      = (Err e, Fixture.bob_muted)
      /\ (validate (Fixture.text_from Fixture.bob "hi") = None
          -> exists mins, e = Muted mins)
      /\ (forall v, validate (Fixture.text_from Fixture.bob "hi") = Some v
                    -> e = Validation v).
Proof.
  assert (ActiveMute Fixture.bob_muted 40000 Fixture.bob Fixture.lobby) as Hm.
  { left. eexists. split; [reflexivity|]. split; vm_compute; congruence. }
  split; [split; [lia|exact Hm]|].
  apply (send_while_muted_rejected Fixture.bob_muted 40000 "uuid-1"
           (Fixture.text_from Fixture.bob "hi")); [lia|exact Hm].
Defined.

(** C1 as stated fails: Bob is muted and sends an empty text; the send is
    rejected with the validation error, not with the mute error. *)
Lemma send_while_muted_not_always_mute_error :
  ActiveMute Fixture.bob_muted 40000 Fixture.bob Fixture.lobby
  /\ sendMessage Fixture.bob_muted 40000 "uuid-1"
                 (Fixture.text_from Fixture.bob "")
     = (Err (Validation ContentEmpty), Fixture.bob_muted)
  /\ forall mins, Validation ContentEmpty <> Muted mins.
Proof.
  split; [|split; [reflexivity|discriminate]].
  left. eexists. split; [reflexivity|]. split; vm_compute; congruence.
Qed.

(** C9 (as the code has it). Validation comes before the mute check: a
    muted sender whose payload breaks a validation rule is rejected with
    that validation error; the mute error is what a muted sender gets for a
    payload that passes validation. *)
Theorem validation_precedes_mute_check t now messageId d :
  0 <= now ->
  ActiveMute t now (userUid d) (chatroomId d) ->
  (forall v, validate d = Some v ->
             sendMessage t now messageId d = (Err (Validation v), t))
  /\ (validate d = None ->
      exists mins, sendMessage t now messageId d = (Err (Muted mins), t)).
Proof.
  intros Hnow Hmute. split.
  - intros v Hv. apply sendMessage_invalid. exact Hv.
  - intros Hv. apply sendMessage_muted; [exact Hv|].
    apply checkUserMuted_active; assumption.
Qed.

Lemma validation_precedes_mute_check_witness :
  (0 <= 40000
   /\ ActiveMute Fixture.bob_muted 40000 Fixture.bob Fixture.lobby)
  /\ (forall v,
         validate (Fixture.text_from Fixture.bob (Fixture.chars 1001 "a")) = Some v ->
         sendMessage Fixture.bob_muted 40000 "uuid-1"
                     (Fixture.text_from Fixture.bob (Fixture.chars 1001 "a"))
         = (Err (Validation v), Fixture.bob_muted))
  /\ (validate (Fixture.text_from Fixture.bob (Fixture.chars 1001 "a")) = None ->
      exists mins,
        sendMessage Fixture.bob_muted 40000 "uuid-1"
                    (Fixture.text_from Fixture.bob (Fixture.chars 1001 "a"))
        = (Err (Muted mins), Fixture.bob_muted)).
Proof.
  assert (ActiveMute Fixture.bob_muted 40000 Fixture.bob Fixture.lobby) as Hm.
  { left. eexists. split; [reflexivity|]. split; vm_compute; congruence. }
  split; [split; [lia|exact Hm]|].
  apply (validation_precedes_mute_check Fixture.bob_muted 40000 "uuid-1"
           (Fixture.text_from Fixture.bob (Fixture.chars 1001 "a")));
    [lia|exact Hm].
Defined.

(** C9 as stated fails: Bob is muted and sends a text of 1001 characters;
    the send is rejected with the length error, not with the mute error. *)
Lemma muted_long_text_gets_validation_error :
  ActiveMute Fixture.bob_muted 40000 Fixture.bob Fixture.lobby
  /\ String.length (Fixture.chars 1001 "a") = 1001%nat
  /\ sendMessage Fixture.bob_muted 40000 "uuid-1"
                 (Fixture.text_from Fixture.bob (Fixture.chars 1001 "a"))
     = (Err (Validation ContentTooLong), Fixture.bob_muted).
Proof.
  split; [|split; vm_compute; reflexivity].
  left. eexists. split; [reflexivity|]. split; vm_compute; congruence.
Qed.

(** C8 (as the code has it). An accepted message is persisted as one new
    row whose [content] (the text, the image caption, the markdown title,
    the file message's content) is the sanitized input, free of [<], [>],
    both quotes and [/]; the markdown body, the file name, the image URL
    and the BV id are persisted as supplied. *)
Theorem accepted_content_is_sanitized t now messageId d r t' :
  sendMessage t now messageId d = (Ok r, t') ->
  messages t' = (messages t ++ [mr_row r])%list
  /\ Messages.content (mr_row r) = sanitizedContent d
  /\ markup_free (Messages.content (mr_row r)) = true
  /\ Messages.markdown_content (mr_row r) = markdownContent d
  /\ Messages.file_name (mr_row r) = fileName d
  /\ Messages.image_url (mr_row r) = imageUrl d
  /\ Messages.bilibili_bv (mr_row r) = bilibiliId d.
Proof.
  intros H. apply sendMessage_ok_inv in H as (_ & _ & Hrow & ->).
  rewrite Hrow. simpl. repeat split.
  unfold sanitizedContent. destruct (content d) as [s|]; [|reflexivity].
  destruct (s ==s ""); [reflexivity|apply sanitizeText_markup_free].
Qed.

Lemma accepted_content_is_sanitized_witness :
  exists r t',
    sendMessage Fixture.base 40000 "uuid-1" (Fixture.text_from Fixture.bob "<hi>")
    = (Ok r, t')
    /\ Messages.content (mr_row r) = "&lt;hi&gt;"
    /\ markup_free (Messages.content (mr_row r)) = true.
Proof.
  eexists. eexists. split; [vm_compute; reflexivity|].
  split; [reflexivity|].
  eapply (accepted_content_is_sanitized Fixture.base 40000 "uuid-1"
            (Fixture.text_from Fixture.bob "<hi>")).
  vm_compute. reflexivity.
Defined.

(** C8 as stated fails: an accepted markdown message is stored with its
    body unescaped. *)
Lemma markdown_body_stored_unescaped :
  exists r t',
    sendMessage Fixture.base 40000 "uuid-1"
                (Fixture.markdown_from Fixture.bob "note" "<b>x</b>")
    = (Ok r, t')
    /\ In (mr_row r) (messages t')
    /\ Messages.markdown_content (mr_row r) = Some "<b>x</b>"
    /\ markup_free "<b>x</b>" = false.
Proof.
  eexists. eexists. split; [vm_compute; reflexivity|].
  split; [left; reflexivity|]. split; reflexivity.
Qed.

End SendClaims.

(** ** deleteMessage and deleteUserMessages *)

Section Delete.

Import MessageService.

(** What a committed deletion has done to [messages]: the links to the
    message are cleared, then its row is removed. *)
Lemma deleteMessage_ok_messages flt st disk messageId deleterUid chatroomId
      info st' disk' :
  deleteMessage flt st disk messageId deleterUid chatroomId = (Ok info, st', disk') ->
  messages (live st')
  = messages (delete_row messageId (clear_replies_to messageId (live st)))
  /\ undo st' = None.
Proof.
  unfold deleteMessage, deleteMessage_try, beginTransaction, run, commit, rollback.
  intros H.
  repeat (break_match; simpl in *; try discriminate);
    repeat match goal with
           | E : (_, _) = (_, _) |- _ => inversion E; clear E; subst
           end;
    simpl; auto.
Qed.

Lemma in_clear_replies mid t m :
  In m (messages t) ->
  Messages.reply_to_message_id m = Some mid ->
  In (Messages.clear_reply m) (messages (clear_replies_to mid t)).
Proof.
  intros Hin Hreply. unfold clear_replies_to. simpl.
  apply in_map_iff. exists m. split; [|exact Hin].
  rewrite Hreply, Z.eqb_refl. reflexivity.
Qed.

Lemma in_delete_row mid t m :
  In m (messages t) -> Messages.id m <> mid ->
  In m (messages (delete_row mid t)).
Proof.
  intros Hin Hne. unfold delete_row. simpl.
  apply filter_In. split; [exact Hin|].
  apply negb_true_iff. apply Z.eqb_neq. exact Hne.
Qed.

Lemma not_in_delete_row mid t m :
  In m (messages (delete_row mid t)) -> Messages.id m <> mid.
Proof.
  unfold delete_row. simpl. intros Hin. apply filter_In in Hin as [_ H].
  apply negb_true_iff in H. apply Z.eqb_neq. exact H.
Qed.

Lemma no_reply_after_clear mid t m :
  In m (messages (clear_replies_to mid t)) ->
  Messages.reply_to_message_id m <> Some mid.
Proof.
  unfold clear_replies_to. simpl. intros Hin.
  apply in_map_iff in Hin as (m0 & <- & _).
  destruct (Messages.reply_to_message_id m0) as [p|] eqn:E.
  - destruct (Z.eqb_spec p mid) as [->|Hne]; simpl; [discriminate|].
    rewrite E. congruence.
  - rewrite E. discriminate.
Qed.

(** C6. When M2 replies to M1 and M1 is deleted, M2 stays in the store with
    its reply link cleared and nothing else changed; M1's row is gone and no
    row refers to it any more. *)
Theorem reply_survives_delete flt st disk messageId deleterUid chatroomId
        info st' disk' m2 :
  deleteMessage flt st disk messageId deleterUid chatroomId = (Ok info, st', disk') ->
  In m2 (messages (live st)) ->
  Messages.reply_to_message_id m2 = Some messageId ->
  Messages.id m2 <> messageId ->
  In (Messages.clear_reply m2) (messages (live st'))
  /\ Messages.reply_to_message_id (Messages.clear_reply m2) = None
  /\ Messages.id (Messages.clear_reply m2) = Messages.id m2
  /\ Messages.content (Messages.clear_reply m2) = Messages.content m2
  /\ (forall m, In m (messages (live st')) ->
                Messages.id m <> messageId
                /\ Messages.reply_to_message_id m <> Some messageId).
Proof.
  intros Hok Hin Hreply Hne.
  apply deleteMessage_ok_messages in Hok as [Hmsgs _].
  rewrite Hmsgs. split; [|split; [reflexivity|split; [reflexivity|split; [reflexivity|]]]].
  - apply in_delete_row; [|exact Hne].
    apply in_clear_replies; assumption.
  - intros m Hm. split; [eapply not_in_delete_row; exact Hm|].
    unfold delete_row in Hm. simpl in Hm. apply filter_In in Hm as [Hm _].
    eapply no_reply_after_clear. exact Hm.
Qed.

(** A failed deletion leaves the store as it was, provided no transaction
    was open at the call and ROLLBACK itself is not rejected. *)
Lemma deleteMessage_err_store flt st disk messageId deleterUid chatroomId
      e st' disk' :
  undo st = None ->
  flt StRollback = false ->
  deleteMessage flt st disk messageId deleterUid chatroomId = (Err e, st', disk') ->
  st' = st.
Proof.
  destruct st as [t u]. simpl. intros -> Hrb.
  unfold deleteMessage, deleteMessage_try, beginTransaction, run, commit, rollback.
  rewrite Hrb. simpl. intros H.
  repeat (break_match; simpl in *; try discriminate);
    repeat match goal with
           | E : (_, _) = (_, _) |- _ => inversion E; clear E; subst
           end;
    simpl in *; try reflexivity; try discriminate; congruence.
Qed.

Lemma deleteMessage_try_unlink_blind flt flt' :
  (forall s, s <> StUnlink -> flt' s = flt s) ->
  forall message messageId st disk,
    fst (deleteMessage_try flt' message messageId st disk)
    = fst (deleteMessage_try flt message messageId st disk).
Proof.
  intros Hsame message messageId st disk.
  unfold deleteMessage_try, beginTransaction, run, commit.
  rewrite !Hsame by discriminate.
  destruct (flt StBegin); [reflexivity|].
  destruct (undo st); [reflexivity|].
  destruct (flt StClearReplies); [reflexivity|].
  destruct (flt StDeleteRow), (flt StCommit), (flt StFileInfo),
    (flt StReleaseFile), (Messages.mtype message),
    (Messages.file_id message) as [fid|]; simpl; try reflexivity;
    destruct (fid ==s ""); simpl; try reflexivity;
    destruct (List.find _ _) as [f|]; simpl; try reflexivity;
    destruct (Files.stored_name f ==s ""); reflexivity.
Qed.

(** Whether the physical removal of the file fails or not makes no
    difference to the outcome and to the store. *)
Lemma deleteMessage_unlink_blind flt flt' :
  (forall s, s <> StUnlink -> flt' s = flt s) ->
  forall st disk messageId deleterUid chatroomId,
    fst (deleteMessage flt' st disk messageId deleterUid chatroomId)
    = fst (deleteMessage flt st disk messageId deleterUid chatroomId).
Proof.
  intros Hsame st disk messageId deleterUid chatroomId.
  unfold deleteMessage.
  destruct (find_message _ _ _) as [message|]; [|reflexivity].
  destruct (_ && _); [reflexivity|].
  pose proof (deleteMessage_try_unlink_blind flt flt' Hsame message messageId
                st disk) as H.
  destruct (deleteMessage_try flt' _ _ _ _) as [[r1 s1] d1].
  destruct (deleteMessage_try flt _ _ _ _) as [[r2 s2] d2].
  simpl in H. injection H as -> ->.
  destruct r2; [reflexivity|].
  unfold rollback. rewrite Hsame by discriminate.
  destruct (flt StRollback); [reflexivity|].
  destruct (undo s2); reflexivity.
Qed.

End Delete.

Section DeleteClaims.

Import MessageService.

Lemma deleteMessage_fault_fails flt st disk messageId deleterUid chatroomId :
  store_step_fails flt (find_message (live st) messageId chatroomId) = true ->
  exists e,
    fst (fst (deleteMessage flt st disk messageId deleterUid chatroomId)) = Err e.
Proof.
  unfold store_step_fails, is_file_message, truthy_string, falsy_string, deleteMessage.
  destruct (find_message _ _ _) as [message|]; [|simpl; eauto].
  destruct (negb (ChatroomService.checkAdminPermission _ _ _) && _);
    [simpl; eauto|].
  intros Hf.
  assert (exists e s d, deleteMessage_try flt message messageId st disk
                        = (Err e, s, d)) as (e & s & d & ->).
  { unfold deleteMessage_try, beginTransaction, run, commit.
    destruct (flt StBegin); [eauto|].
    destruct (undo st); [eauto|].
    destruct (flt StClearReplies); [eauto|].
    destruct (Messages.mtype message), (Messages.file_id message) as [fid|];
      simpl in *;
      try (destruct (fid ==s ""); simpl in * );
      destruct (flt StDeleteRow), (flt StCommit), (flt StFileInfo),
        (flt StReleaseFile); simpl in *; try discriminate; eauto;
      destruct (List.find _ _) as [f|]; simpl; eauto;
      destruct (Files.stored_name f ==s ""); simpl; eauto. }
  destruct (rollback flt s) as [[|e'] s']; simpl; eauto.
Qed.

(** C2 (as the code has it). The store statements of a deletion form one
    transaction. When one of them is rejected (BEGIN, the clearing of the
    reply links, the lookup or the release of the file row, the DELETE of
    the message row, COMMIT) the deletion fails, and after a failed deletion
    the store is exactly as before the call: the message row exists, the
    reply links and the file row are unchanged. A failure of the physical
    removal of the file is not such a step: it changes neither the outcome
    nor the store. *)
Theorem failed_delete_is_rolled_back flt st disk messageId deleterUid chatroomId :
  undo st = None ->
  flt StRollback = false ->
  (store_step_fails flt (find_message (live st) messageId chatroomId) = true ->
   exists e,
     fst (fst (deleteMessage flt st disk messageId deleterUid chatroomId)) = Err e)
  /\ (forall e st' disk',
         deleteMessage flt st disk messageId deleterUid chatroomId
         = (Err e, st', disk') ->
         st' = st)
  /\ (forall flt',
         (forall s, s <> StUnlink -> flt' s = flt s) ->
         fst (deleteMessage flt' st disk messageId deleterUid chatroomId)
         = fst (deleteMessage flt st disk messageId deleterUid chatroomId)).
Proof.
  intros Hundo Hrb. split; [|split].
  - apply deleteMessage_fault_fails.
  - intros e st' disk' H. eapply deleteMessage_err_store; eassumption.
  - intros flt' Hsame. apply deleteMessage_unlink_blind. exact Hsame.
Qed.

Lemma failed_delete_is_rolled_back_witness :
  (undo DeleteFixture.store = None
   /\ DeleteFixture.only StDeleteRow StRollback = false)
  /\ exists e disk',
      deleteMessage (DeleteFixture.only StDeleteRow) DeleteFixture.store
                    DeleteFixture.disk 1 Fixture.bob Fixture.lobby
      = (Err e, DeleteFixture.store, disk')
      /\ In DeleteFixture.file_msg (messages (live DeleteFixture.store)).
Proof.
  split; [split; reflexivity|].
  destruct (deleteMessage (DeleteFixture.only StDeleteRow) DeleteFixture.store
              DeleteFixture.disk 1 Fixture.bob Fixture.lobby)
    as [[[info|e] st'] disk'] eqn:Hrun.
  - exfalso.
    destruct (proj1 (failed_delete_is_rolled_back
                       (DeleteFixture.only StDeleteRow) DeleteFixture.store
                       DeleteFixture.disk 1 Fixture.bob Fixture.lobby
                       eq_refl eq_refl) eq_refl) as [e He].
    rewrite Hrun in He. discriminate He.
  - exists e, disk'.
    rewrite (proj1 (proj2 (failed_delete_is_rolled_back
                             (DeleteFixture.only StDeleteRow) DeleteFixture.store
                             DeleteFixture.disk 1 Fixture.bob Fixture.lobby
                             eq_refl eq_refl)) e st' disk' Hrun).
    split; [reflexivity|left; reflexivity].
Defined.

(** C2 as stated fails: the physical removal of Bob's file fails, yet the
    deletion is not rolled back; it commits and the message row is gone,
    while the file is still on disk. *)
Lemma delete_commits_when_unlink_fails :
  DeleteFixture.only StUnlink StUnlink = true
  /\ "3f9a.file" ∈ DeleteFixture.disk
  /\ exists info st',
      deleteMessage (DeleteFixture.only StUnlink) DeleteFixture.store
                    DeleteFixture.disk 1 Fixture.bob Fixture.lobby
      = (Ok info, st', DeleteFixture.disk)
      /\ find_message (live st') 1 Fixture.lobby = None
      /\ undo st' = None.
Proof.
  split; [reflexivity|]. split; [apply elem_of_singleton; reflexivity|].
  eexists. eexists. split; [vm_compute; reflexivity|].
  split; reflexivity.
Qed.

(** The rollback restores the tables, not the disk: when the DELETE is
    rejected after the file was removed, the message and its file row are
    back but the file is not. *)
Remark rollback_does_not_restore_disk :
  deleteMessage (DeleteFixture.only StDeleteRow) DeleteFixture.store
                DeleteFixture.disk 1 Fixture.bob Fixture.lobby
  = (Err DeleteFailed, DeleteFixture.store,
     DeleteFixture.disk ∖ {[ "3f9a.file" ]})
  /\ "3f9a.file" ∉ DeleteFixture.disk ∖ {[ "3f9a.file" ]}.
Proof.
  split; [vm_compute; reflexivity|].
  intros Hin. apply elem_of_difference in Hin as [_ Hout].
  apply Hout. apply elem_of_singleton. reflexivity.
Qed.

(** C5. Bulk deletion aimed at the room's creator always fails, whoever
    asks, and changes nothing: not the tables, not the disk. *)
Theorem creator_messages_never_bulk_deleted flt now st disk targetUid chatroomId
        deleterUid room :
  ChatroomService.find_room (live st) chatroomId = Some room ->
  Chatrooms.creator_uid room = targetUid ->
  exists e,
    deleteUserMessages flt now st disk targetUid chatroomId deleterUid
    = (Err e, st, disk)
    /\ (e = NoBulkDeletePermission \/ e = CreatorMessages).
Proof.
  intros Hroom Hcreator. unfold deleteUserMessages.
  destruct (negb _).
  - eauto.
  - rewrite Hroom, Hcreator, String.eqb_refl. eauto.
Qed.

Lemma creator_messages_never_bulk_deleted_witness :
  (ChatroomService.find_room (live DeleteFixture.store) Fixture.lobby
   = Some (Chatrooms.mk Fixture.lobby "lobby" None Fixture.alice true 0)
   /\ Chatrooms.creator_uid
        (Chatrooms.mk Fixture.lobby "lobby" None Fixture.alice true 0)
      = Fixture.alice)
  /\ exists e,
      deleteUserMessages no_fault 5000 DeleteFixture.store DeleteFixture.disk
                         Fixture.alice Fixture.lobby Fixture.alice
      = (Err e, DeleteFixture.store, DeleteFixture.disk)
      /\ (e = NoBulkDeletePermission \/ e = CreatorMessages).
Proof.
  split; [split; reflexivity|].
  apply (creator_messages_never_bulk_deleted no_fault 5000 DeleteFixture.store
           DeleteFixture.disk Fixture.alice Fixture.lobby Fixture.alice
           (Chatrooms.mk Fixture.lobby "lobby" None Fixture.alice true 0));
    reflexivity.
Defined.

Lemma reply_survives_delete_witness :
  (deleteMessage no_fault DeleteFixture.store DeleteFixture.disk 1 Fixture.bob
                 Fixture.lobby
   = (Ok (mkDeleteInfo 1 Fixture.bob),
      snd (fst (deleteMessage no_fault DeleteFixture.store DeleteFixture.disk 1
                  Fixture.bob Fixture.lobby)),
      snd (deleteMessage no_fault DeleteFixture.store DeleteFixture.disk 1
             Fixture.bob Fixture.lobby))
   /\ In DeleteFixture.reply_msg (messages (live DeleteFixture.store))
   /\ Messages.reply_to_message_id DeleteFixture.reply_msg = Some 1
   /\ Messages.id DeleteFixture.reply_msg <> 1)
  /\ In (Messages.clear_reply DeleteFixture.reply_msg)
        (messages (live (snd (fst (deleteMessage no_fault DeleteFixture.store
                                     DeleteFixture.disk 1 Fixture.bob
                                     Fixture.lobby))))).
Proof.
  assert (deleteMessage no_fault DeleteFixture.store DeleteFixture.disk 1
            Fixture.bob Fixture.lobby
          = (Ok (mkDeleteInfo 1 Fixture.bob),
             snd (fst (deleteMessage no_fault DeleteFixture.store
                         DeleteFixture.disk 1 Fixture.bob Fixture.lobby)),
             snd (deleteMessage no_fault DeleteFixture.store DeleteFixture.disk 1
                    Fixture.bob Fixture.lobby))) as Hrun.
  { destruct (deleteMessage no_fault DeleteFixture.store DeleteFixture.disk 1
                Fixture.bob Fixture.lobby) as [[r s] d] eqn:E.
    simpl. f_equal. f_equal.
    apply (f_equal (fun x => fst (fst x))) in E. simpl in E. rewrite <- E.
    vm_compute. reflexivity. }
  assert (In DeleteFixture.reply_msg (messages (live DeleteFixture.store))) as Hin.
  { right. left. reflexivity. }
  assert (Messages.id DeleteFixture.reply_msg <> 1) as Hne.
  { vm_compute. discriminate. }
  split; [repeat split; assumption|].
  exact (proj1 (reply_survives_delete no_fault DeleteFixture.store
                  DeleteFixture.disk 1 Fixture.bob Fixture.lobby _ _ _
                  DeleteFixture.reply_msg Hrun Hin eq_refl Hne)).
Defined.

End DeleteClaims.

(** ** kickUser *)

Section Kick.

Import ChatroomService.

(** A kick succeeds only for the creator of an active room, aimed at
    somebody else who is an active member. *)
Lemma kickUser_ok_inv t now roomId targetUid kickerUid info t' :
  kickUser t now roomId targetUid kickerUid = (Ok info, t') ->
  (exists room, find_active_room t roomId = Some room
                /\ Chatrooms.creator_uid room = kickerUid)
  /\ targetUid <> kickerUid
  /\ (exists m, In m (chatroom_members t)
                /\ is_member roomId targetUid m = true
                /\ ChatroomMembers.is_active m = true)
  /\ t' = set_user_mutes
            (set_chatroom_admins
               (update_member roomId targetUid
                  (member_left (default_timestamp now)) t)
               (List.filter (fun a => negb (is_admin_row roomId targetUid a))
                            (chatroom_admins t)))
            (List.filter
               (fun r => negb ((UserMutes.user_uid r ==s targetUid)
                               && (UserMutes.chatroom_id r ==s roomId)))
               (user_mutes t)).
Proof.
  unfold kickUser.
  destruct (find_active_room t roomId) as [room|] eqn:Hroom; [|discriminate].
  destruct (Chatrooms.creator_uid room ==s kickerUid) eqn:Hc; [|discriminate].
  destruct (targetUid ==s kickerUid) eqn:Hself; [discriminate|]. simpl.
  destruct (List.find _ (chatroom_members t)) as [m|] eqn:Hm; [|discriminate].
  intros [= <- <-].
  apply String.eqb_eq in Hc. apply String.eqb_neq in Hself.
  apply find_some in Hm as [Hin Hm]. apply andb_prop in Hm as [Hmem Hact].
  split; [eauto|]. split; [exact Hself|]. split; [eauto|reflexivity].
Qed.

(** Somebody who is not the creator of the room and has no grant row has
    no administrator right. *)
Lemma checkAdminPermission_no_grant t uid roomId :
  (forall room, find_room t roomId = Some room ->
                Chatrooms.creator_uid room <> uid) ->
  existsb (is_admin_row roomId uid) (chatroom_admins t) = false ->
  checkAdminPermission t uid roomId = false.
Proof.
  intros Hcreator Hgrant. unfold checkAdminPermission.
  destruct (find_room t roomId) as [room|]; [|exact Hgrant].
  destruct (String.eqb_spec (Chatrooms.creator_uid room) uid) as [E|_];
    [|exact Hgrant].
  exfalso. eapply Hcreator; eauto.
Qed.

Lemma existsb_filter_negb {A} (p : A -> bool) (l : list A) :
  existsb p (List.filter (fun x => negb (p x)) l) = false.
Proof.
  induction l as [|x l IH]; simpl; [reflexivity|].
  destruct (p x) eqn:E; simpl; [exact IH|]. rewrite E. exact IH.
Qed.

(** After a kick the target holds no administrator right in the room,
    provided the room id names one room (as the UNIQUE constraint on
    [room_id] demands), and its membership row is [left] and inactive. *)
Lemma kick_revokes_admin t now roomId targetUid kickerUid info t' :
  (forall room room', find_room t roomId = Some room ->
                      find_active_room t roomId = Some room' -> room = room') ->
  kickUser t now roomId targetUid kickerUid = (Ok info, t') ->
  checkAdminPermission t' targetUid roomId = false.
Proof.
  intros Huniq Hk.
  apply kickUser_ok_inv in Hk as ((room & Hroom & Hc) & Hne & _ & ->).
  apply checkAdminPermission_no_grant.
  - intros room' Hfind. simpl in Hfind.
    change (find_room t roomId = Some room') in Hfind.
    rewrite (Huniq _ _ Hfind Hroom). congruence.
  - simpl. apply (existsb_filter_negb (is_admin_row roomId targetUid)).
Qed.

Lemma kick_marks_member_left t now roomId targetUid kickerUid info t' m :
  kickUser t now roomId targetUid kickerUid = (Ok info, t') ->
  In m (chatroom_members t') ->
  is_member roomId targetUid m = true ->
  ChatroomMembers.status m = Left /\ ChatroomMembers.is_active m = false.
Proof.
  intros Hk Hin Hmem.
  apply kickUser_ok_inv in Hk as (_ & _ & _ & ->). simpl in Hin.
  apply in_map_iff in Hin as (m0 & <- & _).
  destruct (is_member roomId targetUid m0) eqn:E.
  - split; reflexivity.
  - congruence.
Qed.

(** After a kick no mute record of the target is left in the room; the
    mute check then depends on the anonymous row alone. *)
Lemma kick_clears_mute_records t now roomId targetUid kickerUid info t' now' :
  kickUser t now roomId targetUid kickerUid = (Ok info, t') ->
  currentMute t' targetUid roomId = None
  /\ checkUserMuted t' now' targetUid roomId
     = checkAnonymousMuted t now' targetUid roomId.
Proof.
  intros Hk. apply kickUser_ok_inv in Hk as (_ & _ & _ & ->).
  assert (currentMute
            (set_user_mutes
               (set_chatroom_admins
                  (update_member roomId targetUid
                     (member_left (default_timestamp now)) t)
                  (List.filter (fun a => negb (is_admin_row roomId targetUid a))
                               (chatroom_admins t)))
               (List.filter
                  (fun r => negb ((UserMutes.user_uid r ==s targetUid)
                                  && (UserMutes.chatroom_id r ==s roomId)))
                  (user_mutes t)))
            targetUid roomId = None) as Hnone.
  { unfold currentMute. simpl.
    induction (user_mutes t) as [|r l IH]; simpl; [reflexivity|].
    destruct (UserMutes.user_uid r ==s targetUid) eqn:Eu;
      destruct (UserMutes.chatroom_id r ==s roomId) eqn:Er; simpl;
      try exact IH; unfold is_active_mute; rewrite Eu, Er;
      simpl; rewrite ?andb_false_r; simpl; exact IH. }
  split; [exact Hnone|].
  unfold checkUserMuted. rewrite Hnone. reflexivity.
Qed.

End Kick.

(** ** The presence registry *)

Section Presence.

Import Server.

Lemma set_add_In x s : In x (set_add x s).
Proof.
  unfold set_add. destruct (existsb (String.eqb x) s) eqn:E.
  - apply existsb_exists in E as (y & Hin & Hy).
    apply String.eqb_eq in Hy. now subst.
  - apply in_or_app. right. now left.
Qed.

Lemma set_add_NoDup x s : List.NoDup s -> List.NoDup (set_add x s).
Proof.
  intros Hs. unfold set_add. destruct (existsb (String.eqb x) s) eqn:E;
    [exact Hs|].
  apply List.NoDup_app; [exact Hs| |].
  - apply List.NoDup_cons; [intros []|apply List.NoDup_nil].
  - intros y Hy [<-|[]].
    assert (existsb (String.eqb x) s = true) as Hex
        by (apply existsb_exists; exists x; split; [exact Hy|apply String.eqb_refl]).
    congruence.
Qed.


Lemma set_delete_NoDup x s : List.NoDup s -> List.NoDup (set_delete x s).
Proof. unfold set_delete. apply List.NoDup_filter. Qed.

Lemma set_delete_idem x s : set_delete x (set_delete x s) = set_delete x s.
Proof.
  unfold set_delete. induction s as [|y s IH]; simpl; [reflexivity|].
  destruct (y ==s x) eqn:E; simpl; [exact IH|]. rewrite E. simpl. now rewrite IH.
Qed.

Lemma socket_of_uid st u s :
  registered_by_uid st -> socket_of st u = Some s -> uid (user s) = u.
Proof.
  intros Hreg. unfold socket_of.
  destruct (userSockets st !! u) as [sid|] eqn:E; [|discriminate].
  destruct (Hreg _ _ E) as (s' & Hs' & Hu). rewrite Hs'. now intros [= <-].
Qed.

(** The list is built whenever the room is there. *)
Lemma online_entries_ok st now roomId uids info :
  ChatroomService.getChatroomInfo (db st) roomId = Ok info ->
  exists l, online_entries st now roomId uids = Ok l.
Proof.
  intros Hinfo. induction uids as [|u uids [l IH]]; simpl; [eauto|].
  destruct (socket_of st u); [|eauto]. rewrite Hinfo, IH. eauto.
Qed.

(** Whether the list can be built depends on the sockets and on the room
    only, not on the time or the other tables. *)
Lemma online_entries_is_ok_same st st2 now now2 roomId uids :
  userSockets st2 = userSockets st ->
  sockets st2 = sockets st ->
  ChatroomService.getChatroomInfo (db st2) roomId
  = ChatroomService.getChatroomInfo (db st) roomId ->
  is_ok (online_entries st2 now2 roomId uids)
  = is_ok (online_entries st now roomId uids).
Proof.
  intros Hu Hs Hinfo. induction uids as [|u uids IH]; simpl; [reflexivity|].
  unfold socket_of. rewrite Hu, Hs.
  destruct (match userSockets st !! u with
            | Some sid => sockets st !! sid
            | None => None
            end); [|exact IH].
  rewrite Hinfo.
  destruct (ChatroomService.getChatroomInfo (db st) roomId); [|reflexivity].
  destruct (online_entries st2 now2 roomId uids),
    (online_entries st now roomId uids); simpl in *; congruence.
Qed.

Lemma occurrences_absent st now roomId uids l u :
  registered_by_uid st ->
  online_entries st now roomId uids = Ok l ->
  ~ In u uids ->
  occurrences u l = 0%nat.
Proof.
  intros Hreg. revert l. induction uids as [|x uids IH]; simpl; intros l Hl Hout.
  - injection Hl as <-. reflexivity.
  - destruct (socket_of st x) as [s|] eqn:Hs; [|apply IH; tauto].
    destruct (ChatroomService.getChatroomInfo (db st) roomId); [|discriminate].
    destruct (online_entries st now roomId uids) as [l'|]; [|discriminate].
    injection Hl as <-. unfold occurrences. simpl.
    rewrite (socket_of_uid _ _ _ Hreg Hs).
    destruct (String.eqb_spec x u) as [->|_]; [tauto|].
    apply (IH l' eq_refl). tauto.
Qed.

Lemma occurrences_present st now roomId uids l u s :
  registered_by_uid st ->
  List.NoDup uids ->
  online_entries st now roomId uids = Ok l ->
  In u uids ->
  socket_of st u = Some s ->
  occurrences u l = 1%nat.
Proof.
  intros Hreg Hnd. revert l.
  induction Hnd as [|x uids Hx Hnd IH]; simpl; intros l Hl Hin Hsock; [tauto|].
  destruct (String.eqb_spec x u) as [->|Hne].
  - rewrite Hsock in Hl.
    destruct (ChatroomService.getChatroomInfo (db st) roomId); [|discriminate].
    destruct (online_entries st now roomId uids) as [l'|] eqn:Hl'; [|discriminate].
    injection Hl as <-. unfold occurrences. simpl.
    rewrite (socket_of_uid _ _ _ Hreg Hsock), String.eqb_refl. simpl.
    f_equal. eapply occurrences_absent; eassumption.
  - destruct Hin as [->|Hin]; [tauto|].
    destruct (socket_of st x) as [sx|] eqn:Hs; [|now apply IH].
    destruct (ChatroomService.getChatroomInfo (db st) roomId); [|discriminate].
    destruct (online_entries st now roomId uids) as [l'|]; [|discriminate].
    injection Hl as <-. unfold occurrences. simpl.
    rewrite (socket_of_uid _ _ _ Hreg Hs).
    destruct (String.eqb_spec x u) as [->|_]; [tauto|].
    now apply (IH l' eq_refl).
Qed.

Lemma getChatroomInfo_addMember t now r u k n a roomId :
  ChatroomService.getChatroomInfo
    (ChatroomService.addMemberToChatroom t now r u k n a) roomId
  = ChatroomService.getChatroomInfo t roomId.
Proof.
  unfold ChatroomService.addMemberToChatroom.
  destruct (existsb _ _); reflexivity.
Qed.

(** Changing what a socket carries, but not its user, keeps the sockets
    registered under the uid of their user. *)
Lemma registered_by_uid_update st sid sock sock' d o :
  registered_by_uid st ->
  sockets st !! sid = Some sock ->
  user sock' = user sock ->
  registered_by_uid (mkState d o (userSockets st) (<[sid := sock']> (sockets st))).
Proof.
  intros Hreg Hsock Huser u sid' Hu. simpl in *.
  destruct (Hreg _ _ Hu) as (s & Hs & Hsu).
  destruct (decide (sid = sid')) as [<-|Hne].
  - exists sock'. rewrite lookup_insert_eq. split; [reflexivity|].
    rewrite Huser. congruence.
  - exists s. rewrite lookup_insert_ne by exact Hne. auto.
Qed.

End Presence.

Section PresenceClaims.

Import Server.

Lemma wf_joined st now sid sock roomId :
  wf st -> sockets st !! sid = Some sock ->
  wf (joined st now sid sock roomId).
Proof.
  intros [Hreg Hnd] Hsock. split.
  - eapply (registered_by_uid_update st sid sock); eauto.
  - intros r s. simpl. destruct (decide (roomId = r)) as [<-|Hne].
    + rewrite lookup_insert_eq. intros [= <-]. apply set_add_NoDup.
      destruct (onlineUsers st !! roomId) as [s0|] eqn:E;
        [eapply Hnd; exact E|apply List.NoDup_nil].
    + rewrite lookup_insert_ne by exact Hne. apply Hnd.
Qed.

(** After a successful join the joiner is listed exactly once, at any
    later time of asking. *)
Lemma joined_lists_once st now now' sid sock roomId info :
  wf st ->
  sockets st !! sid = Some sock ->
  userSockets st !! uid (user sock) = Some sid ->
  ChatroomService.getChatroomInfo (db st) roomId = Ok info ->
  exists l,
    getOnlineUserList (joined st now sid sock roomId) now' roomId = Ok l
    /\ occurrences (uid (user sock)) l = 1%nat.
Proof.
  intros Hwf Hsock Hreg Hinfo.
  pose proof (wf_joined st now sid sock roomId Hwf Hsock) as [Hreg' Hnd'].
  set (st' := joined st now sid sock roomId) in *.
  assert (onlineUsers st' !! roomId
          = Some (set_add (uid (user sock))
                    match onlineUsers st !! roomId with
                    | Some s => s
                    | None => []
                    end)) as Hset
      by (unfold st'; simpl; apply lookup_insert_eq).
  unfold getOnlineUserList. rewrite Hset.
  destruct (online_entries_ok st' now' roomId
              (set_add (uid (user sock))
                 match onlineUsers st !! roomId with
                 | Some s => s
                 | None => []
                 end) info) as [l Hl].
  { unfold st'. simpl. rewrite getChatroomInfo_addMember. exact Hinfo. }
  exists l. split; [exact Hl|].
  eapply (occurrences_present st'); try eassumption.
  - eapply Hnd'. exact Hset.
  - apply set_add_In.
  - unfold socket_of, st'. simpl. rewrite Hreg. apply lookup_insert_eq.
Qed.

Lemma joinRoom_ok st now sid sock roomId info :
  wf st ->
  sockets st !! sid = Some sock ->
  userSockets st !! uid (user sock) = Some sid ->
  ChatroomService.getChatroomInfo (db st) roomId = Ok info ->
  exists l,
    joinRoom st now sid roomId
    = (joined st now sid sock roomId,
       [ToOthers sid roomId (UserJoined (user sock) l);
        ToSocket sid (RoomJoined roomId info l)])
    /\ occurrences (uid (user sock)) l = 1%nat.
Proof.
  intros Hwf Hsock Hreg Hinfo.
  destruct (joined_lists_once st now now sid sock roomId info Hwf Hsock Hreg Hinfo)
    as (l & Hl & Hocc).
  exists l. split; [|exact Hocc].
  unfold joinRoom. rewrite Hsock, Hinfo.
  change (mkState _ _ _ _) with (joined st now sid sock roomId).
  rewrite Hl. reflexivity.
Qed.


Lemma handleUserLeaveRoom_unfold st now sid sock roomId :
  sockets st !! sid = Some sock ->
  currentRoom sock = Some roomId ->
  roomId <> "" ->
  handleUserLeaveRoom st now sid
  = match getOnlineUserList (leaving st now sock roomId) now roomId with
    | Err _ => (leaving st now sock roomId, [])
    | Ok l =>
        (left_room st now sid sock roomId,
         [ToOthers sid roomId
            (UserLeft (uid (user sock)) (nickname (user sock)) l)])
    end.
Proof.
  intros Hsock Hroom Hne. unfold handleUserLeaveRoom.
  rewrite Hsock, Hroom. apply String.eqb_neq in Hne. rewrite Hne. reflexivity.
Qed.

Lemma leaving_set st now sock roomId :
  match onlineUsers (leaving st now sock roomId) !! roomId with
  | Some s => exists s0, onlineUsers st !! roomId = Some s0
                         /\ s = set_delete (uid (user sock)) s0
  | None => True
  end.
Proof.
  unfold leaving. simpl.
  destruct (onlineUsers st !! roomId) as [s0|] eqn:E.
  - destruct (set_delete (uid (user sock)) s0) as [|y s'] eqn:Es.
    + rewrite lookup_delete_eq. exact I.
    + rewrite lookup_insert_eq. eauto.
  - rewrite E. exact I.
Qed.

Lemma wf_leaving st now sock roomId :
  wf st -> wf (leaving st now sock roomId).
Proof.
  intros [Hreg Hnd]. split; [exact Hreg|].
  intros r s. unfold leaving. simpl.
  destruct (onlineUsers st !! roomId) as [s0|] eqn:E; [|apply Hnd].
  destruct (set_delete (uid (user sock)) s0) as [|y s'] eqn:Es.
  - destruct (decide (roomId = r)) as [<-|Hne].
    + rewrite lookup_delete_eq. discriminate.
    + rewrite lookup_delete_ne by exact Hne. apply Hnd.
  - destruct (decide (roomId = r)) as [<-|Hne].
    + rewrite lookup_insert_eq. intros [= <-]. rewrite <- Es.
      apply set_delete_NoDup. eapply Hnd. exact E.
    + rewrite lookup_insert_ne by exact Hne. apply Hnd.
Qed.

Lemma wf_left_room st now sid sock roomId :
  wf st -> sockets st !! sid = Some sock ->
  wf (left_room st now sid sock roomId).
Proof.
  intros Hwf Hsock. destruct (wf_leaving st now sock roomId Hwf) as [Hreg Hnd].
  split; [|exact Hnd].
  apply (registered_by_uid_update (leaving st now sock roomId) sid sock);
    [exact Hreg|exact Hsock|reflexivity].
Qed.



(** A leave directly after a leave of the same connection changes neither
    [onlineUsers] nor [userSockets] and emits nothing. *)
Lemma second_leave_noop st now now' sid :
  onlineUsers (fst (handleUserLeaveRoom (fst (handleUserLeaveRoom st now sid))
                                        now' sid))
  = onlineUsers (fst (handleUserLeaveRoom st now sid))
  /\ userSockets (fst (handleUserLeaveRoom (fst (handleUserLeaveRoom st now sid))
                                           now' sid))
     = userSockets (fst (handleUserLeaveRoom st now sid))
  /\ snd (handleUserLeaveRoom (fst (handleUserLeaveRoom st now sid)) now' sid) = [].
Proof.
  destruct (sockets st !! sid) as [sock|] eqn:Hsock;
    [|unfold handleUserLeaveRoom; rewrite Hsock; simpl; rewrite Hsock; auto].
  destruct (currentRoom sock) as [roomId|] eqn:Hroom;
    [|unfold handleUserLeaveRoom; rewrite Hsock, Hroom; simpl;
      rewrite Hsock, Hroom; auto].
  destruct (String.eqb_spec roomId "") as [->|Hne];
    [unfold handleUserLeaveRoom; rewrite Hsock, Hroom; simpl;
     rewrite Hsock, Hroom; auto|].
  rewrite (handleUserLeaveRoom_unfold st now sid sock roomId Hsock Hroom Hne).
  destruct (getOnlineUserList (leaving st now sock roomId) now roomId)
    as [l|e] eqn:Hl; simpl.
  - unfold handleUserLeaveRoom. simpl. rewrite lookup_insert_eq. auto.
  - assert (sockets (leaving st now sock roomId) !! sid = Some sock) as Hsock'
        by exact Hsock.
    rewrite (handleUserLeaveRoom_unfold _ now' sid sock roomId Hsock' Hroom Hne).
    assert (onlineUsers (leaving (leaving st now sock roomId) now' sock roomId)
            = onlineUsers (leaving st now sock roomId)) as Hsame.
    { pose proof (leaving_set st now sock roomId) as Hset.
      unfold getOnlineUserList in Hl.
      generalize dependent (leaving st now sock roomId). intros st1 Hl _ Hset.
      unfold leaving. simpl.
      destruct (onlineUsers st1 !! roomId) as [s|] eqn:E; [|reflexivity].
      destruct Hset as (s0 & _ & ->). rewrite set_delete_idem.
      destruct (set_delete (uid (user sock)) s0) as [|y s'] eqn:Es.
      - discriminate.
      - apply insert_id. exact E. }
    assert (is_ok (getOnlineUserList
                     (leaving (leaving st now sock roomId) now' sock roomId)
                     now' roomId) = false) as Hfail.
    { unfold getOnlineUserList. rewrite Hsame.
      unfold getOnlineUserList in Hl.
      destruct (onlineUsers (leaving st now sock roomId) !! roomId) as [s|];
        [|discriminate].
      rewrite (online_entries_is_ok_same (leaving st now sock roomId) _ now now'
                 roomId s); [rewrite Hl; reflexivity|reflexivity|reflexivity|].
      reflexivity. }
    destruct (getOnlineUserList
                (leaving (leaving st now sock roomId) now' sock roomId) now' roomId);
      [discriminate|].
    simpl. auto.
Qed.

End PresenceClaims.

Section RegistryInvariant.

Import Server.

Lemma wf_initial t : wf (initial t).
Proof.
  split.
  - intros u sid H. simpl in H. rewrite lookup_empty in H. discriminate.
  - intros r s H. simpl in H. rewrite lookup_empty in H. discriminate.
Qed.

(** A new connection keeps the invariant when its socket number is new. *)
Lemma wf_connect st sid p :
  wf st ->
  sockets st !! sid = None ->
  wf (connect st sid p).
Proof.
  intros [Hreg Hnd] Hfresh. split; [|exact Hnd].
  intros u sid' Hu. simpl in *.
  destruct (decide (uid p = u)) as [<-|Hne].
  - rewrite lookup_insert_eq in Hu. injection Hu as <-.
    rewrite lookup_insert_eq. eauto.
  - rewrite lookup_insert_ne in Hu by exact Hne.
    destruct (Hreg _ _ Hu) as (s & Hs & Hsu).
    destruct (decide (sid = sid')) as [<-|Hne']; [congruence|].
    rewrite lookup_insert_ne by exact Hne'. eauto.
Qed.

Lemma wf_joinRoom st now sid roomId :
  wf st -> wf (fst (joinRoom st now sid roomId)).
Proof.
  intros Hwf. unfold joinRoom.
  destruct (sockets st !! sid) as [sock|] eqn:Hsock; [|exact Hwf].
  destruct (ChatroomService.getChatroomInfo (db st) roomId); [|exact Hwf].
  change (mkState _ _ _ _) with (joined st now sid sock roomId).
  destruct (getOnlineUserList _ _ _); apply wf_joined; assumption.
Qed.

Lemma wf_handleUserLeaveRoom st now sid :
  wf st -> wf (fst (handleUserLeaveRoom st now sid)).
Proof.
  intros Hwf.
  destruct (sockets st !! sid) as [sock|] eqn:Hsock;
    [|unfold handleUserLeaveRoom; rewrite Hsock; exact Hwf].
  destruct (currentRoom sock) as [roomId|] eqn:Hroom;
    [|unfold handleUserLeaveRoom; rewrite Hsock, Hroom; exact Hwf].
  destruct (String.eqb_spec roomId "") as [->|Hne];
    [unfold handleUserLeaveRoom; rewrite Hsock, Hroom; exact Hwf|].
  rewrite (handleUserLeaveRoom_unfold st now sid sock roomId Hsock Hroom Hne).
  destruct (getOnlineUserList _ _ _);
    [apply wf_left_room|apply wf_leaving]; assumption.
Qed.

Lemma wf_disconnect st now sid :
  wf st -> wf (fst (disconnect st now sid)).
Proof.
  intros Hwf. unfold disconnect.
  destruct (sockets st !! sid) as [sock|]; [|exact Hwf].
  apply wf_handleUserLeaveRoom. destruct Hwf as [Hreg Hnd].
  split; [|exact Hnd].
  intros u sid' Hu. simpl in *.
  destruct (decide (uid (user sock) = u)) as [<-|Hne].
  - rewrite lookup_delete_eq in Hu. discriminate.
  - rewrite lookup_delete_ne in Hu by exact Hne. eauto.
Qed.

End RegistryInvariant.

Section Bystanders.

Import Server SendHandler.




Lemma wf_sendMessageHandler st now messageId sid content roomId reply :
  wf st -> wf (fst (sendMessageHandler st now messageId sid content roomId reply)).
Proof.
  intros Hwf. unfold sendMessageHandler.
  destruct (sockets st !! sid) as [sock|]; [|exact Hwf].
  destruct (not_in_room sock roomId); [exact Hwf|].
  destruct (MessageService.sendMessage _ _ _ _) as [[res|e] db2]; exact Hwf.
Qed.

(** The registry is in order in every state the server gets into. *)
Lemma reachable_wf t0 st : reachable t0 st -> wf st.
Proof.
  induction 1 as [|st a Hreach IH Hadm]; [apply wf_initial|].
  destruct a; simpl in *.
  - now apply wf_connect.
  - now apply wf_joinRoom.
  - now apply wf_sendMessageHandler.
  - now apply wf_handleUserLeaveRoom.
  - now apply wf_disconnect.
  - exact IH.
Qed.
















End Bystanders.

Section PresenceTheorems.

Import Server SendHandler.



End PresenceTheorems.

(** ** Joining a room that has a password *)

Section JoinClaims.

Import ChatroomService.

(** What [joinChatroom] itself enforces: a missing or closed room is
    refused; in a room with a password anybody but the creator needs the
    matching password; the creator needs none. *)
Lemma joinChatroom_password_check verifyPassword t roomId password userUid :
  match find_active_room t roomId with
  | None =>
      joinChatroom verifyPassword t roomId password userUid
      = Err RoomNotFoundOrClosed
  | Some room =>
      match Chatrooms.password_hash room with
      | None => is_ok (joinChatroom verifyPassword t roomId password userUid) = true
      | Some hash =>
          hash <> "" ->
          (userUid = Some (Chatrooms.creator_uid room) ->
           Chatrooms.creator_uid room <> "" ->
           is_ok (joinChatroom verifyPassword t roomId password userUid) = true)
          /\ (userUid <> Some (Chatrooms.creator_uid room) ->
              match password with
              | None =>
                  joinChatroom verifyPassword t roomId password userUid
                  = Err PasswordRequired
              | Some p =>
                  if p ==s "" then
                    joinChatroom verifyPassword t roomId password userUid
                    = Err PasswordRequired
                  else if verifyPassword p hash then
                    is_ok (joinChatroom verifyPassword t roomId password userUid)
                    = true
                  else
                    joinChatroom verifyPassword t roomId password userUid
                    = Err InvalidPassword
              end)
      end
  end.
Proof.
  unfold joinChatroom.
  destruct (find_active_room t roomId) as [room|]; [|reflexivity].
  destruct (Chatrooms.password_hash room) as [hash|]; [|reflexivity].
  intros Hhash. apply String.eqb_neq in Hhash. rewrite Hhash. split.
  - intros -> Hc. apply String.eqb_neq in Hc.
    rewrite Hc, String.eqb_refl. reflexivity.
  - intros Hother.
    assert (match userUid with
            | Some u => negb (u ==s "") && (Chatrooms.creator_uid room ==s u)
            | None => false
            end = false) as ->.
    { destruct userUid as [u|]; [|reflexivity].
      destruct (String.eqb_spec (Chatrooms.creator_uid room) u) as [E|_];
        [exfalso; apply Hother; now rewrite E|apply andb_false_r]. }
    destruct password as [p|]; [|reflexivity].
    destruct (p ==s ""); [reflexivity|].
    destruct (verifyPassword p hash); reflexivity.
Qed.

(** The [join-room] handler refuses a missing or closed room: it answers
    with an error event and changes nothing. *)
Lemma joinRoom_missing_room st now sid sock roomId :
  Server.sockets st !! sid = Some sock ->
  find_active_room (Server.db st) roomId = None ->
  Server.joinRoom st now sid roomId
  = (st, [Server.ToSocket sid (Server.ErrorEvent RoomNotFound)]).
Proof.
  intros Hsock Hroom. unfold Server.joinRoom, getChatroomInfo.
  rewrite Hsock, Hroom. reflexivity.
Qed.

(** C3, at the input where the code departs from it. The lobby has a
    password and Bob is not its creator. [joinChatroom] refuses Bob without
    a password, whatever the password check is; the [join-room] handler,
    which takes no password, lets him in: he gets [room-joined], is in the
    online list and is recorded as an online member. *)
Theorem socket_join_ignores_password :
  (forall verifyPassword,
      joinChatroom verifyPassword PresenceFixture.locked Fixture.lobby None
                   (Some Fixture.bob)
      = Err PasswordRequired)
  /\ exists st' l,
      Server.joinRoom PresenceFixture.connected_locked 5000 1%nat Fixture.lobby
      = (st',
         [Server.ToOthers 1%nat Fixture.lobby
            (Server.UserJoined PresenceFixture.bob_principal l);
          Server.ToSocket 1%nat
            (Server.RoomJoined Fixture.lobby PresenceFixture.lobby_info l)])
      /\ Server.occurrences Fixture.bob l = 1%nat
      /\ Server.onlineUsers st' !! Fixture.lobby = Some [Fixture.bob]
      /\ chatroom_members (Server.db st')
         = [ChatroomMembers.mk Fixture.lobby Fixture.bob KUser "bob" None
                               5000 5000 Online true].
Proof.
  split; [reflexivity|].
  destruct (joinRoom_ok PresenceFixture.connected_locked 5000 1%nat
              PresenceFixture.bob_socket Fixture.lobby PresenceFixture.lobby_info)
    as (l & Hjoin & Hocc).
  - apply wf_connect; [apply wf_initial|apply lookup_empty].
  - apply lookup_insert_eq.
  - apply lookup_insert_eq.
  - reflexivity.
  - eexists. exists l. split; [exact Hjoin|]. split; [exact Hocc|].
    split; [|reflexivity].
    simpl. rewrite lookup_insert_eq, lookup_empty. reflexivity.
Qed.

End JoinClaims.

(** ** Kicking a muted anonymous member *)

Section KickClaims.

Import ChatroomService.

(** For a target that has no active anonymous row in the room, so for
    every registered user, a kick ends every mute. *)
Lemma kick_unmutes_registered t now roomId targetUid kickerUid info t' now' :
  kickUser t now roomId targetUid kickerUid = (Ok info, t') ->
  activeAnonymous t targetUid roomId = None ->
  checkUserMuted t' now' targetUid roomId = not_muted.
Proof.
  intros Hk Hanon.
  destruct (kick_clears_mute_records _ _ _ _ _ _ _ now' Hk) as [_ ->].
  unfold checkAnonymousMuted. rewrite Hanon. reflexivity.
Qed.

(** C4, at the input where the code departs from it. Carol mutes the
    anonymous guest for an hour at time 1000000; Alice, the creator, kicks
    the guest at time 2000000. The kick succeeds, no row of [user_mutes]
    remains and the guest has no administrator right, but the mute check at
    time 3000000 still reports the guest muted: the deadline written to
    [anonymous_users] by the mute is not cleared by the kick. *)
Theorem kick_leaves_anonymous_mute :
  exists until t1 info t2,
    checkUserMuted Fixture.base 1000000 Fixture.guest Fixture.lobby = not_muted
    /\ muteUser Fixture.base 1000000 Fixture.lobby Fixture.guest Fixture.carol
                3600 "spam"
       = (Ok until, t1)
    /\ kickUser t1 2000000 Fixture.lobby Fixture.guest Fixture.alice
       = (Ok info, t2)
    /\ user_mutes t2 = []
    /\ checkAdminPermission t2 Fixture.guest Fixture.lobby = false
    /\ checkUserMuted t2 3000000 Fixture.guest Fixture.lobby
       = mkMuteStatus true (Some 4600000) (Some 1600000).
Proof.
  eexists. eexists. eexists. eexists.
  split; [reflexivity|].
  split; [vm_compute; reflexivity|].
  split; [vm_compute; reflexivity|].
  split; [reflexivity|]. split; reflexivity.
Qed.

End KickClaims.

(** ** The first mute of an anonymous principal *)

Section AnonymousClaims.

Import UserService.

Lemma pick_uid_fresh t generated fuel attempts uid :
  pick_uid t generated fuel attempts = Some uid ->
  existsb (fun a => AnonymousUsers.uid a ==s uid) (anonymous_users t) = false.
Proof.
  revert attempts. induction fuel as [|fuel IH]; simpl; intros attempts;
    [discriminate|].
  destruct (existsb (fun a => AnonymousUsers.uid a ==s generated attempts)
                    (anonymous_users t)) eqn:E; [apply IH|].
  now intros [= <-].
Qed.

Lemma find_app_fresh {A} (p : A -> bool) (l : list A) (x : A) :
  existsb p l = false -> p x = true -> List.find p (l ++ [x]) = Some x.
Proof.
  induction l as [|y l IH]; simpl; intros Hl Hx.
  - now rewrite Hx.
  - apply orb_false_elim in Hl as [Hy Hl]. rewrite Hy. now apply IH.
Qed.

Lemma createAnonymousUser_row t now env generated chatroomId u t' :
  createAnonymousUser t now env generated chatroomId = (Ok u, t') ->
  au_muteUntil u = now + Config.muteDuration env
  /\ exists a,
      ChatroomService.activeAnonymous t' (au_uid u) chatroomId = Some a
      /\ AnonymousUsers.mute_until a = Some (au_muteUntil u).
Proof.
  unfold createAnonymousUser.
  destruct (pick_uid t generated 10 0) as [uid|] eqn:Hpick; [|discriminate].
  intros [= <- <-]. split; [reflexivity|].
  apply pick_uid_fresh in Hpick.
  exists (AnonymousUsers.mk uid chatroomId ("匿名用户" ++ last4 uid)
            (Some ("/avatars/" ++ uid)) (Some (now + Config.muteDuration env))
            true (default_timestamp now) (default_timestamp now)).
  split; [|reflexivity].
  unfold ChatroomService.activeAnonymous. simpl.
  apply find_app_fresh.
  - clear -Hpick. induction (anonymous_users t) as [|a l IH]; [reflexivity|].
    simpl in *. apply orb_false_elim in Hpick as [Ha Hl].
    unfold ChatroomService.is_active_anonymous at 1. rewrite Ha. simpl.
    apply IH. exact Hl.
  - unfold ChatroomService.is_active_anonymous. simpl.
    rewrite !String.eqb_refl. reflexivity.
Qed.

(** C10. A new anonymous principal is created with [muteUntil] equal to
    the creation time plus the configured duration, ten minutes unless
    configured otherwise, and the mute check reports it muted at every time
    before that deadline, though nobody muted it; from the deadline on its
    anonymous row no longer mutes it. *)
Theorem new_anonymous_starts_muted t now env generated chatroomId u t' later :
  createAnonymousUser t now env generated chatroomId = (Ok u, t') ->
  0 <= later ->
  later < now + Config.muteDuration env ->
  now + Config.muteDuration env <= Utils.maxTime ->
  au_muteUntil u = now + Config.muteDuration env
  /\ Config.muteDuration None = 600000
  /\ ChatroomService.isMuted
       (ChatroomService.checkUserMuted t' later (au_uid u) chatroomId) = true
  /\ forall after,
      now + Config.muteDuration env <= after ->
      ChatroomService.checkAnonymousMuted t' after (au_uid u) chatroomId
      = ChatroomService.not_muted.
Proof.
  intros Hcreate Hlater Hbefore Hmax.
  destruct (createAnonymousUser_row _ _ _ _ _ _ _ Hcreate)
    as (Huntil & a & Hfind & Hmute).
  split; [exact Huntil|]. split; [reflexivity|]. split.
  - apply checkUserMuted_active; [exact Hlater|].
    right. exists a, (au_muteUntil u). rewrite Huntil.
    split; [exact Hfind|]. split; [congruence|]. split; assumption.
  - intros after Hafter. unfold ChatroomService.checkAnonymousMuted.
    rewrite Hfind, Hmute, Huntil. unfold Utils.isUserMuted.
    destruct (_ =? 0); [reflexivity|].
    destruct (Utils.validTime _); [|reflexivity].
    replace (after <? now + Config.muteDuration env) with false; [reflexivity|].
    symmetry. apply Z.ltb_ge. exact Hafter.
Qed.

Lemma new_anonymous_starts_muted_witness :
  (0 <= 1300000
   /\ 1300000 < 1000000 + Config.muteDuration None
   /\ 1000000 + Config.muteDuration None <= Utils.maxTime)
  /\ exists u t',
      createAnonymousUser Fixture.base 1000000 None
                          (fun _ => "ANON00000000Q8ZT") Fixture.lobby
      = (Ok u, t')
      /\ au_muteUntil u = 1600000
      /\ ChatroomService.isMuted
           (ChatroomService.checkUserMuted t' 1300000 (au_uid u) Fixture.lobby)
         = true.
Proof.
  assert (0 <= 1300000) as H0 by lia.
  assert (1300000 < 1000000 + Config.muteDuration None) as H1
      by (vm_compute; reflexivity).
  assert (1000000 + Config.muteDuration None <= Utils.maxTime) as H2
      by (vm_compute; discriminate).
  split; [auto|].
  eexists. eexists. split; [vm_compute; reflexivity|].
  split; [reflexivity|].
  exact (proj1 (proj2 (proj2
           (new_anonymous_starts_muted Fixture.base 1000000 None
              (fun _ => "ANON00000000Q8ZT") Fixture.lobby _ _ 1300000
              eq_refl H0 H1 H2)))).
Defined.

End AnonymousClaims.

Section PresenceCounterexample.

Import Server.


End PresenceCounterexample.

(** * Further properties of the code *)

(** ** sanitizeText as one pass *)

Section Escape.

Import Utils.

Lemma append_cons c (s1 s2 : string) : String c s1 ++ s2 = String c (s1 ++ s2).
Proof. reflexivity. Qed.

Lemma append_assoc (s1 s2 s3 : string) : (s1 ++ s2) ++ s3 = s1 ++ (s2 ++ s3).
Proof.
  induction s1 as [|c s1 IH]; [reflexivity|].
  rewrite !append_cons. f_equal. exact IH.
Qed.

Lemma replace_all_app c r s1 s2 :
  replace_all c r (s1 ++ s2) = replace_all c r s1 ++ replace_all c r s2.
Proof.
  induction s1 as [|x s1 IH]; [reflexivity|].
  rewrite append_cons. simpl.
  destruct (Ascii.eqb x c); rewrite IH; [|reflexivity].
  now rewrite append_assoc.
Qed.

Lemma chain_app s1 s2 : chain (s1 ++ s2) = chain s1 ++ chain s2.
Proof. unfold chain. now rewrite !replace_all_app. Qed.

Lemma chain_char c : chain (String c EmptyString) = escape_char c.
Proof.
  unfold chain, escape_char. simpl.
  destruct (Ascii.eqb c lt_char) eqn:E1; [reflexivity|]. simpl.
  destruct (Ascii.eqb c gt_char) eqn:E2; [reflexivity|]. simpl.
  destruct (Ascii.eqb c dquote_char) eqn:E3; [reflexivity|]. simpl.
  destruct (Ascii.eqb c squote_char) eqn:E4; [reflexivity|]. simpl.
  destruct (Ascii.eqb c slash_char) eqn:E5; reflexivity.
Qed.

(** No replacement writes a character that a later one replaces, so the
    chain escapes every character once. *)
Lemma chain_escape s : chain s = escape s.
Proof.
  induction s as [|c s IH]; [reflexivity|].
  change (String c s) with (String c EmptyString ++ s).
  rewrite chain_app, chain_char, IH. reflexivity.
Qed.

Lemma sanitizeText_escape s : sanitizeText s = escape (trim s).
Proof.
  unfold sanitizeText. destruct s as [|a s]; [reflexivity|].
  apply (chain_escape (trim (String a s))).
Qed.

Lemma trim_start_length s : (String.length (trim_start s) <= String.length s)%nat.
Proof.
  induction s as [|c s IH]; simpl; [lia|].
  destruct (is_ws c); simpl; lia.
Qed.

Lemma trim_end_length s : (String.length (trim_end s) <= String.length s)%nat.
Proof.
  induction s as [|c s IH]; simpl; [lia|].
  destruct (trim_end s); [destruct (is_ws c)|]; simpl in *; lia.
Qed.

Lemma trim_length s : (String.length (trim s) <= String.length s)%nat.
Proof.
  unfold trim. etransitivity; [apply trim_end_length|apply trim_start_length].
Qed.

Lemma length_append s1 s2 :
  String.length (s1 ++ s2) = (String.length s1 + String.length s2)%nat.
Proof.
  induction s1 as [|c s1 IH]; [reflexivity|].
  rewrite append_cons. simpl. now rewrite IH.
Qed.

Lemma escape_char_length c :
  (1 <= String.length (escape_char c) <= 6)%nat.
Proof.
  unfold escape_char.
  repeat match goal with |- context [if ?b then _ else _] => destruct b end;
    simpl; lia.
Qed.

Lemma escape_length s :
  (String.length s <= String.length (escape s) <= 6 * String.length s)%nat.
Proof.
  induction s as [|c s IH]; simpl; [lia|].
  rewrite length_append. pose proof (escape_char_length c). lia.
Qed.

(** X1. The five replacements of [sanitizeText], done one after the
    other, amount to one pass that escapes each character of the trimmed
    input once; so the result is at most six times as long as the input. *)
Theorem sanitizeText_single_pass s :
  sanitizeText s = escape (trim s)
  /\ (String.length (sanitizeText s) <= 6 * String.length s)%nat.
Proof.
  split; [apply sanitizeText_escape|]. rewrite sanitizeText_escape.
  pose proof (escape_length (trim s)). pose proof (trim_length s). lia.
Qed.

Lemma escape_char_plain c :
  negb (Ascii.eqb c lt_char) && negb (Ascii.eqb c gt_char)
  && negb (Ascii.eqb c dquote_char) && negb (Ascii.eqb c squote_char)
  && negb (Ascii.eqb c slash_char) = true ->
  escape_char c = String c EmptyString.
Proof.
  unfold escape_char. intros H.
  repeat (apply andb_prop in H as [H ?]).
  repeat match goal with
         | E : negb ?b = true |- _ => apply negb_true_iff in E; rewrite E; clear E
         end.
  reflexivity.
Qed.

Lemma escape_markup_free v : markup_free v = true -> escape v = v.
Proof.
  unfold markup_free. induction v as [|c v IH]; [reflexivity|]. simpl.
  intros H.
  repeat (apply andb_prop in H as [H ?]).
  repeat match goal with
         | E : _ && _ = true |- _ => apply andb_prop in E as [? ?]
         end.
  rewrite escape_char_plain, IH; [reflexivity| |];
    repeat (apply andb_true_intro; split); assumption.
Qed.

Lemma trim_start_starts_ok s : starts_ok (trim_start s) = true.
Proof.
  induction s as [|c s IH]; [reflexivity|]. simpl.
  destruct (is_ws c) eqn:E; [exact IH|]. simpl. now rewrite E.
Qed.

Lemma trim_end_starts_ok s : starts_ok s = true -> starts_ok (trim_end s) = true.
Proof.
  destruct s as [|c s]; [reflexivity|]. simpl. intros H.
  destruct (trim_end s); [|exact H].
  apply negb_true_iff in H. rewrite H. simpl. now rewrite H.
Qed.

Lemma trim_start_id u : starts_ok u = true -> trim_start u = u.
Proof.
  destruct u as [|c u]; [reflexivity|]. simpl. intros H.
  apply negb_true_iff in H. now rewrite H.
Qed.

Lemma trim_end_idem s : trim_end (trim_end s) = trim_end s.
Proof.
  induction s as [|c s IH]; [reflexivity|]. simpl.
  destruct (trim_end s) as [|d t'] eqn:E.
  - destruct (is_ws c) eqn:Ec; [reflexivity|]. simpl. now rewrite Ec.
  - simpl. simpl in IH. rewrite IH. reflexivity.
Qed.

Lemma append_nonempty (x y : string) : y <> "" -> x ++ y <> "".
Proof.
  intros Hne. destruct x as [|a x]; [exact Hne|].
  rewrite append_cons. discriminate.
Qed.

Lemma trim_end_app x y :
  trim_end y = y -> y <> "" -> trim_end (x ++ y) = x ++ y.
Proof.
  intros Hy Hne. induction x as [|a x IH]; [exact Hy|].
  rewrite append_cons. simpl. rewrite IH.
  pose proof (append_nonempty x y Hne) as Hxy.
  destruct (x ++ y); [congruence|reflexivity].
Qed.

Lemma escape_char_starts_ok c t :
  is_ws c = false -> starts_ok (escape_char c ++ t) = true.
Proof.
  intros H. unfold escape_char.
  repeat match goal with |- context [if ?b then _ else _] => destruct b end;
    try reflexivity.
  rewrite append_cons. simpl. now rewrite H.
Qed.

Lemma escape_char_trim_end c :
  is_ws c = false -> trim_end (escape_char c) = escape_char c.
Proof.
  intros H. unfold escape_char.
  repeat match goal with |- context [if ?b then _ else _] => destruct b end;
    try reflexivity.
  simpl. now rewrite H.
Qed.

Lemma escape_nonempty c t : escape (String c t) <> "".
Proof.
  simpl. unfold escape_char.
  repeat match goal with |- context [if ?b then _ else _] => destruct b end;
    rewrite append_cons; discriminate.
Qed.

Lemma escape_trim_end u : trim_end u = u -> trim_end (escape u) = escape u.
Proof.
  induction u as [|c u IH]; [reflexivity|]. simpl.
  destruct (trim_end u) as [|d t'] eqn:E.
  - destruct (is_ws c) eqn:Ec; [discriminate|].
    intros [= <-]. simpl.
    replace (escape_char c ++ "") with (escape_char c).
    + now apply escape_char_trim_end.
    + clear. induction (escape_char c) as [|a x IH]; [reflexivity|].
      rewrite append_cons. now rewrite <- IH.
  - intros [= Hu]. rewrite <- Hu in *. apply trim_end_app.
    + apply IH. reflexivity.
    + apply escape_nonempty.
Qed.

(** Escaping a trimmed text leaves nothing to trim. *)
Lemma trim_escape_trim s : trim (escape (trim s)) = escape (trim s).
Proof.
  assert (starts_ok (trim s) = true) as Hs
      by (apply trim_end_starts_ok, trim_start_starts_ok).
  assert (trim_end (trim s) = trim s) as He by apply trim_end_idem.
  unfold trim at 1. rewrite trim_start_id.
  - apply escape_trim_end. exact He.
  - destruct (trim s) as [|c u]; [reflexivity|].
    simpl in Hs. apply negb_true_iff in Hs. simpl.
    now apply escape_char_starts_ok.
Qed.

(** X2. Sanitizing a sanitized text changes nothing: [&] is not escaped,
    so the entities the first pass wrote survive a second one, and a text
    that went through [sanitizeText] twice is stored as after once. *)
Theorem sanitizeText_idempotent s :
  sanitizeText (sanitizeText s) = sanitizeText s.
Proof.
  rewrite (sanitizeText_escape (sanitizeText s)).
  rewrite (sanitizeText_escape s), trim_escape_trim.
  apply escape_markup_free. rewrite <- sanitizeText_escape.
  apply sanitizeText_markup_free.
Qed.

End Escape.

(** ** The two readings of a mute deadline *)

Section MuteTime.

Lemma isUserMuted_remaining v now :
  Utils.isUserMuted v now = true ->
  exists r, Utils.getMuteTimeRemaining v now = Some r /\ 0 < r.
Proof.
  unfold Utils.isUserMuted, Utils.getMuteTimeRemaining.
  destruct v as [m|]; [|discriminate].
  destruct (m =? 0); [discriminate|].
  destruct (Utils.validTime m); [|discriminate].
  intros H. apply Z.ltb_lt in H. exists (Z.max 0 (m - now)).
  split; [reflexivity|lia].
Qed.

(** X3. [isUserMuted] and [getMuteTimeRemaining] agree at every instant,
    for every stored deadline (none, 0, a valid time, a value outside the
    range of dates): somebody counts as muted exactly when a positive time
    remains. *)
Theorem muted_iff_time_remains v now :
  Utils.isUserMuted v now = true
  <-> exists r, Utils.getMuteTimeRemaining v now = Some r /\ 0 < r.
Proof.
  split; [apply isUserMuted_remaining|].
  unfold Utils.isUserMuted, Utils.getMuteTimeRemaining.
  destruct v as [m|]; [|intros (r & [= <-] & H); lia].
  destruct (m =? 0); [intros (r & [= <-] & H); lia|].
  destruct (Utils.validTime m); [|intros (r & Hr & _); discriminate].
  intros (r & [= <-] & H). apply Z.ltb_lt. lia.
Qed.

End MuteTime.

(** ** More on sendMessage *)

Section SendMore.

Import MessageService.

(** With all readings at one instant the call is [sendMessage] at that
    instant. *)
Lemma sendMessage_same_instant t now messageId d :
  Clocked.sendMessage t (Clocked.same_instant now) messageId d
  = sendMessage t now messageId d.
Proof. reflexivity. Qed.

(** Who is reported muted has a mute that was ahead at the first reading;
    the time reported is the one left at the second. *)
Lemma clocked_muted_inv t c uid roomId :
  ChatroomService.isMuted (Clocked.checkUserMuted t c uid roomId) = true ->
  exists deadline checked read,
    mute_found t c uid roomId deadline checked read
    /\ Utils.isUserMuted (Some deadline) checked = true
    /\ ChatroomService.remaining (Clocked.checkUserMuted t c uid roomId)
       = Utils.getMuteTimeRemaining (Some deadline) read.
Proof.
  unfold Clocked.checkUserMuted.
  assert (ChatroomService.isMuted (Clocked.checkAnonymousMuted t c uid roomId)
          = true ->
          exists deadline checked read,
            mute_found t c uid roomId deadline checked read
            /\ Utils.isUserMuted (Some deadline) checked = true
            /\ ChatroomService.remaining (Clocked.checkAnonymousMuted t c uid roomId)
               = Utils.getMuteTimeRemaining (Some deadline) read) as Hanon.
  { unfold Clocked.checkAnonymousMuted.
    destruct (ChatroomService.activeAnonymous t uid roomId) as [a|] eqn:Ha;
      [|discriminate].
    destruct (Utils.isUserMuted (AnonymousUsers.mute_until a)
                                (Clocked.at_anonymous_check c)) eqn:E;
      [|discriminate].
    intros _. destruct (AnonymousUsers.mute_until a) as [v|] eqn:Hv;
      [|discriminate].
    exists v, (Clocked.at_anonymous_check c), (Clocked.at_anonymous_remaining c).
    split; [right; exists a; auto|auto]. }
  destruct (ChatroomService.currentMute t uid roomId) as [r|] eqn:Hr;
    [|exact Hanon].
  destruct (Utils.isUserMuted (Some (UserMutes.mute_until r))
                              (Clocked.at_record_check c)) eqn:E; [|exact Hanon].
  intros _.
  exists (UserMutes.mute_until r), (Clocked.at_record_check c),
    (Clocked.at_record_remaining c).
  split; [left; exists r; auto|auto].
Qed.

(** X4. The minutes of the mute error of [sendMessage], with the clock
    read twice as the code does: the mute found was ahead at the reading of
    [isUserMuted], and the minutes announced are the time remaining at the
    later reading of [getMuteTimeRemaining], rounded up. When the deadline
    is still ahead at the second reading they are at least 1 and the least
    number of minutes that covers the remaining time; when the clock has
    reached the deadline between the two readings they are 0. Nothing is
    written. *)
Theorem mute_error_minutes t c messageId d mins t' :
  Clocked.in_order c ->
  Clocked.sendMessage t c messageId d = (Err (Muted mins), t') ->
  t' = t
  /\ exists deadline checked read,
      mute_found t c (userUid d) (chatroomId d) deadline checked read
      /\ checked <= read
      /\ checked < deadline
      /\ mins = (Z.max 0 (deadline - read) + 59999) / 60000
      /\ (read < deadline ->
          1 <= mins /\ (mins - 1) * 60000 < deadline - read <= mins * 60000)
      /\ (deadline <= read -> mins = 0).
Proof.
  intros Hord. unfold Clocked.sendMessage.
  destruct (validate d); [discriminate|].
  destruct (ChatroomService.isMuted
              (Clocked.checkUserMuted t c (userUid d) (chatroomId d))) eqn:Hm.
  - intros [= <- <-]. split; [reflexivity|].
    destruct (clocked_muted_inv t c _ _ Hm)
      as (deadline & checked & read & Hfound & Hmuted & ->).
    assert (deadline <> 0) as Hnz.
    { intros ->. unfold Utils.isUserMuted in Hmuted. discriminate. }
    apply isUserMuted_inv in Hmuted as (v & [= <-] & Hlt & Hmax).
    exists deadline, checked, read.
    split; [exact Hfound|].
    split; [destruct Hord as (H1 & H2 & H3 & _);
            destruct Hfound as [(r & _ & _ & -> & ->)|(a & _ & _ & -> & ->)];
            assumption|].
    split; [exact Hlt|].
    assert (Utils.getMuteTimeRemaining (Some deadline) read
            = Some (Z.max 0 (deadline - read))) as ->.
    { unfold Utils.getMuteTimeRemaining, Utils.validTime.
      destruct (Z.eqb_spec deadline 0) as [E|_].
      - contradiction.
      - replace (Z.abs deadline <=? Utils.maxTime) with true
          by (symmetry; apply Z.leb_le; exact Hmax).
        reflexivity. }
    unfold remainingMinutes. split; [reflexivity|].
    assert (0 <= Z.max 0 (deadline - read)
            /\ (read < deadline -> Z.max 0 (deadline - read) = deadline - read)
            /\ (deadline <= read -> Z.max 0 (deadline - read) = 0))
      as (Hr0 & Hr1 & Hr2) by lia.
    generalize dependent (Z.max 0 (deadline - read)). intros r Hr0 Hr1 Hr2.
    pose proof (Z.div_mod (r + 59999) 60000 ltac:(lia)) as Hdiv.
    pose proof (Z.mod_pos_bound (r + 59999) 60000 ltac:(lia)) as Hmod.
    split; intros Hcase.
    + specialize (Hr1 Hcase). lia.
    + rewrite (Hr2 Hcase). reflexivity.
  - destruct (reply_requested d) as [p|].
    + destruct (find_message t p (chatroomId d)) as [m|]; [|discriminate].
      destruct (negb (insert_allowed _ _)); [discriminate|].
      destruct (sender_view _ _ _ _); [|discriminate].
      destruct (sender_view _ _ _ _); discriminate.
    + destruct (negb (insert_allowed _ _)); [discriminate|].
      destruct (sender_view _ _ _ _); discriminate.
Qed.

Lemma mute_error_minutes_witness :
  (Clocked.in_order ClockFixture.across
   /\ Clocked.sendMessage Fixture.bob_muted ClockFixture.across "uuid-1"
                          (Fixture.text_from Fixture.bob "hi")
      = (Err (Muted 0), Fixture.bob_muted))
  /\ Fixture.bob_muted = Fixture.bob_muted
  /\ exists deadline checked read,
      mute_found Fixture.bob_muted ClockFixture.across Fixture.bob Fixture.lobby
                 deadline checked read
      /\ checked <= read
      /\ checked < deadline
      /\ 0 = (Z.max 0 (deadline - read) + 59999) / 60000
      /\ (read < deadline ->
          1 <= 0 /\ (0 - 1) * 60000 < deadline - read <= 0 * 60000)
      /\ (deadline <= read -> 0 = 0).
Proof.
  assert (Clocked.in_order ClockFixture.across) as Hord
      by (unfold Clocked.in_order; simpl; lia).
  split; [split; [exact Hord|reflexivity]|].
  exact (mute_error_minutes Fixture.bob_muted ClockFixture.across "uuid-1"
           (Fixture.text_from Fixture.bob "hi") 0 Fixture.bob_muted
           Hord eq_refl).
Defined.

(** Whatever [sendMessage] does, the message ids stay below the counter;
    an accepted message gets the value of the counter. *)
Lemma sendMessage_ids t now messageId d r t' :
  ids_below t ->
  sendMessage t now messageId d = (r, t') ->
  ids_below t'
  /\ forall res, r = Ok res -> Messages.id (mr_row res) = next_message_id t.
Proof.
  intros Hids Hsend.
  assert (ids_below (insert_message t (new_row t now messageId d))) as Hins.
  { intros m Hin. simpl in *. apply in_app_or in Hin as [Hin|[<-|[]]].
    - specialize (Hids m Hin). lia.
    - simpl. lia. }
  assert (t' = t \/ t' = insert_message t (new_row t now messageId d)) as Ht'.
  { revert Hsend. unfold sendMessage.
    destruct (validate d); [intros [= <- <-]; auto|].
    destruct (ChatroomService.isMuted _); [intros [= <- <-]; auto|].
    destruct (match reply_requested d with
              | Some p => _ | None => _ end) as [reply|e];
      [|intros [= <- <-]; auto].
    destruct (negb (insert_allowed _ _)); [intros [= <- <-]; auto|].
    destruct (sender_view _ _ _ _); [|intros [= <- <-]; auto].
    destruct reply; [destruct (sender_view _ _ _ _)|];
      intros [= <- <-]; auto. }
  split; [destruct Ht' as [->| ->]; assumption|].
  intros res ->. apply sendMessage_ok_inv in Hsend as (_ & _ & Hrow & _).
  rewrite Hrow. reflexivity.
Qed.

(** A deletion that succeeds found the message and leaves the counter. *)
Lemma deleteMessage_ok_counter flt st disk messageId deleterUid chatroomId
      info st' disk' :
  deleteMessage flt st disk messageId deleterUid chatroomId = (Ok info, st', disk') ->
  next_message_id (live st') = next_message_id (live st)
  /\ exists m, find_message (live st) messageId chatroomId = Some m.
Proof.
  unfold deleteMessage, deleteMessage_try, beginTransaction, run, commit, rollback.
  intros H.
  repeat (break_match; simpl in *; try discriminate);
    repeat match goal with
           | E : (_, _) = (_, _) |- _ => inversion E; clear E; subst
           end;
    simpl; eauto.
Qed.

Lemma find_message_inv t p roomId m :
  find_message t p roomId = Some m ->
  In m (messages t) /\ Messages.id m = p /\ Messages.chatroom_id m = roomId.
Proof.
  unfold find_message. intros H. apply find_some in H as [Hin H].
  apply andb_prop in H as [Hid Hroom].
  apply Z.eqb_eq in Hid. apply String.eqb_eq in Hroom. auto.
Qed.

(** X5. The id of a deleted message is not given again: when the ids of
    the stored messages lie below the AUTOINCREMENT counter, a message
    accepted after a successful [deleteMessage] gets an id that differs
    from the deleted one and from that of every message that was stored
    before the deletion. *)
Theorem deleted_id_not_reused flt st disk messageId deleterUid chatroomId
        info st' disk' now newId d res t' :
  ids_below (live st) ->
  deleteMessage flt st disk messageId deleterUid chatroomId = (Ok info, st', disk') ->
  sendMessage (live st') now newId d = (Ok res, t') ->
  Messages.id (mr_row res) <> messageId
  /\ forall m, In m (messages (live st)) ->
               Messages.id m <> Messages.id (mr_row res).
Proof.
  intros Hids Hdel Hsend.
  destruct (deleteMessage_ok_counter _ _ _ _ _ _ _ _ _ Hdel) as (Hnext & m & Hm).
  apply find_message_inv in Hm as (Hin & Hid & _).
  apply sendMessage_ok_inv in Hsend as (_ & _ & Hrow & _).
  rewrite Hrow. simpl. rewrite Hnext. split.
  - specialize (Hids m Hin). lia.
  - intros m0 Hm0. specialize (Hids m0 Hm0). lia.
Qed.

Lemma deleted_id_not_reused_witness :
  ids_below (live DeleteFixture.store)
  /\ exists st' disk' res t',
      deleteMessage no_fault DeleteFixture.store DeleteFixture.disk 1
                    Fixture.bob Fixture.lobby
      = (Ok (mkDeleteInfo 1 Fixture.bob), st', disk')
      /\ sendMessage (live st') 5000 "uuid-n" (Fixture.text_from Fixture.bob "again")
         = (Ok res, t')
      /\ Messages.id (mr_row res) <> 1.
Proof.
  assert (ids_below (live DeleteFixture.store)) as Hids.
  { intros m [<-|[<-|[]]]; simpl; lia. }
  split; [exact Hids|].
  eexists _, _, _, _.
  split; [reflexivity|]. split; [reflexivity|].
  exact (proj1 (deleted_id_not_reused no_fault DeleteFixture.store
                  DeleteFixture.disk 1 Fixture.bob Fixture.lobby _ _ _ 5000
                  "uuid-n" (Fixture.text_from Fixture.bob "again") _ _
                  Hids eq_refl eq_refl)).
Defined.

(** X6. A reply is shown with the message it answers: when a message
    that names a reply target is accepted, the target is a stored message
    of the same room, and the preview returned with the new message
    carries the target's id, content, type and time. *)
Theorem reply_preview_from_same_room t now messageId d res t' p :
  sendMessage t now messageId d = (Ok res, t') ->
  reply_requested d = Some p ->
  exists m rv,
    In m (messages t)
    /\ Messages.id m = p
    /\ Messages.chatroom_id m = chatroomId d
    /\ mr_replyToMessage res = Some rv
    /\ rv_id rv = p
    /\ rv_content rv = Messages.content m
    /\ rv_messageType rv = Messages.mtype m
    /\ rv_createdAt rv = Messages.created_at m.
Proof.
  unfold sendMessage. intros Hsend Hreply. rewrite Hreply in Hsend.
  destruct (validate d); [discriminate|].
  destruct (ChatroomService.isMuted _); [discriminate|].
  destruct (find_message t p (chatroomId d)) as [m|] eqn:Hfind; [|discriminate].
  apply find_message_inv in Hfind as (Hin & Hid & Hroom).
  destruct (negb (insert_allowed _ _)); [discriminate|].
  destruct (sender_view _ _ _ _); [|discriminate].
  destruct (sender_view _ _ _ _); [|discriminate].
  injection Hsend as <- <-. eexists m, _. simpl.
  repeat split; auto.
Qed.

Lemma reply_preview_from_same_room_witness :
  exists res t',
    sendMessage DeleteFixture.tables 5000 "uuid-n"
      (mkData Fixture.lobby Fixture.alice KUser (Some "noted") TText None (Some 2)
              None None None None None None)
    = (Ok res, t')
    /\ exists rv, mr_replyToMessage res = Some rv /\ rv_content rv = "thanks".
Proof.
  eexists _, _. split; [reflexivity|].
  destruct (reply_preview_from_same_room DeleteFixture.tables 5000 "uuid-n"
              (mkData Fixture.lobby Fixture.alice KUser (Some "noted") TText None
                      (Some 2) None None None None None None)
              _ _ 2 eq_refl eq_refl)
    as (m & rv & Hin & Hid & _ & Hrv & _ & Hcontent & _).
  exists rv. split; [exact Hrv|]. rewrite Hcontent.
  destruct Hin as [<-|[<-|[]]]; [discriminate Hid|reflexivity].
Defined.

(** X7. A message cannot answer a message of another room: when the id
    named as reply target belongs to no message of the room the new message
    goes to, a valid payload of a sender who is not muted is refused with
    the reply-target error and nothing is written. *)
Theorem reply_across_rooms_refused t now messageId d p :
  validate d = None ->
  ChatroomService.isMuted
    (ChatroomService.checkUserMuted t now (userUid d) (chatroomId d)) = false ->
  reply_requested d = Some p ->
  (forall m, In m (messages t) -> Messages.id m = p ->
             Messages.chatroom_id m <> chatroomId d) ->
  sendMessage t now messageId d = (Err ReplyTargetNotFound, t).
Proof.
  intros Hv Hm Hreply Hother. unfold sendMessage. rewrite Hv, Hm, Hreply.
  destruct (find_message t p (chatroomId d)) as [m|] eqn:Hfind; [|reflexivity].
  apply find_message_inv in Hfind as (Hin & Hid & Hroom).
  destruct (Hother m Hin Hid Hroom).
Qed.

Lemma reply_across_rooms_refused_witness :
  sendMessage DeleteFixture.tables 5000 "uuid-n"
    (mkData "OTHER999" Fixture.alice KUser (Some "noted") TText None (Some 2)
            None None None None None None)
  = (Err ReplyTargetNotFound, DeleteFixture.tables).
Proof.
  apply (reply_across_rooms_refused DeleteFixture.tables 5000 "uuid-n"
           (mkData "OTHER999" Fixture.alice KUser (Some "noted") TText None
                   (Some 2) None None None None None None) 2);
    try reflexivity.
  intros m [<-|[<-|[]]] _; discriminate.
Defined.

(** X8. What is stored for an accepted text message is never empty and
    has at most 6000 characters: the check allows 1000 characters before
    trimming, and escaping makes a character at most six. *)
Theorem stored_text_bounds t now messageId d res t' :
  sendMessage t now messageId d = (Ok res, t') ->
  messageType d = TText ->
  Messages.content (mr_row res) <> ""
  /\ (String.length (Messages.content (mr_row res)) <= 6 * 1000)%nat.
Proof.
  intros Hsend Htype.
  apply sendMessage_ok_inv in Hsend as (Hv & _ & -> & _). simpl.
  unfold validate in Hv. rewrite Htype in Hv.
  destruct (blank (content d)) eqn:Hb; [discriminate|].
  destruct (longer_than 1000 (content d)) eqn:Hl; [discriminate|].
  unfold sanitizedContent. unfold blank in Hb. unfold longer_than in Hl.
  destruct (content d) as [s|]; [|discriminate].
  apply orb_false_elim in Hb as [Hs Htrim]. rewrite Hs in *. simpl in Hl.
  apply Nat.ltb_ge in Hl. apply String.eqb_neq in Htrim.
  rewrite sanitizeText_escape. split.
  - destruct (Utils.trim s) as [|c u]; [congruence|]. apply escape_nonempty.
  - pose proof (escape_length (Utils.trim s)). pose proof (trim_length s). lia.
Qed.

Lemma stored_text_bounds_witness :
  exists res t',
    sendMessage Fixture.base 5000 "uuid-1" (Fixture.text_from Fixture.bob " <b> ")
    = (Ok res, t')
    /\ Messages.content (mr_row res) = "&lt;b&gt;"
    /\ Messages.content (mr_row res) <> ""
    /\ (String.length (Messages.content (mr_row res)) <= 6 * 1000)%nat.
Proof.
  eexists _, _. split; [reflexivity|]. split; [reflexivity|].
  exact (stored_text_bounds Fixture.base 5000 "uuid-1"
           (Fixture.text_from Fixture.bob " <b> ") _ _ eq_refl eq_refl).
Defined.

End SendMore.

(** ** Bulk deletion *)

Section Bulk.

Import MessageService.

(** Releasing files touches neither the messages nor the transaction. *)
Lemma release_all_store flt l st disk r st' disk' :
  release_all flt l st disk = (r, st', disk') ->
  messages (live st') = messages (live st)
  /\ next_message_id (live st') = next_message_id (live st)
  /\ undo st' = undo st.
Proof.
  revert st disk. induction l as [|[fid stored] l IH]; simpl; intros st disk H.
  - injection H as <- <- <-. auto.
  - destruct (truthy_string fid); [|eauto].
    destruct fid as [f|]; [|eauto].
    unfold run in H. destruct (flt StReleaseFile).
    + injection H as <- <- <-. auto.
    + apply IH in H. simpl in H. exact H.
Qed.

(** What the [try] block leaves when it fails: nothing was begun, or the
    transaction is still open. *)
Lemma deleteUserMessages_try_err flt now targetUid chatroomId deleterUid st disk
      e st' disk' :
  deleteUserMessages_try flt now targetUid chatroomId deleterUid st disk
  = (Err e, st', disk') ->
  st' = st \/ (undo st = None /\ undo st' = Some (live st)).
Proof.
  unfold deleteUserMessages_try, beginTransaction, run, commit.
  destruct (flt StBegin); [intros [= <- <- <-]; auto|].
  destruct (undo st) eqn:Hundo; [intros [= <- <- <-]; auto|].
  destruct (flt StSelectFiles); [intros [= <- <- <-]; auto|].
  destruct (flt StMarkDeleted); [intros [= <- <- <-]; auto|]. simpl.
  destruct (release_all flt _ _ disk) as [[[u|e'] st3] disk3] eqn:Hrel.
  - apply release_all_store in Hrel as (_ & _ & Hu). simpl in Hu.
    destruct (flt StCommit); [intros [= <- <- <-]; auto|].
    rewrite Hu. discriminate.
  - apply release_all_store in Hrel as (_ & _ & Hu). simpl in Hu.
    intros [= <- <- <-]. auto.
Qed.

(** X9. Bulk deletion does not work on the tables the server creates:
    the UPDATE of [deleteUserMessages] sets [deleted_by] and [deleted_at],
    columns [createTables] does not give [messages], so the statement is
    rejected. A bulk deletion started outside a transaction therefore
    fails for every requester, target and room, whatever else fails: the
    tables and the disk are as before, and the transaction is closed when
    the ROLLBACK works. *)
Theorem bulk_delete_fails_on_declared_schema flt now st disk targetUid chatroomId
        deleterUid :
  Schema.enforced flt ->
  undo st = None ->
  exists e st',
    deleteUserMessages flt now st disk targetUid chatroomId deleterUid
    = (Err e, st', disk)
    /\ live st' = live st
    /\ (flt StRollback = false -> undo st' = None).
Proof.
  intros Hschema Hundo.
  assert (flt StMarkDeleted = true) as Hmark by (apply Hschema; reflexivity).
  assert (forall e st', live st' = live st ->
            (flt StRollback = false -> undo st' = None) ->
            exists e0 st0,
              (Err e, st', disk) = (Err e0 : result bulk_info, st0, disk)
              /\ live st0 = live st
              /\ (flt StRollback = false -> undo st0 = None)) as Hgo
      by (intros e st' H1 H2; exists e, st'; auto).
  unfold deleteUserMessages, deleteUserMessages_try, beginTransaction, run,
    rollback.
  destruct (negb (ChatroomService.checkAdminPermission _ _ _));
    [apply Hgo; auto|].
  destruct (match ChatroomService.find_room (live st) chatroomId with
            | Some c => _ | None => false end); [apply Hgo; auto|].
  rewrite Hundo, Hmark.
  destruct (flt StBegin).
  - destruct (flt StRollback) eqn:Hrb; [apply Hgo; auto|].
    rewrite Hundo. apply Hgo; auto.
  - destruct (flt StSelectFiles); simpl;
      destruct (flt StRollback) eqn:Hrb; apply Hgo; auto; discriminate.
Qed.

Lemma bulk_delete_fails_on_declared_schema_witness :
  (Schema.enforced Schema.declared
   /\ undo DeleteFixture.store = None)
  /\ exists e st',
      deleteUserMessages Schema.declared 5000 DeleteFixture.store
                         DeleteFixture.disk Fixture.bob Fixture.lobby Fixture.carol
      = (Err e, st', DeleteFixture.disk)
      /\ live st' = live DeleteFixture.store
      /\ (Schema.declared StRollback = false -> undo st' = None).
Proof.
  assert (Schema.enforced Schema.declared) as Hschema
      by (intros _; reflexivity).
  split; [split; [exact Hschema|reflexivity]|].
  exact (bulk_delete_fails_on_declared_schema Schema.declared 5000
           DeleteFixture.store DeleteFixture.disk Fixture.bob Fixture.lobby
           Fixture.carol Hschema eq_refl).
Defined.

(** X10. A bulk deletion that fails leaves the tables as they were:
    started outside a transaction, with a ROLLBACK that works, whatever
    step was rejected (the UPDATE itself, as on a [messages] table without
    the columns it names, a file release, the COMMIT) and also when the
    caller has no right, the tables afterwards are those before and no
    transaction is open. *)
Theorem failed_bulk_delete_rolled_back flt now st disk targetUid chatroomId
        deleterUid e st' disk' :
  undo st = None ->
  flt StRollback = false ->
  deleteUserMessages flt now st disk targetUid chatroomId deleterUid
  = (Err e, st', disk') ->
  live st' = live st /\ undo st' = None.
Proof.
  intros Hundo Hrb. unfold deleteUserMessages.
  destruct (negb (ChatroomService.checkAdminPermission _ _ _));
    [intros [= <- <- <-]; auto|].
  destruct (match ChatroomService.find_room (live st) chatroomId with
            | Some c => _ | None => false end); [intros [= <- <- <-]; auto|].
  destruct (deleteUserMessages_try _ _ _ _ _ _ _) as [[[i|e1] st1] disk1] eqn:Htry;
    [discriminate|].
  apply deleteUserMessages_try_err in Htry as [->|[_ Hu]];
    unfold rollback; rewrite Hrb.
  - rewrite Hundo. intros [= <- <- <-]. auto.
  - rewrite Hu. intros [= <- <- <-]. auto.
Qed.

Lemma failed_bulk_delete_rolled_back_witness :
  (undo DeleteFixture.store = None
   /\ DeleteFixture.only StCommit StRollback = false)
  /\ exists st' disk',
      deleteUserMessages (DeleteFixture.only StCommit) 5000 DeleteFixture.store
                         DeleteFixture.disk Fixture.bob Fixture.lobby Fixture.carol
      = (Err BulkDeleteFailed, st', disk')
      /\ live st' = live DeleteFixture.store
      /\ undo st' = None.
Proof.
  split; [split; reflexivity|].
  eexists _, _. split; [reflexivity|].
  exact (failed_bulk_delete_rolled_back (DeleteFixture.only StCommit) 5000
           DeleteFixture.store DeleteFixture.disk Fixture.bob Fixture.lobby
           Fixture.carol BulkDeleteFailed _ _ eq_refl eq_refl eq_refl).
Defined.

End Bulk.

(** ** Cleaning up old messages *)

Section Cleanup.

Import MessageService SystemMessages.

Lemma cleanupOldMessages_try_ok flt cutoff st disk info st' disk' :
  cleanupOldMessages_try flt cutoff st disk = (Ok info, st', disk') ->
  delete_allowed cutoff (live st) = true
  /\ undo st' = None
  /\ messages (live st')
     = List.filter (fun m => negb (retired cutoff m)) (messages (live st))
  /\ deletedMessages info
     = List.length (List.filter (retired cutoff) (messages (live st))).
Proof.
  unfold cleanupOldMessages_try, beginTransaction, run, commit.
  destruct (flt StBegin); [discriminate|].
  destruct (undo st) eqn:Hundo; [discriminate|].
  destruct (flt StSelectFiles); [discriminate|]. simpl.
  destruct (delete_allowed cutoff (live st)); [|discriminate].
  destruct (flt StDeleteRow); [discriminate|]. simpl.
  destruct (release_all flt _ _ disk) as [[[u|e] st3] disk3] eqn:Hrel;
    [|discriminate].
  apply release_all_store in Hrel as (Hm & _ & Hu). simpl in Hm, Hu.
  destruct (flt StCommit); [discriminate|].
  rewrite Hu. intros [= <- <- <-]. simpl. auto.
Qed.

(** X11. A cleanup that succeeds removes exactly the retired rows: a
    message is stored afterwards iff it was stored before and is not both
    marked deleted and older than [daysToKeep] days; the count returned is
    the number of rows removed; no message that stays has lost the message
    it answers; and the transaction is closed. *)
Theorem cleanup_removes_exactly_retired flt now daysToKeep st disk info st' disk' :
  cleanupOldMessages flt now daysToKeep st disk = (Done info, st', disk') ->
  (forall m, In m (messages (live st'))
             <-> In m (messages (live st))
                 /\ retired (now - daysToKeep * 24 * 60 * 60 * 1000) m = false)
  /\ deletedMessages info
     = List.length
         (List.filter (retired (now - daysToKeep * 24 * 60 * 60 * 1000))
                      (messages (live st)))
  /\ (forall m p r,
        In m (messages (live st')) ->
        Messages.reply_to_message_id m = Some p ->
        In r (messages (live st)) -> Messages.id r = p ->
        In r (messages (live st')))
  /\ undo st' = None.
Proof.
  unfold cleanupOldMessages.
  destruct (cleanupOldMessages_try _ _ _ _) as [[[i|e] st1] disk1] eqn:Htry.
  - intros [= <- <- <-].
    apply cleanupOldMessages_try_ok in Htry as (Hall & Hu & Hm & Hc).
    assert (forall m, In m (messages (live st1))
             <-> In m (messages (live st))
                 /\ retired (now - daysToKeep * 24 * 60 * 60 * 1000) m = false)
      as Hiff.
    { intros m. rewrite Hm, filter_In, negb_true_iff. reflexivity. }
    split; [exact Hiff|]. split; [exact Hc|]. split; [|exact Hu].
    intros m p r Hin Hreply Hr Hid.
    apply Hiff in Hin as [Hin Hkeep]. apply Hiff. split; [exact Hr|].
    unfold delete_allowed in Hall. apply andb_prop in Hall as [Hall _].
    rewrite forallb_forall in Hall. specialize (Hall m Hin).
    rewrite Hkeep, Hreply in Hall. simpl in Hall.
    apply negb_true_iff in Hall.
    destruct (retired _ r) eqn:Hret; [|reflexivity].
    assert (existsb (fun r0 => (Messages.id r0 =? p)
                               && retired (now - daysToKeep * 24 * 60 * 60 * 1000) r0)
                    (messages (live st)) = true) as Hex.
    { apply existsb_exists. exists r. split; [exact Hr|].
      rewrite Hret, Hid, Z.eqb_refl. reflexivity. }
    congruence.
  - destruct (rollback flt st1) as [[u|e'] st2]; discriminate.
Qed.

Lemma cleanup_removes_exactly_retired_witness :
  exists info st' disk',
    cleanupOldMessages no_fault CleanupFixture.day40 30 CleanupFixture.clean
                       DeleteFixture.disk
    = (Done info, st', disk')
    /\ messages (live st') = [CleanupFixture.kept]
    /\ deletedMessages info = 1%nat
    /\ undo st' = None.
Proof.
  eexists _, _, _. split; [reflexivity|]. split; [reflexivity|].
  destruct (cleanup_removes_exactly_retired no_fault CleanupFixture.day40 30
              CleanupFixture.clean DeleteFixture.disk _ _ _ eq_refl)
    as (_ & Hcount & _ & Hundo).
  split; [exact Hcount|exact Hundo].
Defined.

(** X12. One answer that stays blocks the whole cleanup: when a message
    that is not retired answers one that is, the DELETE breaks the foreign
    key of [reply_to_message_id], which [cleanupOldMessages], unlike
    [deleteMessage], has not cleared; the cleanup fails, whatever else is
    due, and the tables and the files on disk stay as they were. *)
Theorem cleanup_blocked_by_kept_reply flt now daysToKeep st disk m r :
  undo st = None ->
  In r (messages (live st)) ->
  retired (now - daysToKeep * 24 * 60 * 60 * 1000) r = true ->
  In m (messages (live st)) ->
  retired (now - daysToKeep * 24 * 60 * 60 * 1000) m = false ->
  Messages.reply_to_message_id m = Some (Messages.id r) ->
  exists e st',
    cleanupOldMessages flt now daysToKeep st disk = (Failed e, st', disk)
    /\ live st' = live st.
Proof.
  intros Hu Hr Hret Hm Hkeep Hreply.
  assert (delete_allowed (now - daysToKeep * 24 * 60 * 60 * 1000) (live st) = false)
    as Hno.
  { unfold delete_allowed. apply andb_false_iff. left.
    apply not_true_is_false. intros Hall. rewrite forallb_forall in Hall.
    specialize (Hall m Hm). rewrite Hkeep, Hreply in Hall. simpl in Hall.
    apply negb_true_iff in Hall.
    assert (existsb (fun r0 => (Messages.id r0 =? Messages.id r)
                               && retired (now - daysToKeep * 24 * 60 * 60 * 1000) r0)
                    (messages (live st)) = true) as Hex.
    { apply existsb_exists. exists r. split; [exact Hr|].
      rewrite Hret, Z.eqb_refl. reflexivity. }
    congruence. }
  unfold cleanupOldMessages, cleanupOldMessages_try, beginTransaction, rollback.
  rewrite Hu.
  destruct (flt StBegin).
  - destruct (flt StRollback); [eauto|]. rewrite Hu. eauto.
  - destruct (flt StSelectFiles); simpl.
    + destruct (flt StRollback); eauto.
    + rewrite Hno. simpl. destruct (flt StRollback); eauto.
Qed.

Lemma cleanup_blocked_by_kept_reply_witness :
  (undo CleanupFixture.blocked = None
   /\ In CleanupFixture.gone (messages (live CleanupFixture.blocked))
   /\ retired (CleanupFixture.day40 - 30 * 24 * 60 * 60 * 1000)
              CleanupFixture.gone = true
   /\ In CleanupFixture.answer (messages (live CleanupFixture.blocked))
   /\ retired (CleanupFixture.day40 - 30 * 24 * 60 * 60 * 1000)
              CleanupFixture.answer = false
   /\ Messages.reply_to_message_id CleanupFixture.answer
      = Some (Messages.id CleanupFixture.gone))
  /\ exists e st',
      cleanupOldMessages no_fault CleanupFixture.day40 30 CleanupFixture.blocked
                         DeleteFixture.disk
      = (Failed e, st', DeleteFixture.disk)
      /\ live st' = live CleanupFixture.blocked.
Proof.
  assert (In CleanupFixture.gone (messages (live CleanupFixture.blocked))) as Hg
      by (left; reflexivity).
  assert (In CleanupFixture.answer (messages (live CleanupFixture.blocked))) as Ha
      by (right; left; reflexivity).
  split; [repeat split; assumption|].
  exact (cleanup_blocked_by_kept_reply no_fault CleanupFixture.day40 30
           CleanupFixture.blocked DeleteFixture.disk CleanupFixture.answer
           CleanupFixture.gone eq_refl Hg eq_refl Ha eq_refl eq_refl).
Defined.

End Cleanup.

(** ** Lists under the statements *)

Section Lists.

Lemma find_map_same {A} (p : A -> bool) (f : A -> A) (l : list A) :
  (forall a, p (f a) = p a) ->
  List.find p (List.map f l) = option_map f (List.find p l).
Proof.
  intros Hp. induction l as [|a l IH]; simpl; [reflexivity|].
  rewrite Hp. destruct (p a); [reflexivity|exact IH].
Qed.

Lemma filter_none {A} (p : A -> bool) (l : list A) :
  (forall a, In a l -> p a = false) -> List.filter p l = [].
Proof.
  induction l as [|a l IH]; simpl; intros H; [reflexivity|].
  rewrite (H a) by now left. apply IH. intros b Hb. apply H. now right.
Qed.

Lemma filter_all {A} (p : A -> bool) (l : list A) :
  (forall a, In a l -> p a = true) -> List.filter p l = l.
Proof.
  induction l as [|a l IH]; simpl; intros H; [reflexivity|].
  rewrite (H a) by now left. f_equal. apply IH. intros b Hb. apply H. now right.
Qed.

Lemma existsb_false_forall {A} (p : A -> bool) (l : list A) :
  existsb p l = false -> forall a, In a l -> p a = false.
Proof.
  intros H a Hin. destruct (p a) eqn:E; [|reflexivity].
  assert (existsb p l = true) by (apply existsb_exists; eauto). congruence.
Qed.

Lemma find_all_false {A} (p : A -> bool) (l : list A) :
  (forall a, In a l -> p a = false) -> List.find p l = None.
Proof.
  induction l as [|a l IH]; simpl; intros H; [reflexivity|].
  rewrite (H a) by now left. apply IH. intros b Hb. apply H. now right.
Qed.

End Lists.

(** ** Administrators *)

Section Admins.

Import ChatroomService Moderation.

Lemma set_chatroom_admins_id t l :
  set_chatroom_admins (set_chatroom_admins t l) (chatroom_admins t) = t.
Proof. destruct t; reflexivity. Qed.

(** X13. A grant gives the right and can be taken back without a trace:
    after a successful [setAdmin] the target passes
    [checkAdminPermission], and a [removeAdmin] by the same creator then
    succeeds and leaves the tables exactly as they were before the
    grant. *)
Theorem admin_grant_round_trip t roomId targetUid granterUid t1 :
  setAdmin t roomId targetUid granterUid = (Done tt, t1) ->
  checkAdminPermission t1 targetUid roomId = true
  /\ removeAdmin t1 roomId targetUid granterUid = (Done tt, t).
Proof.
  unfold setAdmin.
  destruct (find_room t roomId) as [c|] eqn:Hroom; [|discriminate].
  destruct (Chatrooms.creator_uid c ==s granterUid) eqn:Hc; [|discriminate].
  simpl.
  destruct (negb (existsb _ (users t))); [discriminate|].
  destruct (existsb (is_admin_row roomId targetUid) (chatroom_admins t)) eqn:Hold;
    [discriminate|].
  destruct (negb (existsb _ (users t))); [discriminate|].
  intros [= <-].
  assert (is_admin_row roomId targetUid
            (ChatroomAdmins.mk roomId targetUid granterUid) = true) as Hnew
      by (unfold is_admin_row; simpl; now rewrite !String.eqb_refl).
  split.
  - unfold checkAdminPermission, find_room. simpl.
    fold (find_room t roomId). rewrite Hroom.
    rewrite existsb_app. simpl. rewrite Hnew, orb_true_r.
    now destruct (Chatrooms.creator_uid c ==s targetUid).
  - unfold removeAdmin, find_room. simpl. fold (find_room t roomId).
    rewrite Hroom, Hc. simpl.
    rewrite !List.filter_app. simpl. rewrite Hnew. simpl.
    rewrite (filter_none (is_admin_row roomId targetUid))
      by (apply existsb_false_forall; exact Hold).
    rewrite filter_all, app_nil_r.
    + simpl. f_equal. apply set_chatroom_admins_id.
    + intros a Ha. now rewrite (existsb_false_forall _ _ Hold a Ha).
Qed.

Lemma admin_grant_round_trip_witness :
  exists t1,
    setAdmin Fixture.base Fixture.lobby Fixture.bob Fixture.alice = (Done tt, t1)
    /\ checkAdminPermission t1 Fixture.bob Fixture.lobby = true
    /\ removeAdmin t1 Fixture.lobby Fixture.bob Fixture.alice
       = (Done tt, Fixture.base).
Proof.
  eexists. split; [reflexivity|].
  exact (admin_grant_round_trip Fixture.base Fixture.lobby Fixture.bob
           Fixture.alice _ eq_refl).
Defined.

(** X14. Removing an administrator takes the right from that user in
    that room and from nobody else: after a successful [removeAdmin] the
    target, unless it is the creator, fails [checkAdminPermission] for
    the room, and the answer for every other user or room is as before. *)
Theorem removed_admin_loses_permission t roomId targetUid removerUid t' :
  removeAdmin t roomId targetUid removerUid = (Done tt, t') ->
  (targetUid <> removerUid -> checkAdminPermission t' targetUid roomId = false)
  /\ (forall u r, u <> targetUid \/ r <> roomId ->
                  checkAdminPermission t' u r = checkAdminPermission t u r).
Proof.
  unfold removeAdmin.
  destruct (find_room t roomId) as [c|] eqn:Hroom; [|discriminate].
  destruct (Chatrooms.creator_uid c ==s removerUid) eqn:Hc; [|discriminate].
  simpl. apply String.eqb_eq in Hc.
  destruct (List.filter (is_admin_row roomId targetUid) (chatroom_admins t))
    as [|a0 l0]; [discriminate|].
  intros [= <-]. split.
  - intros Hne. unfold checkAdminPermission, find_room. simpl.
    fold (find_room t roomId). rewrite Hroom, Hc.
    assert ((removerUid ==s targetUid) = false) as ->
        by (apply String.eqb_neq; congruence).
    apply not_true_is_false. intros H. apply existsb_exists in H as (a & Ha & Hp).
    apply filter_In in Ha as [_ Ha]. rewrite Hp in Ha. discriminate.
  - intros u r Hdiff. unfold checkAdminPermission, find_room. simpl.
    assert (existsb (is_admin_row r u)
              (List.filter (fun a => negb (is_admin_row roomId targetUid a))
                           (chatroom_admins t))
            = existsb (is_admin_row r u) (chatroom_admins t)) as ->.
    { induction (chatroom_admins t) as [|a l IH]; simpl; [reflexivity|].
      destruct (is_admin_row roomId targetUid a) eqn:Ea; simpl;
        [|now rewrite IH].
      rewrite IH.
      assert (is_admin_row r u a = false) as ->; [|reflexivity].
      unfold is_admin_row in *. apply andb_prop in Ea as [E1 E2].
      apply String.eqb_eq in E1, E2. rewrite E1, E2.
      apply andb_false_iff.
      destruct Hdiff as [Hu|Hr]; [right|left]; apply String.eqb_neq; congruence. }
    reflexivity.
Qed.

Lemma removed_admin_loses_permission_witness :
  exists t',
    removeAdmin Fixture.base Fixture.lobby Fixture.carol Fixture.alice
    = (Done tt, t')
    /\ checkAdminPermission Fixture.base Fixture.carol Fixture.lobby = true
    /\ checkAdminPermission t' Fixture.carol Fixture.lobby = false.
Proof.
  eexists. split; [reflexivity|]. split; [reflexivity|].
  apply (proj1 (removed_admin_loses_permission Fixture.base Fixture.lobby
                  Fixture.carol Fixture.alice _ eq_refl)).
  discriminate.
Defined.

End Admins.

(** ** Muting and unmuting *)

Section Mutes.

Import ChatroomService Moderation.

Lemma is_active_anonymous_of roomId uid a :
  is_active_anonymous roomId uid a
  = is_anonymous_of roomId uid a && AnonymousUsers.is_active a.
Proof. reflexivity. Qed.

(** The anonymous check after every row of the target got the deadline
    [v]. *)
Lemma checkAnonymousMuted_after_set t v now uid roomId :
  checkAnonymousMuted
    (set_anonymous_users t
       (List.map (fun a => if is_anonymous_of roomId uid a
                           then set_anonymous_mute v a else a)
                 (anonymous_users t)))
    now uid roomId
  = match activeAnonymous t uid roomId with
    | Some _ => if Utils.isUserMuted v now then muted_until v now else not_muted
    | None => not_muted
    end.
Proof.
  unfold checkAnonymousMuted, activeAnonymous. simpl.
  rewrite find_map_same.
  - destruct (List.find (is_active_anonymous roomId uid) (anonymous_users t))
      as [a|] eqn:E; simpl; [|reflexivity].
    apply find_some in E as [_ E]. rewrite is_active_anonymous_of in E.
    apply andb_prop in E as [E _]. rewrite E. reflexivity.
  - intros a. destruct (is_anonymous_of roomId uid a); reflexivity.
Qed.

Lemma no_anonymous_not_muted t now uid roomId :
  existsb (is_anonymous_of roomId uid) (anonymous_users t) = false ->
  checkAnonymousMuted t now uid roomId = not_muted.
Proof.
  intros H. unfold checkAnonymousMuted, activeAnonymous.
  destruct (List.find _ _) as [a|] eqn:E; [|reflexivity].
  apply find_some in E as [Hin E]. rewrite is_active_anonymous_of in E.
  apply andb_prop in E as [E _].
  now rewrite (existsb_false_forall _ _ H a Hin) in E.
Qed.

Lemma deactivated_no_current t roomId uid :
  List.filter (is_active_mute roomId uid)
    (List.map (fun r => if is_active_mute roomId uid r
                        then deactivate_mute r else r) (user_mutes t)) = [].
Proof.
  apply filter_none. intros r Hr. apply in_map_iff in Hr as (r0 & <- & _).
  destruct (is_active_mute roomId uid r0) eqn:E; [|exact E].
  unfold is_active_mute. simpl. apply andb_false_r.
Qed.

(** X15. An unmute that succeeds ends every mute of the target in the
    room: whatever records and whatever anonymous deadline there were,
    [checkUserMuted] afterwards answers not muted, at every time. *)
Theorem unmute_ends_every_mute has_is_muted t roomId targetUid unmuterUid t' now :
  unmuteUser has_is_muted t roomId targetUid unmuterUid = (Done tt, t') ->
  checkUserMuted t' now targetUid roomId = not_muted.
Proof.
  unfold unmuteUser.
  destruct (negb (checkAdminPermission t unmuterUid roomId)); [discriminate|].
  simpl.
  destruct (existsb (is_anonymous_of roomId targetUid) (anonymous_users t)) eqn:Ha.
  - destruct has_is_muted; [|discriminate]. intros [= <-].
    unfold checkUserMuted, currentMute. simpl.
    rewrite deactivated_no_current. simpl.
    rewrite (checkAnonymousMuted_after_set
               (set_user_mutes t _) None now targetUid roomId).
    simpl. now destruct (activeAnonymous _ _ _).
  - intros [= <-]. unfold checkUserMuted, currentMute. simpl.
    rewrite deactivated_no_current. simpl.
    apply no_anonymous_not_muted. exact Ha.
Qed.

Lemma unmute_ends_every_mute_witness :
  isMuted (checkUserMuted Fixture.bob_muted 40000 Fixture.bob Fixture.lobby) = true
  /\ exists t',
      unmuteUser false Fixture.bob_muted Fixture.lobby Fixture.bob Fixture.carol
      = (Done tt, t')
      /\ checkUserMuted t' 40000 Fixture.bob Fixture.lobby = not_muted.
Proof.
  split; [reflexivity|]. eexists. split; [reflexivity|].
  exact (unmute_ends_every_mute false Fixture.bob_muted Fixture.lobby Fixture.bob
           Fixture.carol _ 40000 eq_refl).
Defined.

(** X16. On a database as database.js creates it, where
    [anonymous_users] has no column [is_muted], an anonymous member cannot
    be unmuted: for a caller with the right and a target that has an
    anonymous row in the room, [unmuteUser] fails with the error of the
    rejected statement, after it has deactivated the target's mute
    records; the anonymous rows keep their deadline, and from then on the
    mute check is decided by that deadline alone. *)
Theorem unmute_of_anonymous_rejected t roomId targetUid unmuterUid :
  checkAdminPermission t unmuterUid roomId = true ->
  existsb (is_anonymous_of roomId targetUid) (anonymous_users t) = true ->
  exists t',
    unmuteUser false t roomId targetUid unmuterUid = (Failed Rejected, t')
    /\ anonymous_users t' = anonymous_users t
    /\ forall now, checkUserMuted t' now targetUid roomId
                   = checkAnonymousMuted t now targetUid roomId.
Proof.
  intros Hperm Ha. unfold unmuteUser. rewrite Hperm. simpl. rewrite Ha.
  eexists. split; [reflexivity|]. split; [reflexivity|].
  intros now. unfold checkUserMuted, currentMute. simpl.
  rewrite deactivated_no_current. reflexivity.
Qed.

Lemma unmute_of_anonymous_rejected_witness :
  (checkAdminPermission Fixture.base Fixture.alice Fixture.lobby = true
   /\ existsb (is_anonymous_of Fixture.lobby Fixture.guest)
              (anonymous_users Fixture.base) = true)
  /\ exists t',
      unmuteUser false Fixture.base Fixture.lobby Fixture.guest Fixture.alice
      = (Failed Rejected, t')
      /\ isMuted (checkUserMuted t' 300000 Fixture.guest Fixture.lobby) = true.
Proof.
  split; [split; reflexivity|].
  destruct (unmute_of_anonymous_rejected Fixture.base Fixture.lobby Fixture.guest
              Fixture.alice eq_refl eq_refl) as (t' & Hrun & _ & Hcheck).
  exists t'. split; [exact Hrun|]. rewrite Hcheck. reflexivity.
Defined.

Lemma newest_app_last l x :
  (forall r, In r l -> UserMutes.created_at r < UserMutes.created_at x) ->
  newest (l ++ [x]) = Some x.
Proof.
  induction l as [|r l IH]; simpl; intros H; [reflexivity|].
  rewrite IH by (intros r' Hr'; apply H; now right).
  assert ((UserMutes.created_at r <? UserMutes.created_at x) = true) as ->
      by (apply Z.ltb_lt; apply H; now left).
  reflexivity.
Qed.

(** X17. A new mute replaces what was there: when the target's active
    mute records in the room are older than the new one, then after a
    successful [muteUser] the deadline is the time of the call plus the
    duration in seconds, and [checkUserMuted] answers by this deadline
    alone, muted until it and not muted from it on, also when an earlier
    record or the anonymous row had a later deadline. *)
Theorem newest_mute_decides t now roomId targetUid muterUid duration reason
        until t' now' :
  muteUser t now roomId targetUid muterUid duration reason = (Ok until, t') ->
  (forall r, In r (user_mutes t) -> is_active_mute roomId targetUid r = true ->
             UserMutes.created_at r < default_timestamp now) ->
  until = now + duration * 1000
  /\ checkUserMuted t' now' targetUid roomId
     = if Utils.isUserMuted (Some until) now'
       then muted_until (Some until) now' else not_muted.
Proof.
  unfold muteUser.
  destruct (negb (checkAdminPermission t muterUid roomId)); [discriminate|].
  destruct (match find_room t roomId with
            | Some c => _ | None => false end); [discriminate|].
  destruct (negb _); [discriminate|].
  intros H Hold. simpl in H.
  set (new := UserMutes.mk roomId targetUid muterUid reason
                (now + duration * 1000) true (default_timestamp now)) in *.
  assert (currentMute t' targetUid roomId = Some new) as Hcur.
  { unfold currentMute.
    assert (user_mutes t' = (user_mutes t ++ [new])%list) as ->
        by (destruct (existsb _ _); injection H as _ <-; reflexivity).
    rewrite List.filter_app. simpl.
    assert (is_active_mute roomId targetUid new = true) as ->
        by (unfold is_active_mute; simpl; now rewrite !String.eqb_refl).
    apply newest_app_last. intros r Hr. apply filter_In in Hr as [Hr Hact].
    exact (Hold r Hr Hact). }
  assert (until = now + duration * 1000) as ->
      by (destruct (existsb _ _); injection H as <- _; reflexivity).
  split; [reflexivity|].
  unfold checkUserMuted. rewrite Hcur. simpl UserMutes.mute_until.
  destruct (Utils.isUserMuted (Some (now + duration * 1000)) now') eqn:Hm;
    [reflexivity|].
  destruct (existsb (is_anonymous_of roomId targetUid) (anonymous_users t)) eqn:Ha;
    injection H as <-.
  - rewrite (checkAnonymousMuted_after_set
               (set_user_mutes t _) (Some (now + duration * 1000))
               now' targetUid roomId).
    rewrite Hm. now destruct (activeAnonymous _ _ _).
  - apply no_anonymous_not_muted. exact Ha.
Qed.

Lemma newest_mute_decides_witness :
  (forall r, In r (user_mutes Fixture.bob_muted) ->
             is_active_mute Fixture.lobby Fixture.bob r = true ->
             UserMutes.created_at r < default_timestamp 50000)
  /\ exists t',
      muteUser Fixture.bob_muted 50000 Fixture.lobby Fixture.bob Fixture.carol
               10 "again"
      = (Ok 60000, t')
      /\ isMuted (checkUserMuted Fixture.bob_muted 70000 Fixture.bob Fixture.lobby)
         = true
      /\ checkUserMuted t' 70000 Fixture.bob Fixture.lobby = not_muted.
Proof.
  assert (forall r, In r (user_mutes Fixture.bob_muted) ->
             is_active_mute Fixture.lobby Fixture.bob r = true ->
             UserMutes.created_at r < default_timestamp 50000) as Hold.
  { intros r [<-|[]] _. reflexivity. }
  split; [exact Hold|].
  eexists. split; [reflexivity|]. split; [reflexivity|].
  exact (proj2 (newest_mute_decides Fixture.bob_muted 50000 Fixture.lobby
                  Fixture.bob Fixture.carol 10 "again" 60000 _ 70000
                  eq_refl Hold)).
Defined.

End Mutes.

(** ** Closing a room *)

Section Close.

Import ChatroomService Moderation MessageService.

Lemma closeChatroom_done t now roomId closerUid members t' :
  closeChatroom t now roomId closerUid = (Done members, t') ->
  t' = closed t now roomId.
Proof.
  unfold closeChatroom.
  destruct (find_room t roomId) as [c|]; [|discriminate].
  destruct (negb _); [discriminate|]. now intros [= _ <-].
Qed.

Lemma closed_no_active_room t now roomId :
  find_active_room (closed t now roomId) roomId = None.
Proof.
  unfold find_active_room. simpl. apply find_all_false.
  intros c Hc. apply in_map_iff in Hc as (c0 & <- & _).
  destruct (Chatrooms.room_id c0 ==s roomId) eqn:E.
  - simpl. apply andb_false_r.
  - now rewrite E.
Qed.

(** X18. A closed room is sealed for the services: after a successful
    [closeChatroom] the room is not found by [getChatroomInfo], nobody can
    join it through [joinChatroom], whatever password and user, nobody can
    be kicked from it, and every member row and every anonymous row of the
    room is inactive. *)
Theorem closed_room_is_sealed t now roomId closerUid members t' :
  closeChatroom t now roomId closerUid = (Done members, t') ->
  getChatroomInfo t' roomId = Err RoomNotFound
  /\ (forall verifyPassword password userUid,
        joinChatroom verifyPassword t' roomId password userUid
        = Err RoomNotFoundOrClosed)
  /\ (forall now' targetUid kickerUid,
        kickUser t' now' roomId targetUid kickerUid = (Err RoomNotFound, t'))
  /\ (forall m, In m (chatroom_members t') ->
                ChatroomMembers.chatroom_id m = roomId ->
                ChatroomMembers.is_active m = false
                /\ ChatroomMembers.status m = Left)
  /\ (forall a, In a (anonymous_users t') ->
                AnonymousUsers.chatroom_id a = roomId ->
                AnonymousUsers.is_active a = false).
Proof.
  intros H. apply closeChatroom_done in H as ->.
  pose proof (closed_no_active_room t now roomId) as Hnone.
  split; [unfold getChatroomInfo; now rewrite Hnone|].
  split; [intros v p u; unfold joinChatroom; now rewrite Hnone|].
  split; [intros n' x k; unfold kickUser; now rewrite Hnone|].
  split.
  - intros m Hm Hroom. simpl in Hm. apply in_map_iff in Hm as (m0 & <- & _).
    destruct (ChatroomMembers.chatroom_id m0 ==s roomId) eqn:E; [now split|].
    apply String.eqb_neq in E. congruence.
  - intros a Ha Hroom. simpl in Ha. apply in_map_iff in Ha as (a0 & <- & _).
    destruct (AnonymousUsers.chatroom_id a0 ==s roomId) eqn:E; [reflexivity|].
    apply String.eqb_neq in E. congruence.
Qed.

Lemma closed_room_is_sealed_witness :
  exists members t',
    closeChatroom Fixture.base 5000 Fixture.lobby Fixture.alice
    = (Done members, t')
    /\ members = [Fixture.alice; Fixture.bob; Fixture.carol; Fixture.guest]
    /\ getChatroomInfo t' Fixture.lobby = Err RoomNotFound.
Proof.
  eexists _, _. split; [reflexivity|]. split; [reflexivity|].
  exact (proj1 (closed_room_is_sealed Fixture.base 5000 Fixture.lobby Fixture.alice
                  _ _ eq_refl)).
Defined.

Lemma closed_find_room t now roomId r :
  find_room (closed t now roomId) r
  = option_map (fun c => if Chatrooms.room_id c ==s roomId
                         then close_room c else c) (find_room t r).
Proof.
  unfold find_room. simpl. apply find_map_same.
  intros c. now destruct (Chatrooms.room_id c ==s roomId).
Qed.

Lemma closed_checkAdminPermission t now roomId ms n u r :
  checkAdminPermission (set_messages (closed t now roomId) ms n) u r
  = checkAdminPermission (set_messages t ms n) u r.
Proof.
  unfold checkAdminPermission.
  change (find_room (set_messages (closed t now roomId) ms n) r)
    with (find_room (closed t now roomId) r).
  change (find_room (set_messages t ms n) r) with (find_room t r).
  rewrite closed_find_room.
  destruct (find_room t r) as [c|]; simpl; [|reflexivity].
  now destruct (Chatrooms.room_id c ==s roomId).
Qed.

Lemma closed_sender_view t now roomId ms n k u r :
  sender_view (set_messages (closed t now roomId) ms n) k u r
  = sender_view (set_messages t ms n) k u r.
Proof.
  unfold sender_view. destruct k; simpl; [reflexivity| |reflexivity].
  rewrite find_map_same
    by (intros a; now destruct (AnonymousUsers.chatroom_id a ==s roomId)).
  destruct (List.find _ (anonymous_users t)) as [a|]; simpl; [|reflexivity].
  now destruct (AnonymousUsers.chatroom_id a ==s roomId).
Qed.

Lemma closed_insert_allowed t now roomId row :
  insert_allowed (closed t now roomId) row = insert_allowed t row.
Proof.
  unfold insert_allowed. simpl. f_equal. f_equal.
  induction (chatrooms t) as [|c l IH]; simpl; [reflexivity|].
  rewrite IH. now destruct (Chatrooms.room_id c ==s roomId).
Qed.

Lemma is_active_anonymous_deactivated r u a :
  is_active_anonymous r u (set_anonymous_active false a) = false.
Proof. unfold is_active_anonymous. simpl. apply andb_false_r. Qed.

(** Closing a room can only end anonymous mutes, never start one. *)
Lemma closed_not_muted t now roomId now' u r :
  isMuted (checkUserMuted t now' u r) = false ->
  isMuted (checkUserMuted (closed t now roomId) now' u r) = false.
Proof.
  unfold checkUserMuted.
  change (currentMute (closed t now roomId) u r) with (currentMute t u r).
  assert (isMuted (checkAnonymousMuted t now' u r) = false ->
          isMuted (checkAnonymousMuted (closed t now roomId) now' u r) = false)
    as Hanon.
  { unfold checkAnonymousMuted, activeAnonymous. simpl.
    induction (anonymous_users t) as [|a l IH]; simpl; [reflexivity|].
    destruct (AnonymousUsers.chatroom_id a ==s roomId) eqn:E.
    - rewrite is_active_anonymous_deactivated.
      destruct (is_active_anonymous r u a) eqn:Ea; [|exact IH].
      intros _. clear IH.
      unfold is_active_anonymous in Ea.
      apply andb_prop in Ea as [Ea _]. apply andb_prop in Ea as [_ Ea].
      apply String.eqb_eq in Ea, E.
      assert (List.find (is_active_anonymous r u)
                (List.map (fun a0 => if AnonymousUsers.chatroom_id a0 ==s roomId
                                     then set_anonymous_active false a0 else a0) l)
              = None) as ->; [|reflexivity].
      apply find_all_false. intros b Hb. apply in_map_iff in Hb as (b0 & <- & _).
      destruct (AnonymousUsers.chatroom_id b0 ==s roomId) eqn:Eb.
      + apply is_active_anonymous_deactivated.
      + unfold is_active_anonymous. apply String.eqb_neq in Eb.
        assert ((AnonymousUsers.chatroom_id b0 ==s r) = false) as ->
            by (apply String.eqb_neq; congruence).
        now rewrite andb_false_r.
    - destruct (is_active_anonymous r u a); [auto|exact IH]. }
  destruct (currentMute t u r) as [m|]; [|exact Hanon].
  destruct (Utils.isUserMuted _ now'); [auto|exact Hanon].
Qed.

(** X19. Closing a room does not stop its messages: [sendMessage] never
    asks whether the room is active, so every message that would have been
    accepted before a successful [closeChatroom], in the closed room or
    elsewhere, is accepted after it, with the same result. *)
Theorem closed_room_still_accepts_messages t now roomId closerUid members t'
        now' messageId d res t1 :
  closeChatroom t now roomId closerUid = (Done members, t') ->
  sendMessage t now' messageId d = (Ok res, t1) ->
  exists t1', sendMessage t' now' messageId d = (Ok res, t1').
Proof.
  intros Hclose. apply closeChatroom_done in Hclose as ->.
  unfold sendMessage.
  destruct (validate d); [discriminate|].
  destruct (isMuted (checkUserMuted t now' (userUid d) (chatroomId d))) eqn:Hm;
    [discriminate|].
  rewrite (closed_not_muted t now roomId now' _ _ Hm).
  change (find_message (closed t now roomId)) with (find_message t).
  destruct (match reply_requested d with
            | Some p => _ | None => _ end) as [reply|e]; [|discriminate].
  change (new_row (closed t now roomId) now' messageId d)
    with (new_row t now' messageId d).
  rewrite closed_insert_allowed.
  destruct (negb (insert_allowed t _)); [discriminate|].
  unfold insert_message.
  change (messages (closed t now roomId)) with (messages t).
  change (next_message_id (closed t now roomId)) with (next_message_id t).
  rewrite !closed_sender_view, closed_checkAdminPermission.
  destruct (sender_view _ _ _ _); [|discriminate].
  destruct reply as [m|].
  - rewrite closed_sender_view.
    destruct (sender_view _ _ _ _); [|discriminate].
    intros [= <- <-]. eauto.
  - intros [= <- <-]. eauto.
Qed.

Lemma closed_room_still_accepts_messages_witness :
  exists members t' res t1,
    closeChatroom Fixture.base 5000 Fixture.lobby Fixture.alice
    = (Done members, t')
    /\ sendMessage Fixture.base 6000 "uuid-1" (Fixture.text_from Fixture.bob "hi")
       = (Ok res, t1)
    /\ exists t1',
        sendMessage t' 6000 "uuid-1" (Fixture.text_from Fixture.bob "hi")
        = (Ok res, t1').
Proof.
  eexists _, _, _, _. split; [reflexivity|]. split; [reflexivity|].
  exact (closed_room_still_accepts_messages Fixture.base 5000 Fixture.lobby
           Fixture.alice _ _ 6000 "uuid-1" (Fixture.text_from Fixture.bob "hi")
           _ _ eq_refl eq_refl).
Defined.

End Close.

(** ** Creating a room *)

Section Create.

Import ChatroomService Moderation MessageService SystemMessages.

Variable hashPassword : string -> string.
Variable verifyPassword : string -> string -> bool.

Lemma pick_room_id_fresh t generated fuel attempts roomId :
  pick_room_id t generated fuel attempts = Some roomId ->
  existsb (fun c => Chatrooms.room_id c ==s roomId) (chatrooms t) = false.
Proof.
  revert attempts. induction fuel as [|fuel IH]; simpl; intros attempts;
    [discriminate|].
  destruct (existsb (fun c => Chatrooms.room_id c ==s generated attempts)
                    (chatrooms t)) eqn:E; [apply IH|].
  now intros [= <-].
Qed.

Lemma createChatroom_done t now nameEnv passwordEnv generated messageId
      creatorUid name password cr t' :
  createChatroom hashPassword t now nameEnv passwordEnv generated messageId
                 creatorUid name password = (Done cr, t') ->
  cr = mkCreated (cr_roomId cr) name (negb (falsy_string password)) creatorUid
  /\ existsb (fun c => Chatrooms.room_id c ==s cr_roomId cr) (chatrooms t) = false
  /\ chatrooms t'
     = (chatrooms t
        ++ [room_row hashPassword now (cr_roomId cr) name creatorUid password])%list
  /\ messages t'
     = (messages t
        ++ [system_row t now messageId (cr_roomId cr) (welcome name)])%list.
Proof.
  unfold createChatroom.
  destruct (negb (isValidRoomName _ _)); [discriminate|].
  destruct (match password with Some p => _ | None => false end);
    [discriminate|].
  destruct (pick_room_id t generated 10 0) as [roomId|] eqn:Hpick;
    [|discriminate].
  apply pick_room_id_fresh in Hpick.
  unfold sendSystemMessage. simpl.
  destruct (negb (insert_allowed _ _)); [discriminate|].
  intros [= <- <-]. simpl. auto.
Qed.

Lemma created_room_found t' l now roomId name creatorUid password :
  existsb (fun c => Chatrooms.room_id c ==s roomId) l = false ->
  chatrooms t'
  = (l ++ [room_row hashPassword now roomId name creatorUid password])%list ->
  find_active_room t' roomId
  = Some (room_row hashPassword now roomId name creatorUid password).
Proof.
  intros Hfresh Hrooms. unfold find_active_room. rewrite Hrooms.
  apply find_app_fresh.
  - clear Hrooms. induction l as [|c l IH]; [reflexivity|]. simpl in *.
    apply orb_false_elim in Hfresh as [Hc Hl]. rewrite Hc. simpl. now apply IH.
  - simpl. now rewrite String.eqb_refl.
Qed.

(** X20. A room that was created is there and open to its creator: after
    a successful [createChatroom] the room id is one no room had,
    [getChatroomInfo] finds the room with the given name and creator, the
    creator joins through [joinChatroom] without a password, also when the
    room has one, and the welcome message of the system is stored in the
    room. *)
Theorem created_room_is_open_to_creator t now nameEnv passwordEnv generated
        messageId creatorUid name password cr t' :
  createChatroom hashPassword t now nameEnv passwordEnv generated messageId
                 creatorUid name password = (Done cr, t') ->
  creatorUid <> "" ->
  existsb (fun c => Chatrooms.room_id c ==s cr_roomId cr) (chatrooms t) = false
  /\ getChatroomInfo t' (cr_roomId cr)
     = Ok (ChatroomService.mkInfo (cr_roomId cr) name creatorUid
                                  (default_timestamp now) 0)
  /\ (forall p, joinChatroom verifyPassword t' (cr_roomId cr) p (Some creatorUid)
                = Ok (mkJoinInfo (cr_roomId cr) name creatorUid
                                 (default_timestamp now) true))
  /\ (exists m, In m (messages t')
                /\ Messages.chatroom_id m = cr_roomId cr
                /\ Messages.sender m = SSystem
                /\ Messages.content m = welcome name).
Proof.
  intros H Hne. apply createChatroom_done in H as (_ & Hfresh & Hrooms & Hmsgs).
  pose proof (created_room_found t' _ now _ name creatorUid password
                Hfresh Hrooms) as Hfind.
  split; [exact Hfresh|]. split; [|split].
  - unfold getChatroomInfo. rewrite Hfind. reflexivity.
  - intros p. unfold joinChatroom. rewrite Hfind. simpl.
    rewrite String.eqb_refl.
    assert ((creatorUid ==s "") = false) as -> by now apply String.eqb_neq.
    simpl.
    destruct password as [pw|]; [|reflexivity].
    destruct (pw ==s ""); [reflexivity|].
    destruct (hashPassword pw ==s ""); reflexivity.
  - eexists. split; [rewrite Hmsgs; apply in_or_app; right; left; reflexivity|].
    simpl. auto.
Qed.

(** X21. A room created with a password asks the others for it: when the
    password is not empty and its hash is not empty, anybody but the
    creator is refused without a password, and with one is let in exactly
    when the password check accepts it against the stored hash. *)
Theorem password_room_asks_others t now nameEnv passwordEnv generated
        messageId creatorUid name p cr t' userUid :
  createChatroom hashPassword t now nameEnv passwordEnv generated messageId
                 creatorUid name (Some p) = (Done cr, t') ->
  p <> "" ->
  hashPassword p <> "" ->
  userUid <> creatorUid ->
  cr_hasPassword cr = true
  /\ joinChatroom verifyPassword t' (cr_roomId cr) None (Some userUid)
     = Err PasswordRequired
  /\ forall q, q <> "" ->
       is_ok (joinChatroom verifyPassword t' (cr_roomId cr) (Some q) (Some userUid))
       = verifyPassword q (hashPassword p).
Proof.
  intros H Hp Hhash Hu.
  apply createChatroom_done in H as (Hcr & Hfresh & Hrooms & _).
  pose proof (created_room_found t' _ now _ name creatorUid (Some p)
                Hfresh Hrooms) as Hfind.
  apply String.eqb_neq in Hp, Hhash.
  assert ((creatorUid ==s userUid) = false) as Hne
      by (apply String.eqb_neq; congruence).
  split; [rewrite Hcr; simpl; now rewrite Hp|].
  unfold joinChatroom. rewrite Hfind. simpl. rewrite Hp, Hhash, Hne.
  rewrite andb_false_r. split; [reflexivity|].
  intros q Hq. apply String.eqb_neq in Hq. rewrite Hq.
  now destruct (verifyPassword q (hashPassword p)).
Qed.

(** X22. Creating a room is not all or nothing: the room is written
    before the welcome message and outside a transaction. A failure of the
    checks or of the id search leaves the tables as they were; when the
    welcome message is rejected, [createChatroom] fails although the room
    has been written: no message was added, but the room is found by
    [getChatroomInfo]. *)
Theorem failed_create_may_leave_room t now nameEnv passwordEnv generated
        messageId creatorUid name password e t' :
  createChatroom hashPassword t now nameEnv passwordEnv generated messageId
                 creatorUid name password = (Failed e, t') ->
  messages t' = messages t
  /\ (e <> Rejected -> t' = t)
  /\ (e = Rejected ->
      exists roomId,
        existsb (fun c => Chatrooms.room_id c ==s roomId) (chatrooms t) = false
        /\ chatrooms t'
           = (chatrooms t
              ++ [room_row hashPassword now roomId name creatorUid password])%list
        /\ getChatroomInfo t' roomId
           = Ok (ChatroomService.mkInfo roomId name creatorUid
                                        (default_timestamp now) 0)).
Proof.
  unfold createChatroom.
  destruct (negb (isValidRoomName _ _));
    [intros [= <- <-]; repeat split; auto; discriminate|].
  destruct (match password with Some p => _ | None => false end);
    [intros [= <- <-]; repeat split; auto; discriminate|].
  destruct (pick_room_id t generated 10 0) as [roomId|] eqn:Hpick;
    [|intros [= <- <-]; repeat split; auto; discriminate].
  apply pick_room_id_fresh in Hpick.
  unfold sendSystemMessage. simpl.
  destruct (negb (insert_allowed _ _)); [|discriminate].
  intros [= <- <-]. split; [reflexivity|]. split; [congruence|].
  intros _. exists roomId. split; [exact Hpick|]. split; [reflexivity|].
  unfold getChatroomInfo.
  rewrite (created_room_found _ (chatrooms t) now roomId name creatorUid password);
    [reflexivity|exact Hpick|reflexivity].
Qed.

End Create.

Section CreateWitnesses.

Import ChatroomService Moderation.

Lemma created_room_is_open_to_creator_witness :
  Fixture.alice <> ""
  /\ exists cr t',
      createChatroom CreateFixture.hashPassword Fixture.base 5000 None None
                     CreateFixture.generated "uuid-w" Fixture.alice "den"
                     (Some "secret")
      = (Done cr, t')
      /\ cr_roomId cr = "ROOM0001"
      /\ joinChatroom CreateFixture.verifyPassword t' (cr_roomId cr) None
                      (Some Fixture.alice)
         = Ok (mkJoinInfo (cr_roomId cr) "den" Fixture.alice
                          (default_timestamp 5000) true).
Proof.
  assert (Fixture.alice <> "") as Hne by discriminate.
  split; [exact Hne|].
  eexists _, _. split; [reflexivity|]. split; [reflexivity|].
  exact (proj1 (proj2 (proj2
           (created_room_is_open_to_creator CreateFixture.hashPassword
              CreateFixture.verifyPassword Fixture.base 5000 None None
              CreateFixture.generated "uuid-w" Fixture.alice "den"
              (Some "secret") _ _ eq_refl Hne))) None).
Defined.

Lemma password_room_asks_others_witness :
  ("secret" <> "" /\ CreateFixture.hashPassword "secret" <> ""
   /\ Fixture.bob <> Fixture.alice)
  /\ exists cr t',
      createChatroom CreateFixture.hashPassword Fixture.base 5000 None None
                     CreateFixture.generated "uuid-w" Fixture.alice "den"
                     (Some "secret")
      = (Done cr, t')
      /\ joinChatroom CreateFixture.verifyPassword t' (cr_roomId cr) None
                      (Some Fixture.bob)
         = Err PasswordRequired.
Proof.
  assert ("secret" <> "") as H1 by discriminate.
  assert (CreateFixture.hashPassword "secret" <> "") as H2 by discriminate.
  assert (Fixture.bob <> Fixture.alice) as H3 by discriminate.
  split; [auto|].
  eexists _, _. split; [reflexivity|].
  exact (proj1 (proj2
           (password_room_asks_others CreateFixture.hashPassword
              CreateFixture.verifyPassword Fixture.base 5000 None None
              CreateFixture.generated "uuid-w" Fixture.alice "den" "secret"
              _ _ Fixture.bob eq_refl H1 H2 H3))).
Defined.

Lemma failed_create_may_leave_room_witness :
  exists t',
    createChatroom CreateFixture.hashPassword DeleteFixture.tables 5000 None None
                   CreateFixture.generated "uuid-f" Fixture.alice "den" None
    = (Failed Rejected, t')
    /\ messages t' = messages DeleteFixture.tables
    /\ t' <> DeleteFixture.tables.
Proof.
  eexists. split; [reflexivity|].
  split.
  - exact (proj1 (failed_create_may_leave_room CreateFixture.hashPassword
                    DeleteFixture.tables 5000 None None CreateFixture.generated
                    "uuid-f" Fixture.alice "den" None Rejected _ eq_refl)).
  - discriminate.
Defined.

End CreateWitnesses.

(** ** After a kick *)

Section KickRejoin.

Import ChatroomService.

(** X23. A kick is not a ban: after a successful [kickUser] the answer
    of [joinChatroom] for the room is for everybody what it was before, the
    kicked user included, and [addMemberToChatroom], which the join paths
    call, leaves the kicked user one row for the room, online and
    active. *)
Theorem kick_is_not_a_ban t now roomId targetUid kickerUid info t' :
  kickUser t now roomId targetUid kickerUid = (Ok info, t') ->
  (forall verifyPassword password userUid,
     joinChatroom verifyPassword t' roomId password userUid
     = joinChatroom verifyPassword t roomId password userUid)
  /\ (forall now' kind nickname avatarUrl,
        List.filter (is_member roomId targetUid)
          (chatroom_members
             (addMemberToChatroom t' now' roomId targetUid kind nickname avatarUrl))
        = [ChatroomMembers.mk roomId targetUid kind nickname avatarUrl
                              now' now' Online true]).
Proof.
  intros H. apply kickUser_ok_inv in H as ((room & Hroom & _) & _ & _ & ->).
  split; [reflexivity|].
  intros now' k n a. unfold addMemberToChatroom. simpl.
  assert (existsb (fun c => Chatrooms.room_id c ==s roomId) (chatrooms t) = true)
    as ->.
  { unfold find_active_room in Hroom. apply find_some in Hroom as [Hin Hp].
    apply andb_prop in Hp as [Hp _]. apply existsb_exists. eauto. }
  simpl. rewrite List.filter_app. simpl.
  assert (is_member roomId targetUid
            (ChatroomMembers.mk roomId targetUid k n a now' now' Online true)
          = true) as ->
      by (unfold is_member; simpl; now rewrite !String.eqb_refl).
  rewrite (filter_none (is_member roomId targetUid)); [reflexivity|].
  intros m Hm. apply filter_In in Hm as [_ Hm]. now apply negb_true_iff in Hm.
Qed.

Lemma kick_is_not_a_ban_witness :
  exists info t',
    kickUser Fixture.base 5000 Fixture.lobby Fixture.bob Fixture.alice
    = (Ok info, t')
    /\ List.filter (is_member Fixture.lobby Fixture.bob) (chatroom_members t')
       = [ChatroomMembers.mk Fixture.lobby Fixture.bob KUser "bob" None
                             0 5000 Left false]
    /\ List.filter (is_member Fixture.lobby Fixture.bob)
         (chatroom_members
            (addMemberToChatroom t' 6000 Fixture.lobby Fixture.bob KUser "bob"
                                 None))
       = [ChatroomMembers.mk Fixture.lobby Fixture.bob KUser "bob" None
                             6000 6000 Online true].
Proof.
  eexists _, _. split; [reflexivity|]. split; [reflexivity|].
  exact (proj2 (kick_is_not_a_ban Fixture.base 5000 Fixture.lobby Fixture.bob
                  Fixture.alice _ _ eq_refl) 6000 KUser "bob" None).
Defined.

End KickRejoin.

(** ** Anonymous sessions *)

Section SessionProperties.

Import ChatroomService Sessions.

(** X24. An expired session stays closed: once [getAnonymousUserInfo]
    has answered that the session is expired, every later call for the same
    uid, at any time and under any configured expiry, answers that the user
    is not there, and changes nothing. *)
Theorem expired_session_stays_closed t now env uid t' now' env' :
  getAnonymousUserInfo t now env uid = (Failed AnonymousExpired, t') ->
  getAnonymousUserInfo t' now' env' uid = (Failed AnonymousNotFound, t').
Proof.
  unfold getAnonymousUserInfo at 1.
  destruct (List.find _ (anonymous_users t)) as [a|]; [|discriminate].
  destruct (sessionExpiry env <? now - AnonymousUsers.join_time a);
    [|discriminate].
  intros [= <-]. unfold getAnonymousUserInfo.
  rewrite find_all_false; [reflexivity|].
  intros b Hb. simpl in Hb. apply in_map_iff in Hb as (b0 & <- & _).
  destruct (has_uid uid b0) eqn:E.
  - unfold has_uid in *. simpl. rewrite E. reflexivity.
  - rewrite E. reflexivity.
Qed.

Lemma expired_session_stays_closed_witness :
  exists t',
    getAnonymousUserInfo Fixture.base 90000000 None Fixture.guest
    = (Failed AnonymousExpired, t')
    /\ getAnonymousUserInfo t' 90000001 None Fixture.guest
       = (Failed AnonymousNotFound, t').
Proof.
  eexists. split; [reflexivity|].
  exact (expired_session_stays_closed Fixture.base 90000000 None Fixture.guest
           _ 90000001 None eq_refl).
Defined.

Lemma overdue_iff_expired now env a :
  AnonymousUsers.is_active a = true ->
  overdue (now - sessionExpiry env) a
  = (sessionExpiry env <? now - AnonymousUsers.join_time a).
Proof.
  intros Ha. unfold overdue. rewrite Ha, andb_true_r.
  destruct (Z.ltb_spec (AnonymousUsers.join_time a) (now - sessionExpiry env)),
    (Z.ltb_spec (sessionExpiry env) (now - AnonymousUsers.join_time a));
    (reflexivity || lia).
Qed.

(** What the lookup of [getAnonymousUserInfo] finds after the sweep. *)
Lemma swept_find t now env uid :
  List.find (fun a => has_uid uid a && AnonymousUsers.is_active a)
    (anonymous_users (snd (cleanupExpiredAnonymousUsers t now env)))
  = List.find (fun a => has_uid uid a && AnonymousUsers.is_active a
                        && negb (overdue (now - sessionExpiry env) a))
              (anonymous_users t).
Proof.
  simpl. induction (anonymous_users t) as [|a l IH]; simpl; [reflexivity|].
  destruct (overdue (now - sessionExpiry env) a) eqn:Ho; simpl.
  - rewrite !andb_false_r. exact IH.
  - rewrite andb_true_r.
    destruct (has_uid uid a && AnonymousUsers.is_active a); [reflexivity|exact IH].
Qed.

(** X25. The sweep and the lookup draw the same line: at the instant
    of a [cleanupExpiredAnonymousUsers], with the same configured expiry,
    [getAnonymousUserInfo] finds no session expired among those the sweep
    left, and a session the lookup accepted before the sweep is accepted
    after it, with the same data. *)
Theorem sweep_agrees_with_lookup t now env uid :
  fst (getAnonymousUserInfo (snd (cleanupExpiredAnonymousUsers t now env))
                            now env uid)
  <> Failed AnonymousExpired
  /\ forall info,
       fst (getAnonymousUserInfo t now env uid) = Done info ->
       fst (getAnonymousUserInfo (snd (cleanupExpiredAnonymousUsers t now env))
                                 now env uid) = Done info.
Proof.
  split.
  - unfold getAnonymousUserInfo. rewrite swept_find.
    destruct (List.find _ (anonymous_users t)) as [a|] eqn:E; [|discriminate].
    apply find_some in E as [_ E]. apply andb_prop in E as [E Ho].
    apply andb_prop in E as [_ Ha]. apply negb_true_iff in Ho.
    rewrite (overdue_iff_expired now env a Ha) in Ho. rewrite Ho. discriminate.
  - intros info. unfold getAnonymousUserInfo. rewrite swept_find.
    destruct (List.find (fun a => has_uid uid a && AnonymousUsers.is_active a)
                        (anonymous_users t)) as [a|] eqn:E; [|discriminate].
    destruct (sessionExpiry env <? now - AnonymousUsers.join_time a) eqn:Hexp;
      [discriminate|].
    simpl. intros [= <-].
    assert (List.find
              (fun a0 => has_uid uid a0 && AnonymousUsers.is_active a0
                         && negb (overdue (now - sessionExpiry env) a0))
              (anonymous_users t) = Some a) as ->.
    { induction (anonymous_users t) as [|b l IH]; simpl in *; [discriminate|].
      destruct (has_uid uid b && AnonymousUsers.is_active b) eqn:Eb; simpl.
      - injection E as ->. apply andb_prop in Eb as [_ Hact].
        rewrite (overdue_iff_expired now env a Hact), Hexp. reflexivity.
      - apply IH. exact E. }
    rewrite Hexp. reflexivity.
Qed.

(** X26. Coming back starts the mute again: a successful
    [reactivateAnonymousUser] returns the time of the call plus the
    configured mute duration as deadline, the anonymous row of the user in
    the room is active again with that deadline and with the time of the
    call as its join time, and the mute check reports the user muted at
    every time before the deadline, however long the user had been in the
    room before. *)
Theorem reactivation_restarts_mute t now env uid chatroomId r t' later :
  reactivateAnonymousUser t now env uid chatroomId = (Done r, t') ->
  0 <= later ->
  later < now + Config.muteDuration env ->
  now + Config.muteDuration env <= Utils.maxTime ->
  rv_muteUntil r = now + Config.muteDuration env
  /\ (exists a, activeAnonymous t' uid chatroomId = Some a
                /\ AnonymousUsers.mute_until a
                   = Some (now + Config.muteDuration env)
                /\ AnonymousUsers.join_time a = now)
  /\ isMuted (checkUserMuted t' later uid chatroomId) = true.
Proof.
  unfold reactivateAnonymousUser.
  destruct (List.find (is_anonymous_of chatroomId uid) (anonymous_users t))
    as [a|] eqn:E; [|discriminate].
  intros [= <- <-] Hlater Hlt Hmax. split; [reflexivity|].
  assert (activeAnonymous
            (update_anonymous (is_anonymous_of chatroomId uid)
               (revive now (now + Config.muteDuration env)) t) uid chatroomId
          = Some (revive now (now + Config.muteDuration env) a)) as Hact.
  { unfold activeAnonymous. simpl. clear -E.
    induction (anonymous_users t) as [|b l IH]; simpl in *; [discriminate|].
    destruct (is_anonymous_of chatroomId uid b) eqn:Eb.
    - injection E as ->. rewrite is_active_anonymous_of. simpl.
      unfold is_anonymous_of in *. simpl. rewrite Eb. reflexivity.
    - rewrite is_active_anonymous_of, Eb. simpl. apply IH. exact E. }
  split; [eexists; split; [exact Hact|]; simpl; auto|].
  apply checkUserMuted_active; [exact Hlater|].
  right. eexists _, _. split; [exact Hact|]. split; [reflexivity|].
  split; assumption.
Qed.

Lemma reactivation_restarts_mute_witness :
  (0 <= 1300000
   /\ 1300000 < 1000000 + Config.muteDuration None
   /\ 1000000 + Config.muteDuration None <= Utils.maxTime)
  /\ isMuted (checkUserMuted Fixture.base 1300000 Fixture.guest Fixture.lobby)
     = false
  /\ exists r t',
      reactivateAnonymousUser Fixture.base 1000000 None Fixture.guest Fixture.lobby
      = (Done r, t')
      /\ rv_muteUntil r = 1600000
      /\ isMuted (checkUserMuted t' 1300000 Fixture.guest Fixture.lobby) = true.
Proof.
  assert (0 <= 1300000) as H0 by lia.
  assert (1300000 < 1000000 + Config.muteDuration None) as H1
      by (vm_compute; reflexivity).
  assert (1000000 + Config.muteDuration None <= Utils.maxTime) as H2
      by (vm_compute; discriminate).
  split; [auto|]. split; [reflexivity|].
  eexists _, _. split; [reflexivity|]. split; [reflexivity|].
  exact (proj2 (proj2
           (reactivation_restarts_mute Fixture.base 1000000 None Fixture.guest
              Fixture.lobby _ _ 1300000 eq_refl H0 H1 H2))).
Defined.

(** X27. The two permission checks agree: [checkUserPermissions] of the
    user service reports somebody as administrator exactly when
    [checkAdminPermission] of the chat-room service grants the right, and
    whoever it reports as creator it reports as administrator. *)
Theorem permissions_agree t uid chatroomId :
  isAdmin (checkUserPermissions t uid chatroomId)
  = checkAdminPermission t uid chatroomId
  /\ (isCreator (checkUserPermissions t uid chatroomId) = true ->
      isAdmin (checkUserPermissions t uid chatroomId) = true).
Proof.
  unfold checkUserPermissions, checkAdminPermission.
  destruct (find_room t chatroomId) as [c|]; simpl.
  - destruct (Chatrooms.creator_uid c ==s uid); simpl; auto.
    split; [reflexivity|discriminate].
  - split; [reflexivity|discriminate].
Qed.

End SessionProperties.

(** ** The send-message handler and the registry *)

Section Handler.

Import Server SendHandler MessageService.

(** X28. Nobody can send under another name or into another room: a
    message the [send-message] handler broadcasts comes from a socket whose
    current room is the room named, is stored for that room as a text
    message without image or file, has the socket's own user as sender, and
    the handler leaves the presence registry as it was. *)
Theorem accepted_message_is_from_socket_principal st now messageId sid content
        roomId replyToMessageId st' r m :
  sendMessageHandler st now messageId sid content roomId replyToMessageId
  = (st', NewMessage r m) ->
  exists sock,
    sockets st !! sid = Some sock
    /\ currentRoom sock = Some roomId
    /\ r = roomId
    /\ Messages.chatroom_id (mr_row m) = roomId
    /\ Messages.sender_uid (mr_row m) = uid (user sock)
    /\ Messages.sender (mr_row m) = sender_of_kind (kind (user sock))
    /\ Messages.mtype (mr_row m) = TText
    /\ Messages.image_url (mr_row m) = None
    /\ Messages.file_id (mr_row m) = None
    /\ onlineUsers st' = onlineUsers st
    /\ userSockets st' = userSockets st
    /\ sockets st' = sockets st.
Proof.
  unfold sendMessageHandler.
  destruct (sockets st !! sid) as [sock|] eqn:Hsock; [|discriminate].
  destruct (not_in_room sock roomId) eqn:Hin; [discriminate|].
  destruct (sendMessage _ _ _ _) as [[res|e] db2] eqn:Hsend; [|discriminate].
  intros [= <- <- <-]. exists sock.
  apply sendMessage_ok_inv in Hsend as (_ & _ & -> & _).
  unfold not_in_room in Hin.
  destruct (currentRoom sock) as [c|]; [|discriminate].
  apply orb_false_elim in Hin as [_ Hin]. apply negb_false_iff in Hin.
  apply String.eqb_eq in Hin. subst c. simpl. repeat split; reflexivity.
Qed.

Lemma accepted_message_is_from_socket_principal_witness :
  exists st' m,
    sendMessageHandler HandlerFixture.in_lobby 2000 "uuid-1" 1%nat (Some "hi")
                       Fixture.lobby None
    = (st', NewMessage Fixture.lobby m)
    /\ Messages.sender_uid (mr_row m) = Fixture.bob.
Proof.
  assert (sockets HandlerFixture.in_lobby !! 1%nat
          = Some HandlerFixture.bob_in_lobby) as Hs by apply lookup_insert_eq.
  assert (exists st' m,
             sendMessageHandler HandlerFixture.in_lobby 2000 "uuid-1" 1%nat
                                (Some "hi") Fixture.lobby None
             = (st', NewMessage Fixture.lobby m)) as (st' & m & Hrun).
  { unfold sendMessageHandler. rewrite Hs. eexists _, _. reflexivity. }
  exists st', m. split; [exact Hrun|].
  destruct (accepted_message_is_from_socket_principal _ _ _ _ _ _ _ _ _ _ Hrun)
    as (sock & Hsock & _ & _ & _ & Huid & _).
  rewrite Hs in Hsock. injection Hsock as <-. exact Huid.
Defined.

(** [sendMessage] neither reads nor writes [chatroom_members]. *)
Lemma sendMessage_members t ms now messageId d :
  sendMessage (set_chatroom_members t ms) now messageId d
  = (fst (sendMessage t now messageId d),
     set_chatroom_members (snd (sendMessage t now messageId d)) ms).
Proof.
  unfold sendMessage.
  destruct (validate d); [reflexivity|].
  change (ChatroomService.checkUserMuted (set_chatroom_members t ms))
    with (ChatroomService.checkUserMuted t).
  destruct (ChatroomService.isMuted _); [reflexivity|].
  change (find_message (set_chatroom_members t ms)) with (find_message t).
  destruct (match reply_requested d with
            | Some p => _ | None => _ end) as [reply|e]; [|reflexivity].
  change (new_row (set_chatroom_members t ms)) with (new_row t).
  change (insert_allowed (set_chatroom_members t ms)) with (insert_allowed t).
  destruct (negb (insert_allowed t _)); [reflexivity|].
  change (sender_view (insert_message (set_chatroom_members t ms)
                                      (new_row t now messageId d)))
    with (sender_view (insert_message t (new_row t now messageId d))).
  destruct (sender_view _ _ _ _); [|reflexivity].
  destruct reply as [m|]; [|reflexivity].
  destruct (sender_view _ _ _ _); reflexivity.
Qed.

(** X29. Membership does not count when a message is sent: what the
    [send-message] handler answers, a broadcast or an error, is the same
    over any other content of [chatroom_members]; so a member whose row a
    kick has set to left, and whose socket is still in the room, is
    answered as before the kick as far as the member rows go. *)
Theorem send_ignores_membership st ms now messageId sid content roomId
        replyToMessageId :
  snd (sendMessageHandler (with_members st ms) now messageId sid content roomId
                          replyToMessageId)
  = snd (sendMessageHandler st now messageId sid content roomId replyToMessageId).
Proof.
  unfold sendMessageHandler, with_members. simpl.
  destruct (sockets st !! sid) as [sock|]; [|reflexivity].
  destruct (not_in_room sock roomId); [reflexivity|].
  unfold ChatroomService.updateMemberActivity, ChatroomService.update_member.
  simpl. rewrite !sendMessage_members. simpl.
  destruct (fst (sendMessage (db st) now messageId
                   (text_data sock roomId content replyToMessageId)));
    reflexivity.
Qed.

End Handler.

(** ** Two leaves of one connection *)

Section Overlap.

Import Server Stepwise.

Lemma leave_rest_unfold st now sid sock roomId :
  sockets st !! sid = Some sock ->
  leave_rest st now sid roomId
  = match getOnlineUserList
            (mkState (db st) (onlineUsers (leaving st now sock roomId))
                     (userSockets st) (sockets st)) now roomId with
    | Err _ =>
        (mkState (db st) (onlineUsers (leaving st now sock roomId))
                 (userSockets st) (sockets st), [])
    | Ok l =>
        (mkState (db st) (onlineUsers (leaving st now sock roomId))
                 (userSockets st)
                 (<[sid := mkSocket (user sock) None
                                    (set_delete roomId (rooms sock))]>
                    (sockets st)),
         [ToOthers sid roomId
            (UserLeft (uid (user sock)) (nickname (user sock)) l)])
    end.
Proof.
  intros Hs. unfold leave_rest, leave_unlist, leave_notify. rewrite Hs.
  cbn [sockets db onlineUsers userSockets leaving]. rewrite Hs. reflexivity.
Qed.

(** Run with nothing between its parts, the call is [handleUserLeaveRoom]
    as one step. *)
Lemma handleUserLeaveRoom_parts st now sid :
  handleUserLeaveRoom st now sid
  = match leave_begin st now sid with
    | (st1, Some roomId) => leave_rest st1 now sid roomId
    | (st1, None) => (st1, [])
    end.
Proof.
  unfold handleUserLeaveRoom, leave_begin.
  destruct (sockets st !! sid) as [sock|] eqn:Hs; [|reflexivity].
  destruct (currentRoom sock) as [roomId|]; [|reflexivity].
  destruct (roomId ==s ""); [reflexivity|].
  cbv beta iota.
  erewrite leave_rest_unfold by exact Hs. reflexivity.
Qed.

Lemma disconnect_parts st now sid :
  disconnect st now sid
  = match disconnect_begin st now sid with
    | (st1, Some roomId) => leave_rest st1 now sid roomId
    | (st1, None) => (st1, [])
    end.
Proof.
  unfold disconnect, disconnect_begin.
  destruct (sockets st !! sid) as [sock|] eqn:Hs; [|reflexivity].
  rewrite handleUserLeaveRoom_parts. unfold leave_begin.
  cbn [sockets db onlineUsers userSockets]. rewrite Hs.
  destruct (currentRoom sock) as [roomId|]; [|reflexivity].
  destruct (roomId ==s ""); reflexivity.
Qed.

Lemma leave_begin_in_room st now sid sock roomId :
  sockets st !! sid = Some sock ->
  currentRoom sock = Some roomId ->
  roomId <> "" ->
  leave_begin st now sid
  = (mkState (ChatroomService.setMemberOffline (db st) now roomId
                (uid (user sock)))
             (onlineUsers st) (userSockets st) (sockets st),
     Some roomId).
Proof.
  intros Hs Hroom Hne. unfold leave_begin. rewrite Hs, Hroom.
  apply String.eqb_neq in Hne. rewrite Hne. reflexivity.
Qed.

Lemma leave_unlist_sockets st sid roomId :
  sockets (leave_unlist st sid roomId) = sockets st.
Proof. unfold leave_unlist. destruct (sockets st !! sid); reflexivity. Qed.

Lemma leave_notify_emits st sid sock roomId l :
  sockets st !! sid = Some sock ->
  snd (leave_notify st sid roomId l)
  = [ToOthers sid roomId (UserLeft (uid (user sock)) (nickname (user sock)) l)]
  /\ sockets (fst (leave_notify st sid roomId l)) !! sid
     = Some (mkSocket (user sock) None (set_delete roomId (rooms sock))).
Proof.
  intros Hs. unfold leave_notify. rewrite Hs. cbn [fst snd sockets].
  split; [reflexivity|apply lookup_insert_eq].
Qed.

(** X30. A [leave-room] followed by the [disconnect] of the same
    connection before the first call has gone on: both calls pass the test
    of [socket.currentRoom], which is reset last, so both go on for the
    same room, and whatever lists they are given, each sends [user-left]
    for the principal. A call that begins after the first has finished
    stops at the test. *)
Theorem overlapping_leaves_notify_twice st now1 now2 now3 sid sock roomId l1 l2 :
  sockets st !! sid = Some sock ->
  currentRoom sock = Some roomId ->
  roomId <> "" ->
  exists st1 st2,
    leave_begin st now1 sid = (st1, Some roomId)
    /\ disconnect_begin st1 now2 sid = (st2, Some roomId)
    /\ let first := leave_notify (leave_unlist st2 sid roomId) sid roomId l1 in
       let second :=
         leave_notify (leave_unlist (fst first) sid roomId) sid roomId l2 in
       snd first
       = [ToOthers sid roomId
            (UserLeft (uid (user sock)) (nickname (user sock)) l1)]
       /\ snd second
          = [ToOthers sid roomId
               (UserLeft (uid (user sock)) (nickname (user sock)) l2)]
       /\ leave_begin (fst first) now3 sid = (fst first, None)
       /\ disconnect_begin (fst second) now3 sid
          = (mkState (db (fst second)) (onlineUsers (fst second))
                     (delete (uid (user sock)) (userSockets (fst second)))
                     (sockets (fst second)),
             None).
Proof.
  intros Hs Hroom Hne.
  rewrite (leave_begin_in_room st now1 sid sock roomId Hs Hroom Hne).
  eexists _, _. split; [reflexivity|].
  unfold disconnect_begin. cbn [sockets]. rewrite Hs.
  erewrite leave_begin_in_room by (try exact Hs; eassumption).
  cbn [db onlineUsers userSockets sockets].
  split; [reflexivity|].
  set (st2 := mkState _ _ _ _).
  assert (sockets (leave_unlist st2 sid roomId) !! sid = Some sock) as Hs2
      by (rewrite leave_unlist_sockets; exact Hs).
  destruct (leave_notify_emits _ sid sock roomId l1 Hs2) as [Hout1 Hs3].
  cbv zeta. set (first := leave_notify (leave_unlist st2 sid roomId) sid roomId l1)
    in *.
  assert (sockets (leave_unlist (fst first) sid roomId) !! sid
          = Some (mkSocket (user sock) None (set_delete roomId (rooms sock))))
    as Hs3' by (rewrite leave_unlist_sockets; exact Hs3).
  destruct (leave_notify_emits _ sid _ roomId l2 Hs3') as [Hout2 Hs4].
  split; [exact Hout1|]. split; [exact Hout2|]. split.
  - unfold leave_begin. rewrite Hs3. reflexivity.
  - unfold disconnect_begin, leave_begin. rewrite Hs4. reflexivity.
Qed.

Lemma overlapping_leaves_notify_twice_witness :
  (sockets HandlerFixture.in_lobby !! 1%nat = Some HandlerFixture.bob_in_lobby
   /\ currentRoom HandlerFixture.bob_in_lobby = Some Fixture.lobby
   /\ Fixture.lobby <> "")
  /\ exists st1 st2,
      leave_begin HandlerFixture.in_lobby 2000 1%nat = (st1, Some Fixture.lobby)
      /\ disconnect_begin st1 2001 1%nat = (st2, Some Fixture.lobby)
      /\ snd (leave_notify (leave_unlist st2 1%nat Fixture.lobby) 1%nat
                           Fixture.lobby [])
         = [ToOthers 1%nat Fixture.lobby
              (UserLeft Fixture.bob
                        (nickname PresenceFixture.bob_principal) [])]
      /\ snd (leave_notify
                (leave_unlist
                   (fst (leave_notify (leave_unlist st2 1%nat Fixture.lobby)
                                      1%nat Fixture.lobby []))
                   1%nat Fixture.lobby)
                1%nat Fixture.lobby [])
         = [ToOthers 1%nat Fixture.lobby
              (UserLeft Fixture.bob
                        (nickname PresenceFixture.bob_principal) [])].
Proof.
  assert (sockets HandlerFixture.in_lobby !! 1%nat
          = Some HandlerFixture.bob_in_lobby) as Hs by apply lookup_insert_eq.
  assert (Fixture.lobby <> "") as Hne by discriminate.
  split; [split; [exact Hs|split; [reflexivity|exact Hne]]|].
  destruct (overlapping_leaves_notify_twice HandlerFixture.in_lobby 2000 2001 2002
              1%nat HandlerFixture.bob_in_lobby Fixture.lobby [] []
              Hs eq_refl Hne)
    as (st1 & st2 & H1 & H2 & H3 & H4 & _).
  exists st1, st2. repeat split; assumption.
Defined.

End Overlap.
